(** * NeuroBalance client: gaze hook, game canvas and session dashboard

    A shallow embedding of the three stateful parts of the client:

    - [WebGazer]  : hooks/useWebGazer.ts, the smoothing listener [onGaze];
    - [Canvas]    : Game.tsx, the paddle-and-ball simulation, its keyboard
                    handlers, the three-point calibration and the render
                    effect;
    - [Dashboard] : page.tsx, trial buffering and score retrieval.

    Numbers.  The source computes on JavaScript numbers.  They are modelled
    as exact rationals, extended by one extra value, NaN, which the source
    can produce without any rounding being involved (an array read past the
    end yields [undefined], and arithmetic on it yields NaN).  [Canvas]
    computes without rounding; [Binary64] repeats the calibration, the
    smoothing update and the clamp on binary64 numbers, and is where a
    result that rounding decides is stated.

    Effects.  Mutable refs become fields of a state record that is threaded
    through every handler.  Reads of the environment (the clock, the random
    generator, the canvas rectangle, the gaze reference, the network) are
    explicit inputs of the handler that performs them; calls of the trial
    callback and of [fetch] are returned as output lists. *)

From Stdlib Require Import Reals Qreals Lra.
From Stdlib Require Import QArith Qabs Qround Lqa Lia List Bool String ZArith.
From Stdlib Require Import DecimalString.
From Corelib Require PrimFloat.
Set Warnings "-inexact-float".
Import ListNotations.
Open Scope Q_scope.

(* ================================================================== *)
(** * JavaScript numbers *)
(* ================================================================== *)

Definition Qltb (x y : Q) : bool := negb (Qle_bool y x).
Definition Qmax2 (x y : Q) : Q := if Qle_bool x y then y else x.
Definition Qmin2 (x y : Q) : Q := if Qle_bool x y then x else y.
Definition Qsign (x : Q) : Q := if Qltb 0 x then 1 else if Qltb x 0 then -1 else 0.

(** [Math.round]: the nearest integer, halves going up. *)
Definition Qround_half_up (x : Q) : Z := Qfloor (x + (1 # 2)).

Module Num.

(** A number is a rational or NaN. *)
Definition num := option Q.
Definition NaN : num := None.
Definition fin (q : Q) : num := Some q.

Definition lift1 (f : Q -> Q) (a : num) : num :=
  match a with Some x => Some (f x) | None => None end.
Definition lift2 (f : Q -> Q -> Q) (a b : num) : num :=
  match a, b with Some x, Some y => Some (f x y) | _, _ => None end.
Definition cmp (f : Q -> Q -> bool) (a b : num) : bool :=
  match a, b with Some x, Some y => f x y | _, _ => false end.

Definition add := lift2 Qplus.
Definition sub := lift2 Qminus.
Definition mul := lift2 Qmult.
(** A zero divisor gives an infinity or NaN in the source; the model has
    no infinities and answers NaN.  Every divisor of the modelled code is
    a non-zero constant or guarded against zero. *)
Definition div (a b : num) : num :=
  match a, b with
  | Some x, Some y => if Qeq_bool y 0 then None else Some (x / y)
  | _, _ => None
  end.
Definition abs := lift1 Qabs.          (* Math.abs *)
Definition sign := lift1 Qsign.        (* Math.sign *)
Definition max := lift2 Qmax2.         (* Math.max: NaN if either is *)
Definition min := lift2 Qmin2.         (* Math.min: NaN if either is *)

(** Comparisons with NaN are false. *)
Definition leb := cmp Qle_bool.
Definition ltb := cmp Qltb.
Definition geb (a b : num) := leb b a.
Definition gtb (a b : num) := ltb b a.

(** Truthiness of a number: neither 0 nor NaN. *)
Definition truthy (a : num) : bool :=
  match a with Some x => negb (Qeq_bool x 0) | None => false end.
(** [a || b] on numbers. *)
Definition orElse (a b : num) : num := if truthy a then a else b.

Definition isFinite (a : num) : bool :=
  match a with Some _ => true | None => false end.

(** Equality of numbers as values: rationals up to [==]; NaN only with
    NaN (used to compare results, not to model [===]). *)
Definition eq (a b : num) : Prop :=
  match a, b with
  | Some x, Some y => x == y
  | None, None => True
  | _, _ => False
  end.

(** [arr[i]] used as a number: [undefined] past the end behaves as NaN in
    arithmetic. *)
Definition index (l : list num) (i : nat) : num :=
  match nth_error l i with Some v => v | None => NaN end.

Definition between (lo hi : Q) (a : num) : Prop :=
  match a with Some x => lo <= x <= hi | None => False end.

End Num.

Abbreviation num := Num.num.
Abbreviation NaN := Num.NaN.
Coercion Num.fin : Q >-> Num.num.

Declare Scope num_scope.
Delimit Scope num_scope with num.
Bind Scope num_scope with Num.num.
Infix "+" := Num.add : num_scope.
Infix "-" := Num.sub : num_scope.
Infix "*" := Num.mul : num_scope.
Infix "/" := Num.div : num_scope.
Infix "=n=" := Num.eq (at level 70, no associativity).

(** Truthiness of [number | null]. *)
Definition truthy_opt (o : option Q) : bool :=
  match o with Some t => negb (Qeq_bool t 0) | None => false end.

(** [a ?? b] on [T | null]. *)
Definition nullish {A : Type} (o : option A) (d : A) : A :=
  match o with Some v => v | None => d end.

(* ================================================================== *)
(** * hooks/useWebGazer.ts *)
(* ================================================================== *)

Module WebGazer.

Record Point := mkPoint { x : Q; y : Q }.

(** What the engine hands to the listener: [null], or a pair of
    coordinates that may fail [Number.isFinite]. *)
Record Sample := mkSample { sx : num; sy : num }.

Record Opts := mkOpts { alpha : Q; deadzone : Q; lostMs : Q }.

Definition defaults : Opts := mkOpts 0.6 12 180.

Record Hook := mkHook {
  ready : bool;
  lost : bool;
  rawRef : option Point;
  smoothRef : option Point;
  lastTsRef : Q
}.

Definition init : Hook := mkHook false true None None 0.

(** [Math.hypot(dx, dy) >= d], decided on rationals by comparing squares
    (see [hypot_geb_spec] for the agreement with the real square root). *)
Definition hypot_geb (dx dy d : Q) : bool :=
  Qle_bool d 0 || Qle_bool (d * d) (dx * dx + dy * dy).

Definition valid (p : option Sample) : option Point :=
  match p with
  | Some (mkSample (Some px) (Some py)) => Some (mkPoint px py)
  | _ => None
  end.

Definition onGaze (o : Opts) (now : Q) (p : option Sample) (h : Hook) : Hook :=
  match valid p with
  | None =>
      (* ignore invalid frames *)
      mkHook (ready h) (lost h) None (smoothRef h) (lastTsRef h)
  | Some pt =>
      let smooth' :=
        match smoothRef h with
        | None => Some pt
        | Some prev =>
            let dx := x pt - x prev in
            let dy := y pt - y prev in
            if hypot_geb dx dy (deadzone o)
            then Some (mkPoint (x prev + alpha o * dx) (y prev + alpha o * dy))
            else Some prev
        end in
      mkHook (ready h) false (Some pt) smooth' now
  end.

(** The heartbeat that flags the signal lost. *)
Definition beat (o : Opts) (now : Q) (h : Hook) : Hook :=
  mkHook (ready h) (Qltb (lostMs o) (now - lastTsRef h))
         (rawRef h) (smoothRef h) (lastTsRef h).

Definition begin (h : Hook) : Hook :=
  mkHook true (lost h) (rawRef h) (smoothRef h) (lastTsRef h).

Definition point_eq (p q : Point) : Prop := x p == x q /\ y p == y q.

Definition opt_point_eq (p q : option Point) : Prop :=
  match p, q with
  | Some a, Some b => point_eq a b
  | None, None => True
  | _, _ => False
  end.

(** What reaches the hook over time: a call of the gaze listener or a
    heartbeat, each with the clock reading it makes. *)
Inductive Input :=
| Gaze (now : Q) (p : option Sample)
| Beat (now : Q).

Definition react (o : Opts) (i : Input) (h : Hook) : Hook :=
  match i with
  | Gaze now p => onGaze o now p h
  | Beat now => beat o now h
  end.

Definition feed (o : Opts) (ins : list Input) (h : Hook) : Hook :=
  fold_left (fun acc i => react o i acc) ins h.

(** An input that brings no valid sample. *)
Definition stale_input (i : Input) : Prop :=
  match i with
  | Gaze _ p => valid p = None
  | Beat _ => True
  end.

End WebGazer.

(* ================================================================== *)
(** * Game.tsx *)
(* ================================================================== *)

Module Paddle.
Record t := mk { x : num; y : Q; w : Q; h : Q; speed : Q }.
Definition with_x (p : t) (v : num) : t := mk v (y p) (w p) (h p) (speed p).
End Paddle.

Module Ball.
Record t := mk { x : num; y : num; r : Q; vx : num; vy : num }.
End Ball.

Module Canvas.

(** Base logical canvas size. *)
Definition W : Q := 800.
Definition H : Q := 500.

Inductive Metric := latency_ms | accuracy_px | drift_px.

Record Trial := mkTrial {
  game : string;
  metric_name : Metric;
  value : num;
  unit : string
}.

Record Keys := mkKeys { left : bool; right : bool }.

(** x' = a*x + b *)
Record Calib := mkCalib { a : num; b : num }.

(** The values the render effect closes over, which are also its
    dependency array. *)
Record Deps := mkDeps { sessionId : option Z; useGaze : bool; ready : bool }.

(** Round metrics. *)
Record Round := mkRound {
  roundStartTs : option Q;
  firstContactTs : option Q;
  driftAcc : num;
  lastPaddleX : num;
  runningRef : bool
}.

(** Calibration state.  [timers] lists the calibration callbacks that
    have been scheduled and have not fired yet, oldest first, each with
    the index [idx] it captured when it was scheduled. *)
Record Calibration := mkCalibration {
  calibratingRef : bool;
  calibIndexRef : nat;
  calibSamplesRef : list num;
  calib : option Calib;
  timers : list nat
}.

Record State := mkState {
  paddle : Paddle.t;
  ball : Ball.t;
  keys : Keys;
  round : Round;
  cal : Calibration;
  deps : Deps
}.

Definition calibTargets : list num := [Num.fin 0.15; Num.fin 0.5; Num.fin 0.85].

Definition numZ (z : Z) : Q := inject_Z z.

(** The refs as the first render creates them. *)
Definition paddle0 : Paddle.t :=
  Paddle.mk (Num.fin (W / 2)) (H - 22)
            (numZ (Qround_half_up (W * 0.30)))
            (Qmax2 12 (numZ (Qround_half_up (H * 0.035))))
            (Qmax2 6 (numZ (Qround_half_up (W * 0.012)))).

Definition ball0 : Ball.t :=
  Ball.mk (Num.fin (W / 2)) (Num.fin (numZ (Qround_half_up (H * 0.30))))
          (Qmax2 6 (numZ (Qround_half_up (H * 0.025))))
          (Num.fin (W * 0.007)) (Num.fin (H * 0.012)).

Definition init (d : Deps) : State :=
  mkState paddle0 ball0 (mkKeys false false)
          (mkRound None None (Num.fin 0) (Paddle.x paddle0) false)
          (mkCalibration false 0 [] None [])
          d.

(** What [resetRound] reads from the environment: three draws of
    [Math.random()] in program order and one of [performance.now()]. *)
Record Env := mkEnv { rnd1 : Q; rnd2 : Q; rnd3 : Q; clock : Q }.

Definition resetRound (e : Env) (g : State) : State :=
  let bl := ball g in
  let bl' :=
    Ball.mk (Num.fin (W / 2)) (Num.fin 120) (Ball.r bl)
            (Num.fin ((if Qltb (rnd1 e) 0.5 then -1 else 1) * (2.8 + rnd2 e * 1.2)))
            (Num.fin (3.6 + rnd3 e * 1.4)) in
  mkState (paddle g) bl' (keys g)
          (mkRound (Some (clock e)) None (Num.fin 0) (Paddle.x (paddle g)) true)
          (cal g) (deps g).

(** Map gaze viewport X -> canvas X, then apply linear calibration. *)
Definition mapGazeX (c : option Calib) (gxViewport rectLeft : Q) : num :=
  let rawCanvasX := gxViewport - rectLeft in
  match c with
  | None => Num.fin rawCanvasX
  | Some k => (a k * Num.fin rawCanvasX + b k)%num
  end.

Definition scheduleCalibSample (c : Calibration) : Calibration :=
  mkCalibration (calibratingRef c) (calibIndexRef c) (calibSamplesRef c)
                (calib c) (timers c ++ [calibIndexRef c]).

(** Start 3-point calibration. *)
Definition startCalibration (g : State) : State :=
  let c := cal g in
  let r := round g in
  mkState (paddle g) (ball g) (keys g)
          (mkRound (roundStartTs r) (firstContactTs r) (driftAcc r)
                   (lastPaddleX r) false)
          (scheduleCalibSample
             (mkCalibration true 0 [] (calib c) (timers c)))
          (deps g).

(** [arr.reduce((acc, xi, i) => f acc xi i, init)] *)
Fixpoint reduce_i {A B : Type} (f : A -> B -> nat -> A) (l : list B)
         (i : nat) (acc : A) : A :=
  match l with
  | [] => acc
  | xi :: rest => reduce_i f rest (S i) (f acc xi i)
  end.

Definition reduce {A B : Type} (f : A -> B -> A) (l : list B) (acc : A) : A :=
  fold_left f l acc.

(** Fit linear map.  The sums and the test of [|| 1] are exact here; the
    source rounds each operation, see [Binary64.fitLinear]. *)
Definition fitLinear (screenXs : list num) : Calib :=
  let canvasXs := map (fun t => (t * Num.fin W)%num) calibTargets in
  let n := Num.fin (numZ (Z.of_nat (List.length screenXs))) in
  let sx := reduce Num.add screenXs (Num.fin 0) in
  let sy := reduce Num.add canvasXs (Num.fin 0) in
  let sxx := reduce (fun acc v => (acc + v * v)%num) screenXs (Num.fin 0) in
  let sxy := reduce_i (fun acc xi i => (acc + xi * Num.index canvasXs i)%num)
                      screenXs 0%nat (Num.fin 0) in
  let denom := Num.orElse (n * sxx - sx * sx)%num (Num.fin 1) in
  let a := ((n * sxy - sx * sy) / denom)%num in
  let b := ((sy - a * sx) / n)%num in
  mkCalib a b.

(** The samples one callback pushes: at each of twelve instants, the
    smoothed gaze x minus the canvas left edge, when a smoothed sample
    exists.  [gs] lists [smooth.current] at those instants. *)
Definition collect (rectLeft : Q) (gs : list (option WebGazer.Point)) : list Q :=
  flat_map (fun g => match g with
                     | Some p => [WebGazer.x p - rectLeft]
                     | None => []
                     end) (firstn 12 gs).

Definition average (idx : nat) (samples : list Q) : num :=
  match samples with
  | [] => (Num.index calibTargets idx * Num.fin W)%num
  | _ => Num.fin (reduce Qplus samples 0 / numZ (Z.of_nat (List.length samples)))
  end.

(** The body of the callback [scheduleCalibSample] hands to [setTimeout],
    run for the oldest pending callback. *)
Definition calibFire (rectLeft : Q) (gs : list (option WebGazer.Point))
           (c : Calibration) : Calibration :=
  match timers c with
  | [] => c
  | idx :: pending =>
      let avg := average idx (collect rectLeft gs) in
      let samples' := calibSamplesRef c ++ [avg] in
      let index' := S (calibIndexRef c) in
      if (index' <? List.length calibTargets)%nat
      then scheduleCalibSample
             (mkCalibration (calibratingRef c) index' samples' (calib c) pending)
      else mkCalibration false index' samples' (Some (fitLinear samples')) pending
  end.

(** What one animation frame reads from outside the component. *)
Record FrameInput := mkFrame {
  now : Q;                             (* performance.now() *)
  smooth : option WebGazer.Point;      (* smooth.current *)
  lostRef : bool;                      (* lostRef.current *)
  rectLeft : Q                         (* cvs.getBoundingClientRect().left *)
}.

Definition clampX (p : Paddle.t) (v : num) : num :=
  Num.max (Num.fin (Paddle.w p / 2)) (Num.min (Num.fin (W - Paddle.w p / 2)) v).

(** Control: gaze (preferred) or keyboard fallback. *)
Definition control (d : Deps) (c : option Calib) (k : Keys) (f : FrameInput)
           (p : Paddle.t) : Paddle.t :=
  match useGaze d, smooth f with
  | true, Some s =>
      let mappedX := mapGazeX c (WebGazer.x s) (rectLeft f) in
      if negb (lostRef f) then
        let maxDelta := Num.fin (W * 0.1) in
        let targetXRaw := clampX p mappedX in
        let delta := (targetXRaw - Paddle.x p)%num in
        let clampedTargetX :=
          if Num.gtb (Num.abs delta) maxDelta
          then (Paddle.x p + Num.sign delta * maxDelta)%num
          else targetXRaw in
        let lerp := Num.fin 0.42 in
        Paddle.with_x p (Paddle.x p + (clampedTargetX - Paddle.x p) * lerp)%num
      else p
  | _, _ =>
      let x1 := if left k then (Paddle.x p - Num.fin (Paddle.speed p))%num
                else Paddle.x p in
      let x2 := if right k then (x1 + Num.fin (Paddle.speed p))%num else x1 in
      Paddle.with_x p (clampX p x2)
  end.

(** Ball physics. *)
Definition physics (bl : Ball.t) : Ball.t :=
  let x' := (Ball.x bl + Ball.vx bl)%num in
  let y' := (Ball.y bl + Ball.vy bl)%num in
  let r := Num.fin (Ball.r bl) in
  let vx' := if Num.leb (x' - r)%num (Num.fin 0) || Num.geb (x' + r)%num (Num.fin W)
             then (Ball.vx bl * Num.fin (-1))%num else Ball.vx bl in
  let vy' := if Num.leb (y' - r)%num (Num.fin 0)
             then (Ball.vy bl * Num.fin (-1))%num else Ball.vy bl in
  Ball.mk x' y' (Ball.r bl) vx' vy'.

Definition pTop (p : Paddle.t) : Q := Paddle.y p - Paddle.h p / 2.
Definition pLeft (p : Paddle.t) : num := (Paddle.x p - Num.fin (Paddle.w p / 2))%num.
Definition pRight (p : Paddle.t) : num := (Paddle.x p + Num.fin (Paddle.w p / 2))%num.

Definition hit (p : Paddle.t) (bl : Ball.t) : bool :=
  Num.geb (Ball.y bl + Num.fin (Ball.r bl))%num (Num.fin (pTop p)) &&
  Num.geb (Ball.x bl) (pLeft p) &&
  Num.leb (Ball.x bl) (pRight p) &&
  Num.gtb (Ball.vy bl) (Num.fin 0).

(** [null] read as a number. *)
Definition of_null (o : option Q) : Q := match o with Some t => t | None => 0 end.

Definition trial (m : Metric) (v : num) (u : string) : Trial :=
  mkTrial "paddle" m v u.

(** One run of [tick]: the new state and the calls of [onTrial], in
    order. *)
Definition tick (f : FrameInput) (g : State) : State * list Trial :=
  if calibratingRef (cal g) then (g, [])   (* calibration overlay only *)
  else
    let p := control (deps g) (calib (cal g)) (keys g) f (paddle g) in
    let r := round g in
    (* Drift accumulation *)
    let drift := (driftAcc r + Num.abs (Paddle.x p - lastPaddleX r))%num in
    let last := Paddle.x p in
    let bl := physics (ball g) in
    let isHit := hit p bl in
    let first := isHit && negb (truthy_opt (firstContactTs r))
                       && truthy_opt (roundStartTs r) in
    let contact := if first then Some (now f) else firstContactTs r in
    let out1 :=
      if first
      then [trial latency_ms (Num.fin (of_null contact - of_null (roundStartTs r))) "ms";
            trial accuracy_px (Num.abs (Ball.x bl - Paddle.x p)%num) "px"]
      else [] in
    let bl' :=
      if isHit then
        let offset := ((Ball.x bl - Paddle.x p) / Num.fin (Paddle.w p / 2))%num in
        Ball.mk (Ball.x bl) (Ball.y bl) (Ball.r bl)
                (Ball.vx bl + offset * Num.fin 1.15)%num
                (Ball.vy bl * Num.fin (-1))%num
      else bl in
    let ended := Num.gtb (Ball.y bl' - Num.fin (Ball.r bl'))%num (Num.fin H)
                 && runningRef r in
    let out2 := if ended then [trial drift_px drift "px"] else [] in
    (mkState p bl' (keys g)
             (mkRound (roundStartTs r) contact drift last
                      (if ended then false else runningRef r))
             (cal g) (deps g),
     out1 ++ out2).

Inductive Key := ArrowLeft | ArrowRight | Space | KeyC | OtherKey.

Definition keydown (k : Key) (e : Env) (g : State) : State :=
  match k with
  | ArrowLeft =>
      mkState (paddle g) (ball g) (mkKeys true (right (keys g)))
              (round g) (cal g) (deps g)
  | ArrowRight =>
      mkState (paddle g) (ball g) (mkKeys (left (keys g)) true)
              (round g) (cal g) (deps g)
  | Space => resetRound e g
  | KeyC => startCalibration g
  | OtherKey => g
  end.

Definition keyup (k : Key) (g : State) : State :=
  match k with
  | ArrowLeft =>
      mkState (paddle g) (ball g) (mkKeys false (right (keys g)))
              (round g) (cal g) (deps g)
  | ArrowRight =>
      mkState (paddle g) (ball g) (mkKeys (left (keys g)) false)
              (round g) (cal g) (deps g)
  | _ => g
  end.

Definition opt_Z_eqb (u v : option Z) : bool :=
  match u, v with
  | Some m, Some n => Z.eqb m n
  | None, None => true
  | _, _ => false
  end.

Definition deps_eqb (d1 d2 : Deps) : bool :=
  opt_Z_eqb (sessionId d1) (sessionId d2) &&
  Bool.eqb (useGaze d1) (useGaze d2) &&
  Bool.eqb (ready d1) (ready d2).

(** A re-render with the values [d].  The render effect, whose
    dependency array is [sessionId, useGaze, ready], runs again when one
    of them changed, and its body starts with [resetRound()]. *)
Definition render (d : Deps) (e : Env) (g : State) : State :=
  if deps_eqb (deps g) d then g
  else resetRound e (mkState (paddle g) (ball g) (keys g) (round g) (cal g) d).

(** First mount: the refs are created and the render effect runs. *)
Definition mount (d : Deps) (e : Env) : State := resetRound e (init d).

Inductive Event :=
| KeyDown (k : Key) (e : Env)
| KeyUp (k : Key)
| Frame (f : FrameInput)
| CalibTimer (rectLeft : Q) (gs : list (option WebGazer.Point))
| Render (d : Deps) (e : Env).

Definition step (ev : Event) (g : State) : State * list Trial :=
  match ev with
  | KeyDown k e => (keydown k e g, [])
  | KeyUp k => (keyup k g, [])
  | Frame f => tick f g
  | CalibTimer rl gs =>
      (mkState (paddle g) (ball g) (keys g) (round g)
               (calibFire rl gs (cal g)) (deps g), [])
  | Render d e => (render d e g, [])
  end.

Fixpoint run (evs : list Event) (g : State) : State * list Trial :=
  match evs with
  | [] => (g, [])
  | ev :: rest =>
      let '(g1, out1) := step ev g in
      let '(g2, out2) := run rest g1 in
      (g2, out1 ++ out2)
  end.

End Canvas.

(* ================================================================== *)
(** * page.tsx *)
(* ================================================================== *)

Module Dashboard.

Local Open Scope string_scope.

Definition backend : string := "http://127.0.0.1:8000".

Record Metrics := mkMetrics { latency_ms : num; drift_px : num; accuracy_px : num }.
Record Result := mkResult { severity : option num; metrics : option Metrics }.

(** The fields the client reads from a JSON reply; [None]: the field is
    missing.  (A field holding JSON [null] is not modelled.) *)
Record Json := mkJson {
  j_session_id : option Z;
  j_status : option string;
  j_severity : option num;
  j_score : option num;
  j_metrics : option Metrics;
  j_avg_latency : option num;
  j_avg_drift : option num;
  j_avg_accuracy : option num
}.

Inductive Method := GET | POST.

Record TrialBody := mkBody { latency : num; accuracy : num; drift : num }.

Inductive Body :=
| NoBody
| FormData (fields : list (string * string))
| JsonBody (rows : list TrialBody).   (* Content-Type: application/json *)

Record Request := mkRequest { method : Method; url : string; body : Body }.

(** What a call of [fetch] does: it throws, or it resolves to a response
    with its [ok] flag and the outcome of [res.json()] ([None]: parsing
    throws). *)
Inductive Reply :=
| Throws
| Response (ok : bool) (json : option Json).

Definition Net := Request -> Reply.

(** [Math.round] of a number; [None] is NaN. *)
Definition round (v : num) : option Z :=
  match v with Some q => Some (Qround_half_up q) | None => None end.

(** The status line.  Fixed texts are kept as the source spells them;
    templates keep the interpolated values. *)
Inductive Message :=
| Literal (s : string)
| SessionStarted (id : option Z)                 (* Session {id} started *)
| Summary (latency drift accuracy : option Z)    (* {l}ms . {d}px drift . {a}px acc *)
| Severity (sev : option num)                    (* Severity {sev or a dash} *)
| BackendStatus (status : option string).        (* Backend: {status} *)

(** The page state, with the two temp holders of the [submitTrial]
    closure that the canvas calls. *)
Record Page := mkPage {
  sessionId : option Z;
  message : Message;
  result : option Result;
  useGaze : bool;
  lastLatency : option num;
  lastAccuracy : option num
}.

Definition init : Page := mkPage None (Literal EmptyString) None true None None.

(** Truthiness of [number | null]. *)
Definition truthy_id (s : option Z) : bool :=
  match s with Some z => negb (Z.eqb z 0) | None => false end.

Definition showZ (z : Z) : string := NilZero.string_of_int (Z.to_int z).

Definition showId (s : option Z) : string :=
  match s with Some z => showZ z | None => "null" end.

Definition set_message (m : Message) (p : Page) : Page :=
  mkPage (sessionId p) m (result p) (useGaze p) (lastLatency p) (lastAccuracy p).

Definition startSession (net : Net) (p : Page) : Page * list Request :=
  let req := mkRequest POST (backend ++ "/session/start")
                       (FormData [("metadata", "web-demo")]) in
  match net req with
  | Response _ (Some data) =>
      (mkPage (j_session_id data) (SessionStarted (j_session_id data)) None
              (useGaze p) (lastLatency p) (lastAccuracy p), [req])
  | _ => (set_message (Literal "Backend error starting session") p, [req])
  end.

Definition trialsUrl (s : option Z) : string :=
  backend ++ "/session/" ++ showId s ++ "/trials".
Definition scoreUrl (s : option Z) : string :=
  backend ++ "/session/" ++ showId s ++ "/score".

Definition submitTrial (net : Net) (t : Canvas.Trial) (p : Page)
  : Page * list Request :=
  if negb (truthy_id (sessionId p))
  then (set_message (Literal "Start a session first") p, [])
  else
    match Canvas.metric_name t with
    | Canvas.latency_ms =>
        (mkPage (sessionId p) (message p) (result p) (useGaze p)
                (Some (Canvas.value t)) (lastAccuracy p), [])
    | Canvas.accuracy_px =>
        (mkPage (sessionId p) (message p) (result p) (useGaze p)
                (lastLatency p) (Some (Canvas.value t)), [])
    | Canvas.drift_px =>
        let rows := [mkBody (nullish (lastLatency p) (Num.fin 300))
                            (nullish (lastAccuracy p) (Num.fin 80))
                            (Canvas.value t)] in
        let p1 := mkPage (sessionId p) (message p) (result p) (useGaze p)
                         None None in
        let req := mkRequest POST (trialsUrl (sessionId p)) (JsonBody rows) in
        match net req with
        | Throws => (set_message (Literal "Error saving trial") p1, [req])
        | Response _ _ => (p1, [req])
        end
    end.

(** Successive calls of the same [submitTrial] closure, with the
    requests they send. *)
Fixpoint submitAll (net : Net) (ts : list Canvas.Trial) (p : Page)
  : Page * list Request :=
  match ts with
  | [] => (p, [])
  | t :: rest =>
      let '(p1, sent1) := submitTrial net t p in
      let '(p2, sent2) := submitAll net rest p1 in
      (p2, (sent1 ++ sent2)%list)
  end.

Definition parseScore (data : Json) : Result :=
  let severity :=
    match j_severity data with
    | Some s => Some s
    | None => j_score data
    end in
  let metrics :=
    match j_metrics data with
    | Some m => Some m
    | None =>
        match j_avg_latency data with
        | Some l => Some (mkMetrics l (nullish (j_avg_drift data) NaN)
                                    (nullish (j_avg_accuracy data) NaN))
        | None => None
        end
    end in
  mkResult severity metrics.

Definition scoreMessage (r : Result) : Message :=
  match metrics r with
  | Some m => Summary (round (latency_ms m)) (round (drift_px m))
                      (round (accuracy_px m))
  | None => Severity (severity r)
  end.

(** The tail of [computeScore]: parse the response [res] that was
    chosen and store the result. *)
Definition scoreFrom (p : Page) (res : Reply) : Page :=
  match res with
  | Response _ (Some data) =>
      let r := parseScore data in
      mkPage (sessionId p) (scoreMessage r) (Some r) (useGaze p)
             (lastLatency p) (lastAccuracy p)
  | _ => set_message (Literal "Error computing score") p
  end.

(** [tryPost && tryPost.ok], where a throwing POST was caught as [null]. *)
Definition succeeded (r : Reply) : bool :=
  match r with Response true _ => true | _ => false end.

Definition computeScore (net : Net) (p : Page) : Page * list Request :=
  if negb (truthy_id (sessionId p))
  then (set_message (Literal "Start a session first") p, [])
  else
    let post := mkRequest POST (scoreUrl (sessionId p)) NoBody in
    let get := mkRequest GET (scoreUrl (sessionId p)) NoBody in
    if succeeded (net post)
    then (scoreFrom p (net post), [post])
    else (scoreFrom p (net get), [post; get]).

Definition health (net : Net) (p : Page) : Page * list Request :=
  let req := mkRequest GET (backend ++ "/health") NoBody in
  match net req with
  | Response _ (Some d) => (set_message (BackendStatus (j_status d)) p, [req])
  | _ => (set_message (Literal "Backend not reachable") p, [req])
  end.

(** The holders are plain objects made by each render of the page, and the
    canvas keeps calling the [submitTrial] it captured when its render
    effect last ran.  When that effect runs again (see [Canvas.render]) the
    canvas captures the closure of the latest render, whose holders are
    empty. *)
Definition recapture (p : Page) : Page :=
  mkPage (sessionId p) (message p) (result p) (useGaze p) None None.

Definition toggleGaze (p : Page) : Page :=
  mkPage (sessionId p) (message p) (result p) (negb (useGaze p))
         (lastLatency p) (lastAccuracy p).

(** [disabled={!sessionId}] on the Compute Score button. *)
Definition computeScoreDisabled (p : Page) : bool := negb (truthy_id (sessionId p)).

Definition severityLabel (sev : option num) : string * string :=
  match sev with
  | None => ("—", "bg-slate-600")
  | Some s =>
      if Num.geb s (Num.fin 85) then ("High", "bg-red-500")
      else if Num.geb s (Num.fin 60) then ("Medium", "bg-amber-500")
      else ("Low", "bg-emerald-500")
  end.

(** [const sev = result?.severity ?? null] *)
Definition sev (p : Page) : option num :=
  match result p with Some r => severity r | None => None end.

(** The width of the progress bar, in percent:
    [Math.max(0, Math.min(100, sev ?? 0))]. *)
Definition barWidth (p : Page) : num :=
  Num.max (Num.fin 0) (Num.min (Num.fin 100) (nullish (sev p) (Num.fin 0))).

(** The badge: the label, and the rounded severity when there is one. *)
Definition badge (p : Page) : string * option (option Z) :=
  (fst (severityLabel (sev p)),
   match sev p with Some s => Some (round s) | None => None end).

End Dashboard.

(* ================================================================== *)
(** * The arithmetic on binary64 *)
(* ================================================================== *)

(** The fit, the smoothing update and the clamp once more, on the
    binary64 numbers the source computes with, to run the worked examples
    with rounding. *)
Module Binary64.

Import PrimFloat.
Local Open Scope float_scope.

Definition W : float := 800.
Definition calibTargets : list float := [0.15; 0.5; 0.85].

Definition isNaN (v : float) : bool := negb (v =? v).

(** [arr[i]] used as a number. *)
Definition index (l : list float) (i : nat) : float :=
  match nth_error l i with Some v => v | None => nan end.

(** [d || 1] *)
Definition orOne (d : float) : float :=
  if orb (d =? 0) (isNaN d) then 1 else d.

(** A length as a number. *)
Fixpoint of_nat (n : nat) : float :=
  match n with O => 0 | S k => of_nat k + 1 end.

Definition fitLinear (screenXs : list float) : float * float :=
  let canvasXs := map (fun t => t * W) calibTargets in
  let n := of_nat (List.length screenXs) in
  let sx := fold_left add screenXs 0 in
  let sy := fold_left add canvasXs 0 in
  let sxx := fold_left (fun acc v => acc + v * v) screenXs 0 in
  let sxy := Canvas.reduce_i (fun acc xi i => acc + xi * index canvasXs i)
                             screenXs 0%nat 0 in
  let denom := orOne (n * sxx - sx * sx) in
  let a := (n * sxy - sx * sy) / denom in
  let b := (sy - a * sx) / n in
  (a, b).

(** The value that [|| 1] tests in the fit: [n * sxx - sx * sx]. *)
Definition rawDenom (screenXs : list float) : float :=
  let n := of_nat (List.length screenXs) in
  let sx := fold_left add screenXs 0 in
  let sxx := fold_left (fun acc v => acc + v * v) screenXs 0 in
  n * sxx - sx * sx.

(** The update of one axis of the smoothed point, and the deadzone test,
    the Euclidean length being the square root of the sum of squares. *)
Definition ema (alpha prev raw : float) : float := prev + alpha * (raw - prev).
Definition reaches (dx dy deadzone : float) : bool :=
  deadzone <=? sqrt (dx * dx + dy * dy).

(** [Math.max] and [Math.min] of two numbers. *)
Definition max (u v : float) : float :=
  if orb (isNaN u) (isNaN v) then nan else if u <? v then v else u.
Definition min (u v : float) : float :=
  if orb (isNaN u) (isNaN v) then nan else if u <? v then u else v.
Definition clampX (v : float) : float := max 120 (min 680 v).

(** The calibration refs, as in [Canvas.Calibration], with binary64
    samples and coefficients. *)
Record Calibration := mkCalibration {
  calibratingRef : bool;
  calibIndexRef : nat;
  calibSamplesRef : list float;
  calib : option (float * float);
  timers : list nat
}.

Definition init : Calibration := mkCalibration false 0 [] None [].

Definition scheduleCalibSample (c : Calibration) : Calibration :=
  mkCalibration (calibratingRef c) (calibIndexRef c) (calibSamplesRef c)
                (calib c) (timers c ++ [calibIndexRef c]).

(** What [startCalibration] does to the calibration refs. *)
Definition startCalibration (c : Calibration) : Calibration :=
  scheduleCalibSample (mkCalibration true 0 [] (calib c) (timers c)).

(** The samples one callback pushes; [gs] lists the x of [smooth.current]
    at the twelve sampling instants, [None] when it is [null]. *)
Definition collect (rectLeft : float) (gs : list (option float)) : list float :=
  flat_map (fun g => match g with
                     | Some gx => [gx - rectLeft]
                     | None => []
                     end) (firstn 12 gs).

Definition average (idx : nat) (samples : list float) : float :=
  match samples with
  | [] => index calibTargets idx * W
  | _ => fold_left add samples 0 / of_nat (List.length samples)
  end.

(** The body of the calibration callback, run for the oldest pending
    callback. *)
Definition calibFire (rectLeft : float) (gs : list (option float))
           (c : Calibration) : Calibration :=
  match timers c with
  | [] => c
  | idx :: pending =>
      let avg := average idx (collect rectLeft gs) in
      let samples' := calibSamplesRef c ++ [avg] in
      let index' := S (calibIndexRef c) in
      if (index' <? List.length calibTargets)%nat
      then scheduleCalibSample
             (mkCalibration (calibratingRef c) index' samples' (calib c) pending)
      else mkCalibration false index' samples' (Some (fitLinear samples')) pending
  end.

(** One calibration pass from the first render: the C key, then the three
    callbacks, each reading the canvas left edge and the smoothed gaze. *)
Definition pass (rl0 rl1 rl2 : float) (gs0 gs1 gs2 : list (option float))
  : Calibration :=
  calibFire rl2 gs2 (calibFire rl1 gs1 (calibFire rl0 gs0 (startCalibration init))).

(** [smooth.current] resting at x = v over the twelve sampling instants of
    a calibration callback. *)
Definition held (v : float) : list (option float) := repeat (Some v) 12.

(** [mapGazeX], on binary64. *)
Definition mapGazeX (c : option (float * float)) (gxViewport rectLeft : float)
  : float :=
  let rawCanvasX := gxViewport - rectLeft in
  match c with
  | None => rawCanvasX
  | Some (a, b) => a * rawCanvasX + b
  end.

End Binary64.

(* ================================================================== *)
(** * The vocabulary of the specification *)
(* ================================================================== *)

(** The quantities and conditions the specification names, written as it
    states them; the theorems below compare them with what the code
    computes. *)
Module Spec.

Section Fit.
Variables s0 s1 s2 : Q.

Definition Sx : Q := s0 + s1 + s2.
Definition Sy : Q := 120 + 400 + 680.
Definition Sxx : Q := s0 * s0 + s1 * s1 + s2 * s2.
Definition Sxy : Q := s0 * 120 + s1 * 400 + s2 * 680.
(** denom = n*Sxx - Sx^2, replaced by 1 when zero. *)
Definition denom : Q :=
  if Qeq_bool (3 * Sxx - Sx * Sx) 0 then 1 else 3 * Sxx - Sx * Sx.
Definition fit_a : Q := (3 * Sxy - Sx * Sy) / denom.
Definition fit_b : Q := (Sy - fit_a * Sx) / 3.
End Fit.

(** ** Rounds and frames *)

(** The events whose handler calls [resetRound]: a Space keydown, and a
    render that changes a dependency of the render effect. *)
Definition is_reset (ev : Canvas.Event) (g : Canvas.State) : bool :=
  match ev with
  | Canvas.KeyDown Canvas.Space _ => true
  | Canvas.Render d _ => negb (Canvas.deps_eqb (Canvas.deps g) d)
  | _ => false
  end.

(** No event of the run resets the round. *)
Fixpoint quiet (evs : list Canvas.Event) (g : Canvas.State) : bool :=
  match evs with
  | [] => true
  | ev :: rest => negb (is_reset ev g) && quiet rest (fst (Canvas.step ev g))
  end.

(** Every frame of the run reads a non-zero clock. *)
Definition clocks_ok (evs : list Canvas.Event) : bool :=
  forallb (fun ev => match ev with
                     | Canvas.Frame f => negb (Qeq_bool (Canvas.now f) 0)
                     | _ => true
                     end) evs.

(** The paddle and the ball as the collision test of a frame sees them. *)
Definition paddleIn (f : Canvas.FrameInput) (g : Canvas.State) : Paddle.t :=
  Canvas.control (Canvas.deps g) (Canvas.calib (Canvas.cal g)) (Canvas.keys g)
                 f (Canvas.paddle g).
Definition ballIn (g : Canvas.State) : Ball.t := Canvas.physics (Canvas.ball g).

(** The frame runs the simulation and detects a paddle collision. *)
Definition detects (f : Canvas.FrameInput) (g : Canvas.State) : bool :=
  negb (Canvas.calibratingRef (Canvas.cal g)) &&
  Canvas.hit (paddleIn f g) (ballIn g).

(** The first frame of a run that detects a collision, with the state it
    starts from. *)
Fixpoint first_hit (evs : list Canvas.Event) (g : Canvas.State)
  : option (Canvas.FrameInput * Canvas.State) :=
  match evs with
  | [] => None
  | ev :: rest =>
      match ev with
      | Canvas.Frame f =>
          if detects f g then Some (f, g)
          else first_hit rest (fst (Canvas.step ev g))
      | _ => first_hit rest (fst (Canvas.step ev g))
      end
  end.

Definition is_drift (t : Canvas.Trial) : bool :=
  match Canvas.metric_name t with Canvas.drift_px => true | _ => false end.
Definition contact_trials (out : list Canvas.Trial) : list Canvas.Trial :=
  filter (fun t => negb (is_drift t)) out.
Definition drift_trials (out : list Canvas.Trial) : list Canvas.Trial :=
  filter is_drift out.

(** The sum of the absolute paddle x displacements of the simulated
    frames of a run, added to [acc]. *)
Fixpoint displacement (evs : list Canvas.Event) (g : Canvas.State) (acc : num)
  : num :=
  match evs with
  | [] => acc
  | ev :: rest =>
      let g1 := fst (Canvas.step ev g) in
      let acc1 :=
        match ev with
        | Canvas.Frame _ =>
            if Canvas.calibratingRef (Canvas.cal g) then acc
            else (acc + Num.abs (Paddle.x (Canvas.paddle g1)
                                 - Paddle.x (Canvas.paddle g)))%num
        | _ => acc
        end in
      displacement rest g1 acc1
  end.

(** The frame runs the simulation, the ball's top edge ends below H, and
    the round is marked running. *)
Definition round_end (f : Canvas.FrameInput) (g : Canvas.State) : bool :=
  negb (Canvas.calibratingRef (Canvas.cal g)) &&
  Num.gtb (Ball.y (ballIn g) - Num.fin (Ball.r (ballIn g)))%num
          (Num.fin Canvas.H) &&
  Canvas.runningRef (Canvas.round g).

(** The ball's bottom edge lies between the paddle's top and bottom
    edges. *)
Definition in_band (p : Paddle.t) (bl : Ball.t) : Prop :=
  match Ball.y bl with
  | Some by_ =>
      Paddle.y p - Paddle.h p / 2 <= by_ + Ball.r bl <= Paddle.y p + Paddle.h p / 2
  | None => False
  end.

(** The ball's x lies within the paddle's horizontal span. *)
Definition in_span (p : Paddle.t) (bl : Ball.t) : Prop :=
  match Ball.x bl, Paddle.x p with
  | Some bx, Some px => px - Paddle.w p / 2 <= bx <= px + Paddle.w p / 2
  | _, _ => False
  end.

(** The ball's bottom edge has reached the paddle's top edge. *)
Definition reached_top (p : Paddle.t) (bl : Ball.t) : Prop :=
  match Ball.y bl with
  | Some by_ => Paddle.y p - Paddle.h p / 2 <= by_ + Ball.r bl
  | None => False
  end.

Definition moving_down (bl : Ball.t) : Prop :=
  match Ball.vy bl with Some v => 0 < v | None => False end.

(** What a round reset does to the state. *)
Definition round_reset (e : Canvas.Env) (g g' : Canvas.State) : Prop :=
  Ball.x (Canvas.ball g') = Num.fin (Canvas.W / 2) /\
  Ball.y (Canvas.ball g') = Num.fin 120 /\
  Ball.vx (Canvas.ball g')
  = Num.fin ((if Qltb (Canvas.rnd1 e) 0.5 then -1 else 1)
             * (2.8 + Canvas.rnd2 e * 1.2)) /\
  Ball.vy (Canvas.ball g') = Num.fin (3.6 + Canvas.rnd3 e * 1.4) /\
  Canvas.round g'
  = Canvas.mkRound (Some (Canvas.clock e)) None (Num.fin 0)
                   (Paddle.x (Canvas.paddle g)) true.

(** The paddle x is a number within [lo, hi] = [w/2, W - w/2]. *)
Definition paddle_in_range (p : Paddle.t) : Prop :=
  Num.between (Paddle.w p / 2) (Canvas.W - Paddle.w p / 2) (Paddle.x p).

(** Between two events no round end is waiting to be noticed: the ball's
    top edge is not below H while the round is marked running. *)
Definition settled (g : Canvas.State) : Prop :=
  Ball.r (Canvas.ball g) = Ball.r Canvas.ball0 /\
  Num.gtb (Ball.y (Canvas.ball g) - Num.fin (Ball.r (Canvas.ball g)))%num
          (Num.fin Canvas.H)
  && Canvas.runningRef (Canvas.round g) = false.

(** The calibration transform is absent, or both coefficients are
    numbers. *)
Definition calib_numeric (c : option Canvas.Calib) : Prop :=
  match c with
  | None => True
  | Some k => Num.isFinite (Canvas.a k) = true /\ Num.isFinite (Canvas.b k) = true
  end.

(** The run never starts a calibration. *)
Definition no_calibration (evs : list Canvas.Event) : bool :=
  forallb (fun ev => match ev with
                     | Canvas.KeyDown Canvas.KeyC _ => false
                     | _ => true
                     end) evs.

(** The constants of the paddle and the ball are those of the first
    render. *)
Definition geometry (g : Canvas.State) : Prop :=
  Paddle.y (Canvas.paddle g) = Paddle.y Canvas.paddle0 /\
  Paddle.w (Canvas.paddle g) = Paddle.w Canvas.paddle0 /\
  Paddle.h (Canvas.paddle g) = Paddle.h Canvas.paddle0 /\
  Paddle.speed (Canvas.paddle g) = Paddle.speed Canvas.paddle0 /\
  Ball.r (Canvas.ball g) = Ball.r Canvas.ball0.

(** The width and the speed of a paddle are those of the first render. *)
Definition geometry_of (p : Paddle.t) : Prop :=
  Paddle.w p = Paddle.w Canvas.paddle0 /\
  Paddle.speed p = Paddle.speed Canvas.paddle0.

(** The run fires no calibration callback. *)
Definition no_callback (evs : list Canvas.Event) : bool :=
  forallb (fun ev => match ev with
                     | Canvas.CalibTimer _ _ => false
                     | _ => true
                     end) evs.

(** A draw of [Math.random()]. *)
Definition unit_draw (v : Q) : Prop := 0 <= v < 1.

(** No smoothed gaze sample is available at any of the twelve sampling
    instants of a calibration callback. *)
Definition no_gaze (gs : list (option WebGazer.Point)) : Prop :=
  forall i : nat, (i < 12)%nat -> nth i gs None = None.

End Spec.

(** Concrete inputs used to run the model. *)
Module Scenario.

Definition env0 : Canvas.Env := Canvas.mkEnv 0.7 0 0 1000.
Definition gazeOn : Canvas.Deps := Canvas.mkDeps None true true.
Definition gazeOff : Canvas.Deps := Canvas.mkDeps None false false.

(** The canvas right after its first mount. *)
Definition mounted : Canvas.State := Canvas.mount gazeOn env0.
Definition mountedKeyboard : Canvas.State := Canvas.mount gazeOff env0.

Definition gazeAt (v : Q) : option WebGazer.Point := Some (WebGazer.mkPoint v 0).
(** [smooth.current] resting at x = v over the twelve sampling instants of
    a calibration callback. *)
Definition steady (v : Q) : list (option WebGazer.Point) := repeat (gazeAt v) 12.

(** Keyboard play in which the ball passes the paddle's band beside the
    paddle and the paddle then moves under it: the paddle goes right for
    14 frames, rests for 84 frames, and goes right again. *)
Definition idle : Canvas.FrameInput := Canvas.mkFrame 3000 None true 0.
Definition lateCatch : list Canvas.Event :=
  [Canvas.KeyDown Canvas.ArrowRight env0] ++ repeat (Canvas.Frame idle) 14
  ++ [Canvas.KeyUp Canvas.ArrowRight] ++ repeat (Canvas.Frame idle) 84
  ++ [Canvas.KeyDown Canvas.ArrowRight env0; Canvas.Frame idle].

(** The C key pressed again while a calibration pass is in flight, the
    four callbacks that follow, and then one frame with a live gaze
    sample. *)
Definition looking : Canvas.FrameInput :=
  Canvas.mkFrame 4000 (gazeAt 300) false 0.
Definition restartedCalibration : list Canvas.Event :=
  [Canvas.KeyDown Canvas.KeyC env0; Canvas.KeyDown Canvas.KeyC env0;
   Canvas.CalibTimer 0 (steady 130); Canvas.CalibTimer 0 (steady 125);
   Canvas.CalibTimer 0 (steady 410); Canvas.CalibTimer 0 (steady 690)].

(** Keyboard play in which the paddle goes left and the ball falls past
    it: after 109 frames the next frame ends the round. *)
Definition missLeft : list Canvas.Event :=
  [Canvas.KeyDown Canvas.ArrowLeft env0] ++ repeat (Canvas.Frame idle) 109.

(** A later reading of the environment, and the dependencies after a
    session was started. *)
Definition env1 : Canvas.Env := Canvas.mkEnv 0.2 0.5 0.5 5000.
Definition withSession : Canvas.Deps := Canvas.mkDeps (Some 7%Z) true true.

(** A dashboard with session 7, and backends that answer every request
    with an empty JSON object, refuse every POST, or are unreachable. *)
Definition emptyJson : Dashboard.Json :=
  Dashboard.mkJson None None None None None None None None.
Definition page7 : Dashboard.Page :=
  Dashboard.mkPage (Some 7%Z) (Dashboard.Literal EmptyString) None true None None.
Definition netOk : Dashboard.Net :=
  fun _ => Dashboard.Response true (Some emptyJson).
Definition netPostRefused : Dashboard.Net :=
  fun r => match Dashboard.method r with
           | Dashboard.POST => Dashboard.Response false None
           | Dashboard.GET =>
               Dashboard.Response true
                 (Some (Dashboard.mkJson None None (Some (Num.fin 42)) None
                                         None None None None))
           end.
Definition netDown : Dashboard.Net := fun _ => Dashboard.Throws.
(** A backend whose Start Session reply carries session_id = 0. *)
Definition netZero : Dashboard.Net :=
  fun _ => Dashboard.Response true
             (Some (Dashboard.mkJson (Some 0%Z) None None None None None None None)).

End Scenario.

(* ================================================================== *)
(** * Facts about the number model *)
(* ================================================================== *)

Lemma Qltb_iff (x y : Q) : Qltb x y = true <-> x < y.
Proof.
  unfold Qltb. rewrite negb_true_iff.
  split; intro Hxy.
  - apply Qnot_le_lt. intro Hle. apply Qle_bool_iff in Hle. congruence.
  - destruct (Qle_bool y x) eqn:E; [|reflexivity].
    apply Qle_bool_iff in E. exfalso. exact (Qlt_not_le _ _ Hxy E).
Qed.

Lemma Qltb_false_iff (x y : Q) : Qltb x y = false <-> y <= x.
Proof.
  unfold Qltb. rewrite negb_false_iff. apply Qle_bool_iff.
Qed.

Lemma Qle_bool_false_iff (x y : Q) : Qle_bool x y = false <-> y < x.
Proof.
  split; intro Hxy.
  - apply Qnot_le_lt. intro Hle. apply Qle_bool_iff in Hle. congruence.
  - destruct (Qle_bool x y) eqn:E; [|reflexivity].
    apply Qle_bool_iff in E. exfalso. exact (Qlt_not_le _ _ Hxy E).
Qed.

Lemma Qeq_bool_false_iff (x y : Q) : Qeq_bool x y = false <-> ~ x == y.
Proof.
  split.
  - apply Qeq_bool_neq.
  - intro Hne. destruct (Qeq_bool x y) eqn:E; [|reflexivity].
    apply Qeq_bool_iff in E. contradiction.
Qed.

(** Case analysis on every rational test that occurs in the goal, leaving
    the outcome as an order fact among the hypotheses. *)
Ltac qtest :=
  repeat match goal with
  | |- context [Qle_bool ?u ?v] =>
      let E := fresh "E" in
      destruct (Qle_bool u v) eqn:E;
      [apply Qle_bool_iff in E | apply Qle_bool_false_iff in E]
  | |- context [Qltb ?u ?v] =>
      let E := fresh "E" in
      destruct (Qltb u v) eqn:E;
      [apply Qltb_iff in E | apply Qltb_false_iff in E]
  | |- context [Qeq_bool ?u ?v] =>
      let E := fresh "E" in
      destruct (Qeq_bool u v) eqn:E;
      [apply Qeq_bool_iff in E | apply Qeq_bool_false_iff in E]
  end.

Lemma Qmax2_bounds (x y : Q) : x <= Qmax2 x y /\ y <= Qmax2 x y.
Proof. unfold Qmax2. qtest; lra. Qed.

Lemma Qmin2_bounds (x y : Q) : Qmin2 x y <= x /\ Qmin2 x y <= y.
Proof. unfold Qmin2. qtest; lra. Qed.

Lemma clamp_range (lo hi v : Q) :
  lo <= hi -> lo <= Qmax2 lo (Qmin2 hi v) <= hi.
Proof. intro Hlh. unfold Qmax2, Qmin2. qtest; lra. Qed.

Lemma Qabs_cases (x : Q) : (0 <= x /\ Qabs x == x) \/ (x < 0 /\ Qabs x == - x).
Proof.
  destruct (Qlt_le_dec x 0) as [Hneg | Hpos].
  - right. split; [exact Hneg|]. apply Qabs_neg. lra.
  - left. split; [exact Hpos|]. apply Qabs_pos. exact Hpos.
Qed.

Lemma num_eq_refl (a : num) : a =n= a.
Proof. destruct a; simpl; [reflexivity | exact I]. Qed.

Lemma num_eq_sym (a b : num) : a =n= b -> b =n= a.
Proof. destruct a, b; simpl; auto. intro E. symmetry. exact E. Qed.

Lemma num_eq_trans (a b c : num) : a =n= b -> b =n= c -> a =n= c.
Proof.
  destruct a, b, c; simpl; auto; try contradiction.
  intros E1 E2. rewrite E1. exact E2.
Qed.

(** [hypot_geb] is the comparison of the deadzone with the Euclidean
    length of the delta. *)
Lemma hypot_geb_spec (dx dy d : Q) :
  WebGazer.hypot_geb dx dy d = true <->
  (Q2R d <= sqrt (Q2R dx * Q2R dx + Q2R dy * Q2R dy))%R.
Proof.
  unfold WebGazer.hypot_geb.
  assert (Hnn : (0 <= Q2R dx * Q2R dx + Q2R dy * Q2R dy)%R) by Lra.nra.
  rewrite orb_true_iff, !Qle_bool_iff.
  split.
  - intros [Hd | Hsq].
    + apply Qle_Rle in Hd. replace (Q2R 0) with 0%R in Hd by (unfold Q2R; simpl; Lra.lra).
      pose proof (sqrt_pos (Q2R dx * Q2R dx + Q2R dy * Q2R dy)). Lra.lra.
    + apply Qle_Rle in Hsq. rewrite Q2R_plus, !Q2R_mult in Hsq.
      destruct (Rle_dec (Q2R d) 0) as [Hneg | Hpos].
      * pose proof (sqrt_pos (Q2R dx * Q2R dx + Q2R dy * Q2R dy)). Lra.lra.
      * rewrite <- (sqrt_square (Q2R d)) by Lra.lra.
        apply sqrt_le_1; Lra.nra.
  - intro Hle.
    destruct (Qlt_le_dec 0 d) as [Hpos | Hneg]; [right | left; exact Hneg].
    apply Rle_Qle. rewrite Q2R_plus, !Q2R_mult.
    apply Qlt_Rlt in Hpos. replace (Q2R 0) with 0%R in Hpos by (unfold Q2R; simpl; Lra.lra).
    rewrite <- (sqrt_sqrt (Q2R dx * Q2R dx + Q2R dy * Q2R dy)) by exact Hnn.
    apply Rmult_le_compat; Lra.lra.
Qed.

Lemma hypot_geb_false (dx dy d : Q) :
  WebGazer.hypot_geb dx dy d = false <->
  (sqrt (Q2R dx * Q2R dx + Q2R dy * Q2R dy) < Q2R d)%R.
Proof.
  split.
  - intro Hf. apply Rnot_le_lt. intro Hle.
    apply hypot_geb_spec in Hle. congruence.
  - intro Hlt. destruct (WebGazer.hypot_geb dx dy d) eqn:E; [|reflexivity].
    apply hypot_geb_spec in E. Lra.lra.
Qed.

(* ================================================================== *)
(** * The gaze hook *)
(* ================================================================== *)

Section Smoothing.

Import WebGazer.

Variable o : Opts.
Variable now : Q.
Variable h : Hook.

Lemma onGaze_seed (px py : Q) :
  smoothRef h = None ->
  smoothRef (onGaze o now (Some (mkSample (Num.fin px) (Num.fin py))) h)
  = Some (mkPoint px py).
Proof. intro Hs. unfold onGaze. simpl. rewrite Hs. reflexivity. Qed.

Lemma onGaze_move (px py : Q) (prev : Point) :
  smoothRef h = Some prev ->
  hypot_geb (px - x prev) (py - y prev) (deadzone o) = true ->
  smoothRef (onGaze o now (Some (mkSample (Num.fin px) (Num.fin py))) h)
  = Some (mkPoint (x prev + alpha o * (px - x prev))
                  (y prev + alpha o * (py - y prev))).
Proof. intros Hs Hd. unfold onGaze. simpl. rewrite Hs, Hd. reflexivity. Qed.

Lemma onGaze_still (px py : Q) (prev : Point) :
  smoothRef h = Some prev ->
  hypot_geb (px - x prev) (py - y prev) (deadzone o) = false ->
  smoothRef (onGaze o now (Some (mkSample (Num.fin px) (Num.fin py))) h)
  = Some prev.
Proof. intros Hs Hd. unfold onGaze. simpl. rewrite Hs, Hd. reflexivity. Qed.

Lemma onGaze_invalid (p : option Sample) :
  valid p = None ->
  smoothRef (onGaze o now p h) = smoothRef h /\
  lastTsRef (onGaze o now p h) = lastTsRef h /\
  lost (onGaze o now p h) = lost h.
Proof. intro Hv. unfold onGaze. rewrite Hv. simpl. auto. Qed.

End Smoothing.

(** C6.  On a valid sample the listener seeds the smoothed point when there
    is none; otherwise it moves it by alpha times the delta on each axis
    when the Euclidean length of the delta reaches the deadzone, and leaves
    it alone below the deadzone.  With alpha 0.6, deadzone 12 and the
    smoothed point at (100,100), the sample (100,105) leaves it at (100,100)
    and the sample (100,120) moves it to (100,112). *)
Theorem C6_gaze_smoothing :
  (forall (o : WebGazer.Opts) (now : Q) (h : WebGazer.Hook) (px py : Q),
     let h' := WebGazer.onGaze o now
                 (Some (WebGazer.mkSample (Num.fin px) (Num.fin py))) h in
     (WebGazer.smoothRef h = None ->
      WebGazer.smoothRef h' = Some (WebGazer.mkPoint px py)) /\
     (forall prev : WebGazer.Point,
        WebGazer.smoothRef h = Some prev ->
        let dx := px - WebGazer.x prev in
        let dy := py - WebGazer.y prev in
        ((Q2R (WebGazer.deadzone o)
          <= sqrt (Q2R dx * Q2R dx + Q2R dy * Q2R dy))%R ->
         WebGazer.smoothRef h'
         = Some (WebGazer.mkPoint (WebGazer.x prev + WebGazer.alpha o * dx)
                                  (WebGazer.y prev + WebGazer.alpha o * dy))) /\
        ((sqrt (Q2R dx * Q2R dx + Q2R dy * Q2R dy)
          < Q2R (WebGazer.deadzone o))%R ->
         WebGazer.smoothRef h' = Some prev))) /\
  (forall (now : Q) (h : WebGazer.Hook),
     WebGazer.smoothRef h = Some (WebGazer.mkPoint 100 100) ->
     WebGazer.smoothRef
       (WebGazer.onGaze WebGazer.defaults now
          (Some (WebGazer.mkSample (Num.fin 100) (Num.fin 105))) h)
     = Some (WebGazer.mkPoint 100 100) /\
     WebGazer.opt_point_eq
       (WebGazer.smoothRef
          (WebGazer.onGaze WebGazer.defaults now
             (Some (WebGazer.mkSample (Num.fin 100) (Num.fin 120))) h))
       (Some (WebGazer.mkPoint 100 112))).
Proof.
  split.
  - intros o now h px py h'. split.
    + intro Hs. apply onGaze_seed. exact Hs.
    + intros prev Hs dx dy. split; intro Hd.
      * apply onGaze_move; [exact Hs|]. apply hypot_geb_spec. exact Hd.
      * apply onGaze_still; [exact Hs|]. apply hypot_geb_false. exact Hd.
  - intros now h Hs. split.
    + apply onGaze_still; [exact Hs|]. vm_compute. reflexivity.
    + rewrite (onGaze_move WebGazer.defaults now h 100 120 _ Hs)
        by (vm_compute; reflexivity).
      vm_compute. split; reflexivity.
Qed.

Lemma C6_gaze_smoothing_witness :
  let h := WebGazer.mkHook true false None
             (Some (WebGazer.mkPoint 100 100)) 0 in
  WebGazer.smoothRef
    (WebGazer.onGaze WebGazer.defaults 16
       (Some (WebGazer.mkSample (Num.fin 100) (Num.fin 105))) h)
  = Some (WebGazer.mkPoint 100 100) /\
  WebGazer.opt_point_eq
    (WebGazer.smoothRef
       (WebGazer.onGaze WebGazer.defaults 16
          (Some (WebGazer.mkSample (Num.fin 100) (Num.fin 120))) h))
    (Some (WebGazer.mkPoint 100 112)).
Proof.
  intro h.
  apply (proj2 C6_gaze_smoothing 16 h).
  reflexivity.
Defined.

(* ================================================================== *)
(** * Calibration *)
(* ================================================================== *)

Lemma div_fin (u v : Q) :
  ~ v == 0 -> (Num.fin u / Num.fin v)%num = Num.fin (u / v).
Proof.
  intro Hv. unfold Num.div, Num.fin.
  apply Qeq_bool_false_iff in Hv. rewrite Hv. reflexivity.
Qed.

Lemma denom_nonzero (s0 s1 s2 : Q) : ~ Spec.denom s0 s1 s2 == 0.
Proof. unfold Spec.denom. qtest; lra. Qed.

(** The fit over three numeric samples is the least-squares formula. *)
Lemma fitLinear_three (s0 s1 s2 : Q) :
  exists qa qb : Q,
    Canvas.fitLinear [Num.fin s0; Num.fin s1; Num.fin s2]
    = Canvas.mkCalib (Num.fin qa) (Num.fin qb) /\
    qa == Spec.fit_a s0 s1 s2 /\ qb == Spec.fit_b s0 s1 s2.
Proof.
  unfold Canvas.fitLinear, Canvas.reduce, Canvas.calibTargets.
  cbn [map fold_left Canvas.reduce_i List.length Num.index nth_error Num.mul
       Num.add Num.sub Num.lift2 Num.fin Z.of_nat].
  change (Canvas.numZ (Z.pos (PosDef.Pos.of_succ_nat 2))) with 3.
  set (d := 3 * (0 + s0 * s0 + s1 * s1 + s2 * s2)
            - (0 + s0 + s1 + s2) * (0 + s0 + s1 + s2)).
  set (nu := 3 * (0 + s0 * (0.15 * Canvas.W) + s1 * (0.5 * Canvas.W)
                  + s2 * (0.85 * Canvas.W))
             - (0 + s0 + s1 + s2)
               * (0 + 0.15 * Canvas.W + 0.5 * Canvas.W + 0.85 * Canvas.W)).
  assert (Hd : d == 3 * Spec.Sxx s0 s1 s2 - Spec.Sx s0 s1 s2 * Spec.Sx s0 s1 s2)
    by (unfold d, Spec.Sxx, Spec.Sx; ring).
  assert (Hnu : nu == 3 * Spec.Sxy s0 s1 s2 - Spec.Sx s0 s1 s2 * Spec.Sy)
    by (unfold nu, Spec.Sxy, Spec.Sx, Spec.Sy, Canvas.W; ring).
  assert (Hdiv : exists dd : Q,
             Num.orElse (Some d) (Num.fin 1) = Some dd /\
             dd == Spec.denom s0 s1 s2).
  { unfold Num.orElse, Num.truthy, Spec.denom.
    destruct (Qeq_bool d 0) eqn:E.
    - exists 1. split; [reflexivity|].
      apply Qeq_bool_iff in E. rewrite Hd in E.
      apply Qeq_eq_bool in E. rewrite E. reflexivity.
    - exists d. split; [reflexivity|].
      apply Qeq_bool_false_iff in E. rewrite Hd in E.
      apply Qeq_bool_false_iff in E. rewrite E. exact Hd. }
  destruct Hdiv as (dd & -> & Hdd).
  assert (Hnz : ~ dd == 0) by (rewrite Hdd; apply denom_nonzero).
  change (Some nu) with (Num.fin nu). change (Some dd) with (Num.fin dd).
  rewrite (div_fin nu dd Hnz).
  cbn [Num.mul Num.lift2 Num.fin Num.sub].
  match goal with
  | |- context [(Some ?u / Num.fin 3)%num] =>
      change (Some u / Num.fin 3)%num with (Num.fin u / Num.fin 3)%num;
      rewrite (div_fin u 3) by (intro H3; discriminate H3)
  end.
  eexists. eexists. split; [reflexivity|].
  assert (Ha : nu / dd == Spec.fit_a s0 s1 s2).
  { unfold Spec.fit_a. rewrite Hnu, Hdd. reflexivity. }
  split; [exact Ha|].
  unfold Spec.fit_b. rewrite Ha.
  unfold Spec.Sy, Spec.Sx, Canvas.W. field.
Qed.

(** One calibration pass started when no callback is pending: the three
    callbacks fire in turn, each for its own target, and the third one
    fits and leaves calibration mode. *)
Lemma calibration_pass (g : Canvas.State) (e : Canvas.Env)
      (rl0 rl1 rl2 : Q) (gs0 gs1 gs2 : list (option WebGazer.Point)) :
  Canvas.timers (Canvas.cal g) = [] ->
  let avg0 := Canvas.average 0 (Canvas.collect rl0 gs0) in
  let avg1 := Canvas.average 1 (Canvas.collect rl1 gs1) in
  let avg2 := Canvas.average 2 (Canvas.collect rl2 gs2) in
  Canvas.cal
    (fst (Canvas.run [Canvas.KeyDown Canvas.KeyC e; Canvas.CalibTimer rl0 gs0;
                      Canvas.CalibTimer rl1 gs1; Canvas.CalibTimer rl2 gs2] g))
  = Canvas.mkCalibration false 3 [avg0; avg1; avg2]
      (Some (Canvas.fitLinear [avg0; avg1; avg2])) [].
Proof.
  intros Ht avg0 avg1 avg2.
  unfold Canvas.run, Canvas.step, Canvas.keydown, Canvas.startCalibration,
    Canvas.scheduleCalibSample.
  cbn [fst snd Canvas.cal Canvas.timers Canvas.calibIndexRef
       Canvas.calibSamplesRef Canvas.calib Canvas.calibratingRef].
  rewrite Ht.
  unfold Canvas.calibFire, Canvas.scheduleCalibSample.
  cbn [fst snd app Canvas.cal Canvas.timers Canvas.calibIndexRef
       Canvas.calibSamplesRef Canvas.calib Canvas.calibratingRef
       Canvas.calibTargets List.length Nat.ltb Nat.leb].
  reflexivity.
Qed.

(** For three equal samples the denominator 3 Sxx - Sx^2 is zero, so the
    stated formulas, with 1 in its place, give a = 0 and b = Sy / 3 = 400. *)
Lemma equal_samples_fit (s : Q) :
  Spec.denom s s s == 1 /\ Spec.fit_a s s s == 0 /\ Spec.fit_b s s s == 400.
Proof.
  assert (Hz : 3 * Spec.Sxx s s s - Spec.Sx s s s * Spec.Sx s s s == 0)
    by (unfold Spec.Sxx, Spec.Sx; ring).
  assert (Hd : Spec.denom s s s == 1).
  { unfold Spec.denom. apply Qeq_eq_bool in Hz. rewrite Hz. reflexivity. }
  assert (Ha : Spec.fit_a s s s == 0).
  { unfold Spec.fit_a. rewrite Hd. unfold Spec.Sxy, Spec.Sx, Spec.Sy. field. }
  split; [exact Hd|]. split; [exact Ha|].
  unfold Spec.fit_b. rewrite Ha. unfold Spec.Sx, Spec.Sy. field.
Qed.

Section DegenerateFit.

Import PrimFloat.
Local Open Scope float_scope.

(** [Binary64.rawDenom] is the value the fit tests and divides by. *)
Lemma fitLinear_rawDenom (xs : list float) :
  Binary64.fitLinear xs
  = (let canvasXs := map (fun t => t * Binary64.W) Binary64.calibTargets in
     let n := Binary64.of_nat (List.length xs) in
     let sx := fold_left add xs 0 in
     let sy := fold_left add canvasXs 0 in
     let sxy := Canvas.reduce_i
                  (fun acc xi i => acc + xi * Binary64.index canvasXs i)
                  xs 0%nat 0 in
     let a := (n * sxy - sx * sy) / Binary64.orOne (Binary64.rawDenom xs) in
     (a, (sy - a * sx) / n)).
Proof. reflexivity. Qed.

(** C5, where the code departs from it.  The fit of (0,120), (400,400),
    (800,680) is a = 0.7 (the double nearest to it) and b = 120, and the
    denominator is replaced by 1 when the computed value is zero: a gaze
    held at x = 300 records 300 three times and the pass stores a = 0,
    b = 400, as the stated formulas give for any three equal samples.
    But the computed value is what [|| 1] tests.  A gaze held at x = 300.4
    records 300.40000000000003 three times; the denominator, zero for
    equal samples, comes out as 2^-33 after rounding, the guard does not
    fire, and the pass stores a = 2, b = -200.80000000000004: a gaze at
    x = 500 is then mapped to the right end of the paddle range, 680,
    where a = 0, b = 400 map it to the centre. *)
Theorem C5_zero_denominator_guard_misses :
  (forall s : Q,
     (Spec.denom s s s == 1 /\ Spec.fit_a s s s == 0
      /\ Spec.fit_b s s s == 400)%Q) /\
  (let c := Binary64.pass 0 0 0 (Binary64.held 0x1.2c66666666666p+8)
              (Binary64.held 0x1.2c66666666666p+8)
              (Binary64.held 0x1.2c66666666666p+8) in
   Binary64.calibratingRef c = false /\
   Binary64.calibSamplesRef c
   = [0x1.2c66666666667p+8; 0x1.2c66666666667p+8; 0x1.2c66666666667p+8] /\
   Binary64.rawDenom (Binary64.calibSamplesRef c) = 0x1p-33 /\
   Binary64.calib c = Some (2, -0x1.919999999999bp+7) /\
   Binary64.clampX (Binary64.mapGazeX (Binary64.calib c) 500 0) = 680 /\
   Binary64.clampX (Binary64.mapGazeX (Some (0, 400)) 500 0) = 400) /\
  (let c := Binary64.pass 0 0 0 (Binary64.held 300) (Binary64.held 300)
              (Binary64.held 300) in
   Binary64.calibSamplesRef c = [300; 300; 300] /\
   Binary64.rawDenom (Binary64.calibSamplesRef c) = 0 /\
   Binary64.calib c = Some (0, 400)) /\
  (let c := Binary64.pass 0 0 0 (Binary64.held 0) (Binary64.held 400)
              (Binary64.held 800) in
   Binary64.calibSamplesRef c = [0; 400; 800] /\
   Binary64.calib c = Some (0x1.6666666666666p-1, 120)).
Proof.
  split; [exact equal_samples_fit|].
  split; [|split]; vm_compute; repeat split; reflexivity.
Qed.

End DegenerateFit.

Lemma collect_no_gaze (rl : Q) (gs : list (option WebGazer.Point)) :
  Spec.no_gaze gs -> Canvas.collect rl gs = [].
Proof.
  unfold Spec.no_gaze, Canvas.collect.
  generalize 12%nat as n. intro n. revert gs.
  induction n as [|n IH]; intros gs Hgs; [reflexivity|].
  destruct gs as [|g gs]; [reflexivity|].
  cbn [firstn flat_map].
  assert (Hg : g = None) by (apply (Hgs 0%nat); lia).
  rewrite Hg. cbn [app].
  apply IH. intros i Hi. apply (Hgs (S i)). lia.
Qed.

(** C9.  When no smoothed gaze sample is available at any sampling instant
    of a calibration pass, the recorded samples are the targets' own canvas
    positions 120, 400, 680, the fit is the identity a = 1, b = 0, and the
    calibrated gaze mapping equals the uncalibrated pass-through. *)
Theorem C9_fallback_identity :
  forall (g : Canvas.State) (e : Canvas.Env) (rl0 rl1 rl2 : Q)
         (gs0 gs1 gs2 : list (option WebGazer.Point)),
    Canvas.timers (Canvas.cal g) = [] ->
    Spec.no_gaze gs0 -> Spec.no_gaze gs1 -> Spec.no_gaze gs2 ->
    let g' := fst (Canvas.run
                     [Canvas.KeyDown Canvas.KeyC e; Canvas.CalibTimer rl0 gs0;
                      Canvas.CalibTimer rl1 gs1; Canvas.CalibTimer rl2 gs2] g) in
    Forall2 Num.eq (Canvas.calibSamplesRef (Canvas.cal g'))
            [Num.fin 120; Num.fin 400; Num.fin 680] /\
    exists c : Canvas.Calib,
      Canvas.calib (Canvas.cal g') = Some c /\
      Canvas.a c =n= Num.fin 1 /\ Canvas.b c =n= Num.fin 0 /\
      forall gxViewport rectLeft : Q,
        Canvas.mapGazeX (Some c) gxViewport rectLeft
        =n= Canvas.mapGazeX None gxViewport rectLeft.
Proof.
  intros g e rl0 rl1 rl2 gs0 gs1 gs2 Ht N0 N1 N2 g'.
  unfold g'. rewrite (calibration_pass g e rl0 rl1 rl2 gs0 gs1 gs2 Ht).
  rewrite !collect_no_gaze by assumption.
  cbn [Canvas.calibSamplesRef Canvas.calib].
  split.
  - repeat constructor; vm_compute; reflexivity.
  - destruct (fitLinear_three (0.15 * Canvas.W) (0.5 * Canvas.W) (0.85 * Canvas.W))
      as (qa & qb & Hfit & Ha & Hb).
    assert (Ha1 : qa == 1) by (rewrite Ha; vm_compute; reflexivity).
    assert (Hb0 : qb == 0) by (rewrite Hb; vm_compute; reflexivity).
    exists (Canvas.mkCalib (Num.fin qa) (Num.fin qb)).
    split; [f_equal; exact Hfit|].
    split; [exact Ha1|]. split; [exact Hb0|].
    intros gx rl. unfold Canvas.mapGazeX. simpl. rewrite Ha1, Hb0. ring.
Qed.

Lemma C9_fallback_identity_witness :
  let g' := fst (Canvas.run
                   [Canvas.KeyDown Canvas.KeyC Scenario.env0;
                    Canvas.CalibTimer 8 []; Canvas.CalibTimer 8 [];
                    Canvas.CalibTimer 8 []] Scenario.mounted) in
  Forall2 Num.eq (Canvas.calibSamplesRef (Canvas.cal g'))
          [Num.fin 120; Num.fin 400; Num.fin 680] /\
  exists c : Canvas.Calib,
    Canvas.calib (Canvas.cal g') = Some c /\
    Canvas.a c =n= Num.fin 1 /\ Canvas.b c =n= Num.fin 0 /\
    forall gxViewport rectLeft : Q,
      Canvas.mapGazeX (Some c) gxViewport rectLeft
      =n= Canvas.mapGazeX None gxViewport rectLeft.
Proof.
  apply (C9_fallback_identity Scenario.mounted Scenario.env0 8 8 8 [] [] []).
  - reflexivity.
  - intros i Hi. destruct i; reflexivity.
  - intros i Hi. destruct i; reflexivity.
  - intros i Hi. destruct i; reflexivity.
Defined.

(* ================================================================== *)
(** * The session dashboard *)
(* ================================================================== *)

Section Session.

Import Dashboard.

Variable net : Net.
Variable p : Page.
Hypothesis active : truthy_id (sessionId p) = true.

Lemma submit_latency (t : Canvas.Trial) :
  Canvas.metric_name t = Canvas.latency_ms ->
  submitTrial net t p
  = (mkPage (sessionId p) (message p) (result p) (useGaze p)
            (Some (Canvas.value t)) (lastAccuracy p), []).
Proof. intro Hm. unfold submitTrial. rewrite active, Hm. reflexivity. Qed.

Lemma submit_accuracy (t : Canvas.Trial) :
  Canvas.metric_name t = Canvas.accuracy_px ->
  submitTrial net t p
  = (mkPage (sessionId p) (message p) (result p) (useGaze p)
            (lastLatency p) (Some (Canvas.value t)), []).
Proof. intro Hm. unfold submitTrial. rewrite active, Hm. reflexivity. Qed.

Lemma submit_drift (t : Canvas.Trial) :
  Canvas.metric_name t = Canvas.drift_px ->
  snd (submitTrial net t p)
  = [mkRequest POST (trialsUrl (sessionId p))
       (JsonBody [mkBody (nullish (lastLatency p) (Num.fin 300))
                         (nullish (lastAccuracy p) (Num.fin 80))
                         (Canvas.value t)])] /\
  lastLatency (fst (submitTrial net t p)) = None /\
  lastAccuracy (fst (submitTrial net t p)) = None /\
  sessionId (fst (submitTrial net t p)) = sessionId p.
Proof.
  intro Hm. unfold submitTrial. rewrite active, Hm. cbn [negb].
  destruct (net _); cbn; auto.
Qed.

Lemma score_post_ok :
  succeeded (net (mkRequest POST (scoreUrl (sessionId p)) NoBody)) = true ->
  computeScore net p
  = (scoreFrom p (net (mkRequest POST (scoreUrl (sessionId p)) NoBody)),
     [mkRequest POST (scoreUrl (sessionId p)) NoBody]).
Proof. intro Hok. unfold computeScore. rewrite active, Hok. reflexivity. Qed.

Lemma score_post_failed :
  succeeded (net (mkRequest POST (scoreUrl (sessionId p)) NoBody)) = false ->
  computeScore net p
  = (scoreFrom p (net (mkRequest GET (scoreUrl (sessionId p)) NoBody)),
     [mkRequest POST (scoreUrl (sessionId p)) NoBody;
      mkRequest GET (scoreUrl (sessionId p)) NoBody]).
Proof. intro Hok. unfold computeScore. rewrite active, Hok. reflexivity. Qed.

End Session.

Lemma no_session_submit (net : Dashboard.Net) (t : Canvas.Trial) (p : Dashboard.Page) :
  Dashboard.truthy_id (Dashboard.sessionId p) = false ->
  Dashboard.submitTrial net t p
  = (Dashboard.set_message (Dashboard.Literal "Start a session first") p, []).
Proof. intro Hs. unfold Dashboard.submitTrial. rewrite Hs. reflexivity. Qed.

Lemma no_session_score (net : Dashboard.Net) (p : Dashboard.Page) :
  Dashboard.truthy_id (Dashboard.sessionId p) = false ->
  Dashboard.computeScore net p
  = (Dashboard.set_message (Dashboard.Literal "Start a session first") p, []).
Proof. intro Hs. unfold Dashboard.computeScore. rewrite Hs. reflexivity. Qed.

(** C7.  With an active session, a latency_ms or accuracy_px trial is only
    stored in its holder and nothing is sent; a drift_px trial sends exactly
    one POST to the trials endpoint whose body is the single row
    (buffered latency or 300, buffered accuracy or 80, incoming drift), and
    both holders are empty afterwards, whatever the request does.
    Submitting 250, 40, 30 posts the row (250, 40, 30); submitting only the
    drift 30 posts (300, 80, 30). *)
Theorem C7_trial_buffering :
  forall (net : Dashboard.Net) (p : Dashboard.Page),
    Dashboard.truthy_id (Dashboard.sessionId p) = true ->
    (forall v u,
       Dashboard.submitTrial net (Canvas.trial Canvas.latency_ms v u) p
       = (Dashboard.mkPage (Dashboard.sessionId p) (Dashboard.message p)
            (Dashboard.result p) (Dashboard.useGaze p)
            (Some v) (Dashboard.lastAccuracy p), [])) /\
    (forall v u,
       Dashboard.submitTrial net (Canvas.trial Canvas.accuracy_px v u) p
       = (Dashboard.mkPage (Dashboard.sessionId p) (Dashboard.message p)
            (Dashboard.result p) (Dashboard.useGaze p)
            (Dashboard.lastLatency p) (Some v), [])) /\
    (forall v u,
       let out := Dashboard.submitTrial net (Canvas.trial Canvas.drift_px v u) p in
       snd out
       = [Dashboard.mkRequest Dashboard.POST
            (Dashboard.trialsUrl (Dashboard.sessionId p))
            (Dashboard.JsonBody
               [Dashboard.mkBody
                  (nullish (Dashboard.lastLatency p) (Num.fin 300))
                  (nullish (Dashboard.lastAccuracy p) (Num.fin 80)) v])] /\
       Dashboard.lastLatency (fst out) = None /\
       Dashboard.lastAccuracy (fst out) = None) /\
    snd (Dashboard.submitAll net
           [Canvas.trial Canvas.latency_ms (Num.fin 250) "ms";
            Canvas.trial Canvas.accuracy_px (Num.fin 40) "px";
            Canvas.trial Canvas.drift_px (Num.fin 30) "px"] p)
    = [Dashboard.mkRequest Dashboard.POST
         (Dashboard.trialsUrl (Dashboard.sessionId p))
         (Dashboard.JsonBody
            [Dashboard.mkBody (Num.fin 250) (Num.fin 40) (Num.fin 30)])] /\
    (Dashboard.lastLatency p = None -> Dashboard.lastAccuracy p = None ->
     snd (Dashboard.submitAll net
            [Canvas.trial Canvas.drift_px (Num.fin 30) "px"] p)
     = [Dashboard.mkRequest Dashboard.POST
          (Dashboard.trialsUrl (Dashboard.sessionId p))
          (Dashboard.JsonBody
             [Dashboard.mkBody (Num.fin 300) (Num.fin 80) (Num.fin 30)])]).
Proof.
  intros net p Hs.
  split; [intros v u; apply submit_latency; [exact Hs | reflexivity]|].
  split; [intros v u; apply submit_accuracy; [exact Hs | reflexivity]|].
  split.
  { intros v u out.
    destruct (submit_drift net p Hs (Canvas.trial Canvas.drift_px v u) eq_refl)
      as (Hsent & Hl & Ha & _).
    auto. }
  split.
  - unfold Dashboard.submitAll.
    rewrite (submit_latency net p Hs) by reflexivity.
    rewrite submit_accuracy by (first [exact Hs | reflexivity]).
    match goal with
    | |- context [Dashboard.submitTrial net ?t ?q] =>
        destruct (submit_drift net q Hs t eq_refl) as (Hsent & _);
        destruct (Dashboard.submitTrial net t q) as [q3 sent3]
    end.
    cbn [snd fst app] in *. rewrite Hsent. reflexivity.
  - intros Hl Ha. unfold Dashboard.submitAll.
    match goal with
    | |- context [Dashboard.submitTrial net ?t ?q] =>
        destruct (submit_drift net q Hs t eq_refl) as (Hsent & _);
        destruct (Dashboard.submitTrial net t q) as [q3 sent3]
    end.
    cbn [snd fst app] in *. rewrite Hsent, Hl, Ha, app_nil_r. reflexivity.
Qed.

Lemma C7_trial_buffering_witness :
  Dashboard.truthy_id (Dashboard.sessionId Scenario.page7) = true /\
  snd (Dashboard.submitAll Scenario.netDown
         [Canvas.trial Canvas.latency_ms (Num.fin 250) "ms";
          Canvas.trial Canvas.accuracy_px (Num.fin 40) "px";
          Canvas.trial Canvas.drift_px (Num.fin 30) "px"] Scenario.page7)
  = [Dashboard.mkRequest Dashboard.POST
       (Dashboard.trialsUrl (Dashboard.sessionId Scenario.page7))
       (Dashboard.JsonBody
          [Dashboard.mkBody (Num.fin 250) (Num.fin 40) (Num.fin 30)])].
Proof.
  split; [reflexivity|].
  apply (C7_trial_buffering Scenario.netDown Scenario.page7).
  reflexivity.
Defined.

Lemma succeeded_false (r : Dashboard.Reply) :
  Dashboard.succeeded r = false <->
  r = Dashboard.Throws \/ exists json, r = Dashboard.Response false json.
Proof.
  split.
  - destruct r as [|[|] json]; simpl; intro Hr;
      [left; reflexivity | discriminate | right; exists json; reflexivity].
  - intros [-> | [json ->]]; reflexivity.
Qed.

Lemma scoreUrl_active (id : Z) :
  Dashboard.scoreUrl (Some id)
  = ("http://127.0.0.1:8000/session/" ++ Dashboard.showZ id ++ "/score")%string.
Proof. reflexivity. Qed.

Lemma truthy_id_active (id : Z) :
  id <> 0%Z -> Dashboard.truthy_id (Some id) = true.
Proof.
  intro Hid. unfold Dashboard.truthy_id.
  destruct (Z.eqb_spec id 0) as [E|E]; [contradiction | reflexivity].
Qed.

(** What the page shows after [scoreFrom], by the response that was
    chosen. *)
Lemma scoreFrom_parsed (p : Dashboard.Page) (ok : bool) (data : Dashboard.Json) :
  Dashboard.scoreFrom p (Dashboard.Response ok (Some data))
  = Dashboard.mkPage (Dashboard.sessionId p)
      (Dashboard.scoreMessage (Dashboard.parseScore data))
      (Some (Dashboard.parseScore data)) (Dashboard.useGaze p)
      (Dashboard.lastLatency p) (Dashboard.lastAccuracy p).
Proof. reflexivity. Qed.

Lemma scoreFrom_unreadable (p : Dashboard.Page) (res : Dashboard.Reply) :
  res = Dashboard.Throws \/ (exists ok, res = Dashboard.Response ok None) ->
  Dashboard.scoreFrom p res
  = Dashboard.mkPage (Dashboard.sessionId p)
      (Dashboard.Literal "Error computing score") (Dashboard.result p)
      (Dashboard.useGaze p) (Dashboard.lastLatency p) (Dashboard.lastAccuracy p).
Proof. intros [-> | [ok ->]]; reflexivity. Qed.

(** C8.  With an active session, Compute Score first sends a POST to the
    session's score endpoint, /session/{id}/score on the backend.  When
    that POST throws or answers without success, and only then, a GET to
    the same URL follows, and the GET response is the one that is parsed:
    its severity and its metrics become the result shown.  When the POST
    succeeds no GET is sent and the POST response is the one parsed.  A
    response that cannot be read leaves the previous result and reports
    the error. *)
Theorem C8_score_fallback :
  forall (net : Dashboard.Net) (p : Dashboard.Page) (id : Z),
    Dashboard.sessionId p = Some id -> id <> 0%Z ->
    let endpoint :=
      ("http://127.0.0.1:8000/session/" ++ Dashboard.showZ id ++ "/score")%string in
    let post := Dashboard.mkRequest Dashboard.POST endpoint Dashboard.NoBody in
    let get := Dashboard.mkRequest Dashboard.GET endpoint Dashboard.NoBody in
    let failed := net post = Dashboard.Throws \/
                  exists json, net post = Dashboard.Response false json in
    let out := Dashboard.computeScore net p in
    Dashboard.url get = Dashboard.url post /\
    hd_error (snd out) = Some post /\
    (In get (snd out) <-> failed) /\
    (failed -> out = (Dashboard.scoreFrom p (net get), [post; get])) /\
    (forall json, net post = Dashboard.Response true json ->
                  out = (Dashboard.scoreFrom p (net post), [post])) /\
    (forall used : Dashboard.Reply,
       (failed /\ used = net get) \/
       (exists json, net post = Dashboard.Response true json /\ used = net post) ->
       (forall (ok : bool) (data : Dashboard.Json),
          used = Dashboard.Response ok (Some data) ->
          (exists r : Dashboard.Result,
             Dashboard.result (fst out) = Some r /\
             r = Dashboard.parseScore data /\
             (forall v, Dashboard.j_severity data = Some v ->
                        Dashboard.severity r = Some v) /\
             (forall m, Dashboard.j_metrics data = Some m ->
                        Dashboard.metrics r = Some m /\
                        Dashboard.message (fst out)
                        = Dashboard.Summary
                            (Dashboard.round (Dashboard.latency_ms m))
                            (Dashboard.round (Dashboard.drift_px m))
                            (Dashboard.round (Dashboard.accuracy_px m)))) /\
          Dashboard.sessionId (fst out) = Some id) /\
       (used = Dashboard.Throws \/
        (exists ok, used = Dashboard.Response ok None) ->
        Dashboard.result (fst out) = Dashboard.result p /\
        Dashboard.message (fst out)
        = Dashboard.Literal "Error computing score")).
Proof.
  intros net p id Hp Hid endpoint post get failed out.
  assert (Hs : Dashboard.truthy_id (Dashboard.sessionId p) = true)
    by (rewrite Hp; apply truthy_id_active; exact Hid).
  assert (Hpost : Dashboard.mkRequest Dashboard.POST
                    (Dashboard.scoreUrl (Dashboard.sessionId p)) Dashboard.NoBody
                  = post)
    by (rewrite Hp, scoreUrl_active; reflexivity).
  assert (Hget : Dashboard.mkRequest Dashboard.GET
                   (Dashboard.scoreUrl (Dashboard.sessionId p)) Dashboard.NoBody
                 = get)
    by (rewrite Hp, scoreUrl_active; reflexivity).
  assert (Hout : (failed /\ out = (Dashboard.scoreFrom p (net get), [post; get]))
                 \/ (exists json, net post = Dashboard.Response true json /\
                     out = (Dashboard.scoreFrom p (net post), [post]))).
  { destruct (Dashboard.succeeded (net post)) eqn:Hok.
    - right. destruct (net post) as [|[|] json] eqn:Hr; try discriminate Hok.
      exists json. split; [reflexivity|].
      unfold out. rewrite <- Hpost in Hr |- *.
      rewrite (score_post_ok net p Hs) by (rewrite Hr; reflexivity).
      rewrite Hr. reflexivity.
    - left. split; [apply succeeded_false; exact Hok|].
      unfold out. rewrite <- Hpost in Hok.
      rewrite (score_post_failed net p Hs Hok), Hpost, Hget. reflexivity. }
  assert (Hexcl : failed -> forall json,
             net post = Dashboard.Response true json -> False).
  { intros [Hf | [j Hf]] json Hj; rewrite Hj in Hf; discriminate Hf. }
  assert (Hused : forall used : Dashboard.Reply,
             (failed /\ used = net get) \/
             (exists json, net post = Dashboard.Response true json /\
                           used = net post) ->
             fst out = Dashboard.scoreFrom p used).
  { intros used [[Hf Hu] | (json & Hj & Hu)]; rewrite Hu.
    - destruct Hout as [[_ Ho] | (json' & Hj' & _)];
        [rewrite Ho; reflexivity | exfalso; exact (Hexcl Hf json' Hj')].
    - destruct Hout as [[Hf _] | (json' & _ & Ho)];
        [exfalso; exact (Hexcl Hf json Hj) | rewrite Ho; reflexivity]. }
  split; [reflexivity|].
  split; [destruct Hout as [[_ Ho] | (json & _ & Ho)]; rewrite Ho; reflexivity|].
  split.
  { split.
    - intro Hin. destruct Hout as [[Hf _] | (json & Hj & Ho)]; [exact Hf|].
      rewrite Ho in Hin. destruct Hin as [Hin | []]. discriminate Hin.
    - intro Hf. destruct Hout as [[_ Ho] | (json & Hj & _)].
      + rewrite Ho. right. left. reflexivity.
      + exfalso. exact (Hexcl Hf json Hj). }
  split.
  { intro Hf. destruct Hout as [[_ Ho] | (json & Hj & _)]; [exact Ho|].
    exfalso. exact (Hexcl Hf json Hj). }
  split.
  { intros json Hj. destruct Hout as [[Hf _] | (json' & _ & Ho)]; [|exact Ho].
    exfalso. exact (Hexcl Hf json Hj). }
  intros used Hu. rewrite (Hused used Hu). split.
  - intros ok data ->. rewrite scoreFrom_parsed.
    cbn [Dashboard.result Dashboard.message Dashboard.sessionId].
    split; [|exact Hp].
    exists (Dashboard.parseScore data). split; [reflexivity|].
    split; [reflexivity|]. split.
    + intros v Hv. unfold Dashboard.parseScore. rewrite Hv. reflexivity.
    + intros m Hm. unfold Dashboard.parseScore, Dashboard.scoreMessage.
      rewrite Hm. split; reflexivity.
  - intro Hbad. rewrite (scoreFrom_unreadable p used Hbad).
    split; reflexivity.
Qed.

Lemma C8_score_fallback_witness :
  Dashboard.sessionId Scenario.page7 = Some 7%Z /\ 7%Z <> 0%Z /\
  (let endpoint := "http://127.0.0.1:8000/session/7/score"%string in
   let post := Dashboard.mkRequest Dashboard.POST endpoint Dashboard.NoBody in
   let get := Dashboard.mkRequest Dashboard.GET endpoint Dashboard.NoBody in
   let out := Dashboard.computeScore Scenario.netPostRefused Scenario.page7 in
   snd out = [post; get] /\
   Dashboard.result (fst out)
   = Some (Dashboard.mkResult (Some (Num.fin 42)) None) /\
   Dashboard.message (fst out) = Dashboard.Severity (Some (Num.fin 42))).
Proof.
  assert (H7 : 7%Z <> 0%Z) by (intro Hc; discriminate Hc).
  split; [reflexivity|]. split; [exact H7|].
  cbv zeta.
  destruct (C8_score_fallback Scenario.netPostRefused Scenario.page7 7%Z
              eq_refl H7) as (_ & _ & _ & Hfail & _).
  rewrite Hfail by (right; exists None; reflexivity).
  split; [reflexivity|]. split; reflexivity.
Defined.

(** What the session guard of [submitTrial] and [computeScore] leaves
    behind: the message, nothing else changed, and no request. *)
Lemma guard_blocks (p : Dashboard.Page) :
  Dashboard.truthy_id (Dashboard.sessionId p) = false ->
  let blocked :=
    Dashboard.mkPage (Dashboard.sessionId p)
      (Dashboard.Literal "Start a session first") (Dashboard.result p)
      (Dashboard.useGaze p) (Dashboard.lastLatency p) (Dashboard.lastAccuracy p) in
  (forall (net : Dashboard.Net) (t : Canvas.Trial),
     Dashboard.submitTrial net t p = (blocked, [])) /\
  (forall net : Dashboard.Net, Dashboard.computeScore net p = (blocked, [])) /\
  Dashboard.computeScoreDisabled p = true.
Proof.
  intros Hf blocked.
  split; [intros net t; rewrite (no_session_submit net t p Hf); reflexivity|].
  split; [intros net; rewrite (no_session_score net p Hf); reflexivity|].
  unfold Dashboard.computeScoreDisabled. rewrite Hf. reflexivity.
Qed.

(** C10.  When the Start Session reply carries session_id = 0 the dashboard
    stores 0, and from then on every session-guarded operation behaves as
    with no session: Submit Trial sets the message "Start a session first"
    and sends nothing, Compute Score does the same, and the Compute Score
    control is disabled, whereas a non-zero id enables it. *)
Theorem C10_session_zero_is_absent :
  forall (net : Dashboard.Net) (p : Dashboard.Page) (ok : bool)
         (data : Dashboard.Json),
    net (Dashboard.mkRequest Dashboard.POST
           "http://127.0.0.1:8000/session/start"
           (Dashboard.FormData [("metadata", "web-demo")%string]))
    = Dashboard.Response ok (Some data) ->
    Dashboard.j_session_id data = Some 0%Z ->
    let p0 := fst (Dashboard.startSession net p) in
    let blocked := fun q : Dashboard.Page =>
      Dashboard.mkPage (Dashboard.sessionId q)
        (Dashboard.Literal "Start a session first") (Dashboard.result q)
        (Dashboard.useGaze q) (Dashboard.lastLatency q)
        (Dashboard.lastAccuracy q) in
    Dashboard.sessionId p0 = Some 0%Z /\
    Dashboard.message p0 = Dashboard.SessionStarted (Some 0%Z) /\
    (forall (net' : Dashboard.Net) (t : Canvas.Trial),
       Dashboard.submitTrial net' t p0 = (blocked p0, []) /\
       Dashboard.message (fst (Dashboard.submitTrial net' t p0))
       = Dashboard.Literal "Start a session first" /\
       Dashboard.sessionId (fst (Dashboard.submitTrial net' t p0)) = Some 0%Z /\
       snd (Dashboard.submitTrial net' t p0) = []) /\
    (forall net' : Dashboard.Net,
       Dashboard.computeScore net' p0 = (blocked p0, []) /\
       Dashboard.message (fst (Dashboard.computeScore net' p0))
       = Dashboard.Literal "Start a session first" /\
       Dashboard.result (fst (Dashboard.computeScore net' p0)) = None /\
       snd (Dashboard.computeScore net' p0) = []) /\
    Dashboard.computeScoreDisabled p0 = true /\
    (forall q : Dashboard.Page,
       Dashboard.sessionId q = None ->
       (forall (net' : Dashboard.Net) (t : Canvas.Trial),
          Dashboard.submitTrial net' t q = (blocked q, [])) /\
       (forall net' : Dashboard.Net,
          Dashboard.computeScore net' q = (blocked q, [])) /\
       Dashboard.computeScoreDisabled q = true) /\
    (forall (q : Dashboard.Page) (id : Z),
       Dashboard.sessionId q = Some id -> id <> 0%Z ->
       Dashboard.computeScoreDisabled q = false).
Proof.
  intros net p ok data Hnet Hid p0 blocked.
  assert (Hstart : p0 = Dashboard.mkPage (Some 0%Z)
                          (Dashboard.SessionStarted (Some 0%Z)) None
                          (Dashboard.useGaze p) (Dashboard.lastLatency p)
                          (Dashboard.lastAccuracy p)).
  { unfold p0, Dashboard.startSession.
    change (Dashboard.backend ++ "/session/start")%string
      with "http://127.0.0.1:8000/session/start"%string.
    rewrite Hnet. cbn [fst]. rewrite Hid. reflexivity. }
  assert (Hf : Dashboard.truthy_id (Dashboard.sessionId p0) = false)
    by (rewrite Hstart; reflexivity).
  destruct (guard_blocks p0 Hf) as (Hsub & Hscore & Hdis).
  split; [rewrite Hstart; reflexivity|].
  split; [rewrite Hstart; reflexivity|].
  split.
  { intros net' t. rewrite (Hsub net' t). cbn [fst snd].
    split; [reflexivity|]. split; [reflexivity|].
    split; [|reflexivity].
    unfold blocked. cbn [Dashboard.sessionId]. rewrite Hstart. reflexivity. }
  split.
  { intros net'. rewrite (Hscore net'). cbn [fst snd].
    split; [reflexivity|]. split; [reflexivity|].
    split; [|reflexivity].
    unfold blocked. cbn [Dashboard.result]. rewrite Hstart. reflexivity. }
  split; [exact Hdis|].
  split.
  { intros q Hq.
    assert (Hqf : Dashboard.truthy_id (Dashboard.sessionId q) = false)
      by (rewrite Hq; reflexivity).
    exact (guard_blocks q Hqf). }
  intros q id Hq Hnz. unfold Dashboard.computeScoreDisabled.
  rewrite Hq, (truthy_id_active id Hnz). reflexivity.
Qed.

Lemma C10_session_zero_is_absent_witness :
  let p0 := fst (Dashboard.startSession Scenario.netZero Dashboard.init) in
  let out := Dashboard.submitTrial Scenario.netOk
               (Canvas.trial Canvas.drift_px (Num.fin 30) "px") p0 in
  Dashboard.sessionId p0 = Some 0%Z /\
  Dashboard.computeScoreDisabled p0 = true /\
  Dashboard.message (fst out) = Dashboard.Literal "Start a session first" /\
  snd out = [].
Proof.
  intros p0 out.
  destruct (C10_session_zero_is_absent Scenario.netZero Dashboard.init true
              (Dashboard.mkJson (Some 0%Z) None None None None None None None)
              eq_refl eq_refl)
    as (Hid & _ & Hsub & _ & Hdis & _).
  split; [exact Hid|]. split; [exact Hdis|].
  destruct (Hsub Scenario.netOk (Canvas.trial Canvas.drift_px (Num.fin 30) "px"))
    as (_ & Hm & _ & Hs).
  split; [exact Hm | exact Hs].
Defined.

(* ================================================================== *)
(** * The game canvas: what a step may change *)
(* ================================================================== *)

Ltac tick_cases g :=
  unfold Canvas.tick;
  destruct (Canvas.calibratingRef (Canvas.cal g)) eqn:?.

Lemma tick_round_start (f : Canvas.FrameInput) (g : Canvas.State) :
  Canvas.roundStartTs (Canvas.round (fst (Canvas.tick f g)))
  = Canvas.roundStartTs (Canvas.round g).
Proof. tick_cases g; reflexivity. Qed.

Lemma tick_cal (f : Canvas.FrameInput) (g : Canvas.State) :
  Canvas.cal (fst (Canvas.tick f g)) = Canvas.cal g.
Proof. tick_cases g; reflexivity. Qed.

Lemma tick_deps (f : Canvas.FrameInput) (g : Canvas.State) :
  Canvas.deps (fst (Canvas.tick f g)) = Canvas.deps g.
Proof. tick_cases g; reflexivity. Qed.

Lemma tick_running (f : Canvas.FrameInput) (g : Canvas.State) :
  Canvas.runningRef (Canvas.round (fst (Canvas.tick f g))) = true ->
  Canvas.runningRef (Canvas.round g) = true.
Proof.
  tick_cases g; cbn [fst Canvas.round Canvas.runningRef]; [auto|].
  match goal with |- context [if ?c then false else _] => destruct c end;
    [discriminate | auto].
Qed.

Lemma tick_last_paddle (f : Canvas.FrameInput) (g : Canvas.State) :
  Canvas.lastPaddleX (Canvas.round g) = Paddle.x (Canvas.paddle g) ->
  Canvas.lastPaddleX (Canvas.round (fst (Canvas.tick f g)))
  = Paddle.x (Canvas.paddle (fst (Canvas.tick f g))).
Proof. tick_cases g; cbn [fst Canvas.round Canvas.lastPaddleX Canvas.paddle]; auto. Qed.

(** The trials a frame emits, by kind. *)
Lemma tick_contact_trials (f : Canvas.FrameInput) (g : Canvas.State) :
  Spec.contact_trials (snd (Canvas.tick f g))
  = if Spec.detects f g
       && negb (truthy_opt (Canvas.firstContactTs (Canvas.round g)))
       && truthy_opt (Canvas.roundStartTs (Canvas.round g))
    then [Canvas.trial Canvas.latency_ms
            (Num.fin (Canvas.now f
                      - Canvas.of_null (Canvas.roundStartTs (Canvas.round g))))
            "ms";
          Canvas.trial Canvas.accuracy_px
            (Num.abs (Ball.x (Spec.ballIn g) - Paddle.x (Spec.paddleIn f g))%num)
            "px"]
    else [].
Proof.
  unfold Spec.detects. tick_cases g; cbn [negb andb snd]; [reflexivity|].
  fold (Spec.paddleIn f g). fold (Spec.ballIn g).
  unfold Spec.contact_trials. rewrite filter_app.
  destruct (Canvas.hit (Spec.paddleIn f g) (Spec.ballIn g)
            && negb (truthy_opt (Canvas.firstContactTs (Canvas.round g)))
            && truthy_opt (Canvas.roundStartTs (Canvas.round g))) eqn:Efirst.
  - cbn [Canvas.of_null filter Spec.is_drift Canvas.metric_name Canvas.trial negb app].
    match goal with |- context [if ?c then [_] else []] => destruct c end;
      reflexivity.
  - cbn [filter app].
    match goal with |- context [if ?c then [_] else []] => destruct c end;
      reflexivity.
Qed.

Lemma tick_first_contact (f : Canvas.FrameInput) (g : Canvas.State) :
  Canvas.firstContactTs (Canvas.round (fst (Canvas.tick f g)))
  = if Spec.detects f g
       && negb (truthy_opt (Canvas.firstContactTs (Canvas.round g)))
       && truthy_opt (Canvas.roundStartTs (Canvas.round g))
    then Some (Canvas.now f)
    else Canvas.firstContactTs (Canvas.round g).
Proof.
  unfold Spec.detects. tick_cases g; cbn [negb andb fst]; reflexivity.
Qed.

Lemma tick_drift_trials (f : Canvas.FrameInput) (g : Canvas.State) :
  Spec.drift_trials (snd (Canvas.tick f g))
  = if Spec.round_end f g
    then [Canvas.trial Canvas.drift_px
            (Canvas.driftAcc (Canvas.round (fst (Canvas.tick f g)))) "px"]
    else [].
Proof.
  unfold Spec.round_end. tick_cases g; cbn [negb andb snd fst]; [reflexivity|].
  fold (Spec.ballIn g).
  unfold Spec.drift_trials. rewrite filter_app.
  cbn [Canvas.round Canvas.driftAcc].
  match goal with
  | |- filter _ (if ?c then _ else _) ++ _ = _ => destruct c
  end; cbn [filter Spec.is_drift Canvas.metric_name Canvas.trial app].
  all: destruct (Canvas.hit _ (Spec.ballIn g)); cbn [Ball.y Ball.r].
  all: match goal with
       | |- context [Num.gtb ?u ?v && ?r] => destruct (Num.gtb u v && r)
       end; reflexivity.
Qed.

Lemma tick_running_after (f : Canvas.FrameInput) (g : Canvas.State) :
  Canvas.runningRef (Canvas.round (fst (Canvas.tick f g)))
  = if Spec.round_end f g then false else Canvas.runningRef (Canvas.round g).
Proof.
  unfold Spec.round_end. tick_cases g; cbn [negb andb snd fst]; [reflexivity|].
  fold (Spec.ballIn g). cbn [Canvas.round Canvas.runningRef].
  destruct (Canvas.hit _ (Spec.ballIn g)); cbn [Ball.y Ball.r]; reflexivity.
Qed.

Lemma tick_drift_acc (f : Canvas.FrameInput) (g : Canvas.State) :
  Canvas.driftAcc (Canvas.round (fst (Canvas.tick f g)))
  = if Canvas.calibratingRef (Canvas.cal g)
    then Canvas.driftAcc (Canvas.round g)
    else (Canvas.driftAcc (Canvas.round g)
          + Num.abs (Paddle.x (Canvas.paddle (fst (Canvas.tick f g)))
                     - Canvas.lastPaddleX (Canvas.round g)))%num.
Proof. tick_cases g; reflexivity. Qed.

Lemma run_cons (ev : Canvas.Event) (rest : list Canvas.Event) (g : Canvas.State) :
  fst (Canvas.run (ev :: rest) g)
  = fst (Canvas.run rest (fst (Canvas.step ev g))) /\
  snd (Canvas.run (ev :: rest) g)
  = snd (Canvas.step ev g) ++ snd (Canvas.run rest (fst (Canvas.step ev g))).
Proof.
  cbn [Canvas.run].
  destruct (Canvas.step ev g) as [g1 out1]. cbn [fst snd].
  destruct (Canvas.run rest g1) as [g2 out2].
  split; reflexivity.
Qed.

Lemma run_app (evs1 evs2 : list Canvas.Event) (g : Canvas.State) :
  fst (Canvas.run (evs1 ++ evs2) g)
  = fst (Canvas.run evs2 (fst (Canvas.run evs1 g))) /\
  snd (Canvas.run (evs1 ++ evs2) g)
  = snd (Canvas.run evs1 g) ++ snd (Canvas.run evs2 (fst (Canvas.run evs1 g))).
Proof.
  revert g. induction evs1 as [|ev rest IH]; intro g.
  - split; reflexivity.
  - cbn [app].
    destruct (run_cons ev (rest ++ evs2) g) as [-> ->].
    destruct (run_cons ev rest g) as [-> ->].
    destruct (IH (fst (Canvas.step ev g))) as [-> ->].
    split; [reflexivity | apply app_assoc].
Qed.

(** An event that is neither a frame nor a reset leaves the paddle and the
    round metrics alone, never marks the round running, and emits nothing. *)
Lemma other_event (ev : Canvas.Event) (g : Canvas.State) :
  Spec.is_reset ev g = false ->
  (forall f, ev <> Canvas.Frame f) ->
  Canvas.paddle (fst (Canvas.step ev g)) = Canvas.paddle g /\
  Canvas.roundStartTs (Canvas.round (fst (Canvas.step ev g)))
  = Canvas.roundStartTs (Canvas.round g) /\
  Canvas.firstContactTs (Canvas.round (fst (Canvas.step ev g)))
  = Canvas.firstContactTs (Canvas.round g) /\
  Canvas.driftAcc (Canvas.round (fst (Canvas.step ev g)))
  = Canvas.driftAcc (Canvas.round g) /\
  Canvas.lastPaddleX (Canvas.round (fst (Canvas.step ev g)))
  = Canvas.lastPaddleX (Canvas.round g) /\
  (Canvas.runningRef (Canvas.round (fst (Canvas.step ev g))) = true ->
   Canvas.runningRef (Canvas.round g) = true) /\
  snd (Canvas.step ev g) = [].
Proof.
  intros Hq Hnf.
  destruct ev as [k e | k | f | rl gs | d e].
  - destruct k; try discriminate Hq; cbn; repeat split; auto; discriminate.
  - destruct k; cbn; repeat split; auto.
  - exfalso. exact (Hnf f eq_refl).
  - cbn. repeat split; auto.
  - cbn in Hq. apply negb_false_iff in Hq.
    cbn [Canvas.step Canvas.render fst snd]. unfold Canvas.render. rewrite Hq.
    repeat split; auto.
Qed.

Lemma contact_trials_app (out1 out2 : list Canvas.Trial) :
  Spec.contact_trials (out1 ++ out2)
  = Spec.contact_trials out1 ++ Spec.contact_trials out2.
Proof. apply filter_app. Qed.

Lemma drift_trials_app (out1 out2 : list Canvas.Trial) :
  Spec.drift_trials (out1 ++ out2)
  = Spec.drift_trials out1 ++ Spec.drift_trials out2.
Proof. apply filter_app. Qed.

Lemma event_cases (ev : Canvas.Event) :
  (exists f, ev = Canvas.Frame f) \/ (forall f, ev <> Canvas.Frame f).
Proof.
  destruct ev; try (right; intros f0 Hf; discriminate Hf).
  left. eexists. reflexivity.
Qed.

(** Once the first contact of a round is recorded, no frame emits a latency
    or accuracy trial until the round is reset. *)
Lemma after_contact (evs : list Canvas.Event) :
  forall g : Canvas.State,
    truthy_opt (Canvas.firstContactTs (Canvas.round g)) = true ->
    Spec.quiet evs g = true ->
    Spec.contact_trials (snd (Canvas.run evs g)) = [].
Proof.
  induction evs as [|ev rest IH]; intros g Hfc Hq; [reflexivity|].
  cbn [Spec.quiet] in Hq. apply andb_true_iff in Hq. destruct Hq as [Hev Hq].
  apply negb_true_iff in Hev.
  destruct (run_cons ev rest g) as [_ ->].
  rewrite contact_trials_app.
  destruct (event_cases ev) as [[f ->] | Hnf].
  - cbn [Canvas.step] in *.
    rewrite tick_contact_trials, Hfc.
    rewrite andb_false_r. cbn [andb app].
    apply IH; [|exact Hq].
    rewrite tick_first_contact, Hfc, andb_false_r. cbn [andb]. exact Hfc.
  - destruct (other_event ev g Hev Hnf) as (_ & _ & Hc & _ & _ & _ & ->).
    cbn [Spec.contact_trials filter app].
    apply IH; [|exact Hq]. rewrite Hc. exact Hfc.
Qed.

(** Before the first contact of a round: the latency and accuracy trials
    of a run are exactly the two emitted by the first frame that detects a
    collision. *)
Lemma before_contact (t0 : Q) (evs : list Canvas.Event) :
  ~ t0 == 0 ->
  forall g : Canvas.State,
    Canvas.firstContactTs (Canvas.round g) = None ->
    Canvas.roundStartTs (Canvas.round g) = Some t0 ->
    Spec.quiet evs g = true ->
    Spec.clocks_ok evs = true ->
    Spec.contact_trials (snd (Canvas.run evs g))
    = match Spec.first_hit evs g with
      | Some (f, g1) =>
          [Canvas.trial Canvas.latency_ms (Num.fin (Canvas.now f - t0)) "ms";
           Canvas.trial Canvas.accuracy_px
             (Num.abs (Ball.x (Spec.ballIn g1) - Paddle.x (Spec.paddleIn f g1))%num)
             "px"]
      | None => []
      end.
Proof.
  intro Ht0.
  assert (Htr : truthy_opt (Some t0) = true).
  { cbn. apply negb_true_iff. apply Qeq_bool_false_iff. exact Ht0. }
  induction evs as [|ev rest IH]; intros g Hfc Hrs Hq Hck; [reflexivity|].
  cbn [Spec.quiet] in Hq. apply andb_true_iff in Hq. destruct Hq as [Hev Hq].
  apply negb_true_iff in Hev.
  cbn [Spec.clocks_ok forallb] in Hck. apply andb_true_iff in Hck.
  destruct Hck as [Hnow Hck].
  destruct (run_cons ev rest g) as [_ ->].
  rewrite contact_trials_app.
  destruct (event_cases ev) as [[f ->] | Hnf].
  - cbn [Canvas.step Spec.first_hit] in *.
    rewrite tick_contact_trials, Hfc, Hrs, Htr.
    cbn [truthy_opt negb Canvas.of_null]. rewrite !andb_true_r.
    destruct (Spec.detects f g) eqn:Edet.
    + rewrite (after_contact rest); [reflexivity | | exact Hq].
      rewrite tick_first_contact, Edet, Hfc, Hrs, Htr. cbn [truthy_opt negb andb].
      exact Hnow.
    + cbn [app]. apply IH; [| | exact Hq | exact Hck].
      * rewrite tick_first_contact, Edet. cbn [andb]. exact Hfc.
      * rewrite tick_round_start. exact Hrs.
  - destruct (other_event ev g Hev Hnf) as (_ & Hr & Hc & _ & _ & _ & ->).
    cbn [Spec.contact_trials filter app].
    replace (Spec.first_hit (ev :: rest) g)
      with (Spec.first_hit rest (fst (Canvas.step ev g)))
      by (destruct ev; try reflexivity; exfalso; eapply Hnf; reflexivity).
    apply IH; [| | exact Hq | exact Hck].
    + rewrite Hc. exact Hfc.
    + rewrite Hr. exact Hrs.
Qed.

(* ================================================================== *)
(** * Collision detection and the trials of first contact *)
(* ================================================================== *)

Lemma hit_iff (p : Paddle.t) (bl : Ball.t) :
  Canvas.hit p bl = true <->
  Spec.reached_top p bl /\ Spec.in_span p bl /\ Spec.moving_down bl.
Proof.
  unfold Canvas.hit, Spec.reached_top, Spec.in_span, Spec.moving_down,
    Canvas.pTop, Canvas.pLeft, Canvas.pRight.
  rewrite !andb_true_iff.
  destruct (Ball.y bl) as [by_|], (Ball.x bl) as [bx|], (Paddle.x p) as [px|],
    (Ball.vy bl) as [v|];
    cbn [Num.geb Num.leb Num.gtb Num.ltb Num.cmp Num.add Num.sub Num.lift2 Num.fin];
    try rewrite !Qle_bool_iff; try rewrite Qltb_iff;
    intuition discriminate.
Qed.

(** C1, as the code has it.  In a frame in which the ball moves downward a
    paddle collision is detected if and only if the ball's bottom edge is
    at or below the paddle's top edge (there is no lower limit) and the
    ball's x lies within the paddle's horizontal span.  After a round reset
    read at a non-zero clock, and with non-zero clock readings in the
    frames, the latency and accuracy trials emitted before the next reset
    are exactly one latency_ms trial (now minus the round-start timestamp)
    and one accuracy_px trial (|ball.x - paddle.x|), both emitted by the
    first frame that detects a collision; without such a frame there are
    none. *)
Theorem C1_collision_and_first_contact :
  (forall (p : Paddle.t) (bl : Ball.t),
     (Canvas.hit p bl = true -> Spec.moving_down bl) /\
     (Spec.moving_down bl ->
      (Canvas.hit p bl = true <-> Spec.reached_top p bl /\ Spec.in_span p bl))) /\
  (forall (e : Canvas.Env) (g : Canvas.State) (evs : list Canvas.Event),
     ~ Canvas.clock e == 0 ->
     Spec.quiet evs (Canvas.resetRound e g) = true ->
     Spec.clocks_ok evs = true ->
     Spec.contact_trials (snd (Canvas.run evs (Canvas.resetRound e g)))
     = match Spec.first_hit evs (Canvas.resetRound e g) with
       | Some (f, g1) =>
           [Canvas.trial Canvas.latency_ms
              (Num.fin (Canvas.now f - Canvas.clock e)) "ms";
            Canvas.trial Canvas.accuracy_px
              (Num.abs (Ball.x (Spec.ballIn g1)
                        - Paddle.x (Spec.paddleIn f g1))%num) "px"]
       | None => []
       end).
Proof.
  split.
  - intros p bl. pose proof (hit_iff p bl) as Hh. tauto.
  - intros e g evs He Hq Hck.
    apply before_contact; [exact He | reflexivity | reflexivity | exact Hq | exact Hck].
Qed.

Lemma C1_collision_and_first_contact_witness :
  Spec.contact_trials
    (snd (Canvas.run (Scenario.lateCatch ++ [Canvas.Frame Scenario.idle])
                     (Canvas.resetRound Scenario.env0
                                        (Canvas.init Scenario.gazeOff))))
  = match Spec.first_hit (Scenario.lateCatch ++ [Canvas.Frame Scenario.idle])
                         (Canvas.resetRound Scenario.env0
                                            (Canvas.init Scenario.gazeOff)) with
    | Some (f, g1) =>
        [Canvas.trial Canvas.latency_ms
           (Num.fin (Canvas.now f - Canvas.clock Scenario.env0)) "ms";
         Canvas.trial Canvas.accuracy_px
           (Num.abs (Ball.x (Spec.ballIn g1)
                     - Paddle.x (Spec.paddleIn f g1))%num) "px"]
    | None => []
    end.
Proof.
  apply (proj2 C1_collision_and_first_contact Scenario.env0
               (Canvas.init Scenario.gazeOff)).
  - intro Hz. discriminate Hz.
  - vm_compute. reflexivity.
  - vm_compute. reflexivity.
Defined.

(** The claim with the paddle's vertical band fails: in keyboard play the
    ball passes the band beside the paddle, the paddle then moves under it,
    and the frame detects a collision, and emits the two trials, with the
    ball's bottom edge at 493, below the paddle's bottom edge at 487. *)
Lemma C1_band_counterexample :
  let g := fst (Canvas.run Scenario.lateCatch Scenario.mountedKeyboard) in
  let p := Spec.paddleIn Scenario.idle g in
  let bl := Spec.ballIn g in
  (Spec.moving_down bl /\
   Spec.detects Scenario.idle g = true /\
   Spec.in_span p bl /\
   Ball.y bl =n= Num.fin 480 /\
   ~ Spec.in_band p bl) /\
  ~ (forall (p : Paddle.t) (bl : Ball.t),
       Spec.moving_down bl ->
       (Canvas.hit p bl = true <-> Spec.in_band p bl /\ Spec.in_span p bl)).
Proof.
  intros g p bl.
  assert (Hdown : Spec.moving_down bl) by (vm_compute; reflexivity).
  assert (Hdet : Spec.detects Scenario.idle g = true) by (vm_compute; reflexivity).
  assert (Hspan : Spec.in_span p bl)
    by (vm_compute; split; intro Hc; discriminate Hc).
  assert (Hy : Ball.y bl =n= Num.fin 480) by (vm_compute; reflexivity).
  assert (Hband : ~ Spec.in_band p bl).
  { intros Hb. vm_compute in Hb. destruct Hb as [_ Hb]. apply Hb. reflexivity. }
  split.
  { split; [exact Hdown|]. split; [exact Hdet|]. split; [exact Hspan|].
    split; [exact Hy | exact Hband]. }
  intro Hclaim.
  apply Hband.
  refine (proj1 (proj1 (Hclaim p bl Hdown) _)).
  unfold Spec.detects in Hdet. apply andb_true_iff in Hdet.
  exact (proj2 Hdet).
Qed.

(* ================================================================== *)
(** * Drift and the end of a round *)
(* ================================================================== *)

Lemma quiet_app (evs1 evs2 : list Canvas.Event) (g : Canvas.State) :
  Spec.quiet (evs1 ++ evs2) g
  = Spec.quiet evs1 g && Spec.quiet evs2 (fst (Canvas.run evs1 g)).
Proof.
  revert g. induction evs1 as [|ev rest IH]; intro g; [reflexivity|].
  cbn [app Spec.quiet]. rewrite IH.
  destruct (run_cons ev rest g) as [-> _].
  apply andb_assoc.
Qed.

Lemma displacement_app (evs1 evs2 : list Canvas.Event) :
  forall (g : Canvas.State) (acc : num),
    Spec.displacement (evs1 ++ evs2) g acc
    = Spec.displacement evs2 (fst (Canvas.run evs1 g))
                        (Spec.displacement evs1 g acc).
Proof.
  induction evs1 as [|ev rest IH]; intros g acc; [reflexivity|].
  cbn [app Spec.displacement]. rewrite IH.
  destruct (run_cons ev rest g) as [-> _]. reflexivity.
Qed.

(** [lastPaddleX] is the paddle x at the end of the previous frame. *)
Lemma last_paddle_step (ev : Canvas.Event) (g : Canvas.State) :
  Spec.is_reset ev g = false ->
  Canvas.lastPaddleX (Canvas.round g) = Paddle.x (Canvas.paddle g) ->
  Canvas.lastPaddleX (Canvas.round (fst (Canvas.step ev g)))
  = Paddle.x (Canvas.paddle (fst (Canvas.step ev g))).
Proof.
  intros Hq Hinv.
  destruct (event_cases ev) as [[f ->] | Hnf].
  - apply tick_last_paddle. exact Hinv.
  - destruct (other_event ev g Hq Hnf) as (-> & _ & _ & _ & -> & _).
    exact Hinv.
Qed.

(** The drift accumulator is the sum of the absolute per-frame paddle
    displacements. *)
Lemma drift_is_displacement (evs : list Canvas.Event) :
  forall g : Canvas.State,
    Canvas.lastPaddleX (Canvas.round g) = Paddle.x (Canvas.paddle g) ->
    Spec.quiet evs g = true ->
    Canvas.driftAcc (Canvas.round (fst (Canvas.run evs g)))
    = Spec.displacement evs g (Canvas.driftAcc (Canvas.round g)).
Proof.
  induction evs as [|ev rest IH]; intros g Hinv Hq; [reflexivity|].
  cbn [Spec.quiet] in Hq. apply andb_true_iff in Hq. destruct Hq as [Hev Hq].
  apply negb_true_iff in Hev.
  destruct (run_cons ev rest g) as [-> _].
  rewrite (IH _ (last_paddle_step ev g Hev Hinv) Hq).
  cbn [Spec.displacement]. f_equal.
  destruct (event_cases ev) as [[f ->] | Hnf].
  - cbn [Canvas.step]. rewrite tick_drift_acc, Hinv. reflexivity.
  - destruct (other_event ev g Hev Hnf) as (_ & _ & _ & -> & _).
    destruct ev; try reflexivity. exfalso. eapply Hnf. reflexivity.
Qed.

(** While the round is not marked running no drift trial is emitted. *)
Lemma idle_no_drift (evs : list Canvas.Event) :
  forall g : Canvas.State,
    Canvas.runningRef (Canvas.round g) = false ->
    Spec.quiet evs g = true ->
    Spec.drift_trials (snd (Canvas.run evs g)) = [].
Proof.
  induction evs as [|ev rest IH]; intros g Hrun Hq; [reflexivity|].
  cbn [Spec.quiet] in Hq. apply andb_true_iff in Hq. destruct Hq as [Hev Hq].
  apply negb_true_iff in Hev.
  destruct (run_cons ev rest g) as [_ ->].
  rewrite drift_trials_app.
  assert (Hrun1 : Canvas.runningRef (Canvas.round (fst (Canvas.step ev g))) = false).
  { destruct (Canvas.runningRef (Canvas.round (fst (Canvas.step ev g)))) eqn:E;
      [|reflexivity].
    destruct (event_cases ev) as [[f ->] | Hnf].
    - apply tick_running in E. congruence.
    - destruct (other_event ev g Hev Hnf) as (_ & _ & _ & _ & _ & Hr & _).
      apply Hr in E. congruence. }
  rewrite (IH _ Hrun1 Hq), app_nil_r.
  destruct (event_cases ev) as [[f ->] | Hnf].
  - cbn [Canvas.step]. rewrite tick_drift_trials.
    unfold Spec.round_end. rewrite Hrun, andb_false_r. reflexivity.
  - destruct (other_event ev g Hev Hnf) as (_ & _ & _ & _ & _ & _ & ->).
    reflexivity.
Qed.

(** C2.  A frame in which the ball's top edge ends below H = 500 while the
    round is marked running emits exactly one drift_px trial, whose value
    is the sum of the absolute per-frame paddle x displacements since the
    last round reset, and marks the round not running; no later frame
    emits a drift trial before the next reset.  A frame that does not meet
    the condition emits no drift trial. *)
Theorem C2_round_end_drift :
  (forall (e : Canvas.Env) (g : Canvas.State) (evs : list Canvas.Event)
          (f : Canvas.FrameInput),
     let g0 := Canvas.resetRound e g in
     let g1 := fst (Canvas.run evs g0) in
     let g2 := fst (Canvas.tick f g1) in
     Spec.quiet evs g0 = true ->
     Spec.round_end f g1 = true ->
     Spec.drift_trials (snd (Canvas.tick f g1))
     = [Canvas.trial Canvas.drift_px
          (Spec.displacement (evs ++ [Canvas.Frame f]) g0 (Num.fin 0)) "px"] /\
     Canvas.runningRef (Canvas.round g2) = false /\
     (forall evs' : list Canvas.Event,
        Spec.quiet evs' g2 = true ->
        Spec.drift_trials (snd (Canvas.run evs' g2)) = [])) /\
  (forall (f : Canvas.FrameInput) (g : Canvas.State),
     Spec.round_end f g = false ->
     Spec.drift_trials (snd (Canvas.tick f g)) = []).
Proof.
  split.
  - intros e g evs f g0 g1 g2 Hq Hend.
    assert (Hrun : Canvas.runningRef (Canvas.round g2) = false).
    { unfold g2. rewrite tick_running_after, Hend. reflexivity. }
    split; [|split; [exact Hrun|]].
    + rewrite tick_drift_trials, Hend. f_equal. f_equal.
      assert (Hq' : Spec.quiet (evs ++ [Canvas.Frame f]) g0 = true).
      { rewrite quiet_app, Hq. reflexivity. }
      pose proof (drift_is_displacement (evs ++ [Canvas.Frame f]) g0 eq_refl Hq')
        as Hd.
      destruct (run_app evs [Canvas.Frame f] g0) as [Hfst _].
      rewrite Hfst in Hd. fold g1 in Hd.
      destruct (run_cons (Canvas.Frame f) [] g1) as [Hone _].
      rewrite Hone in Hd. exact Hd.
    + intros evs' Hq'. apply idle_no_drift; assumption.
  - intros f g Hend. rewrite tick_drift_trials, Hend. reflexivity.
Qed.

Lemma C2_round_end_drift_witness :
  let g0 := Canvas.resetRound Scenario.env0 (Canvas.init Scenario.gazeOff) in
  let g1 := fst (Canvas.run Scenario.missLeft g0) in
  Spec.drift_trials (snd (Canvas.tick Scenario.idle g1))
  = [Canvas.trial Canvas.drift_px
       (Spec.displacement (Scenario.missLeft ++ [Canvas.Frame Scenario.idle])
                          g0 (Num.fin 0)) "px"] /\
  Spec.displacement (Scenario.missLeft ++ [Canvas.Frame Scenario.idle])
                    g0 (Num.fin 0) =n= Num.fin 280.
Proof.
  cbv zeta.
  assert (Hq : Spec.quiet Scenario.missLeft
                 (Canvas.resetRound Scenario.env0 (Canvas.init Scenario.gazeOff))
               = true) by (vm_compute; reflexivity).
  assert (Hend : Spec.round_end Scenario.idle
                   (fst (Canvas.run Scenario.missLeft
                           (Canvas.resetRound Scenario.env0
                                              (Canvas.init Scenario.gazeOff))))
                 = true) by (vm_compute; reflexivity).
  split.
  - exact (proj1 (proj1 C2_round_end_drift Scenario.env0
                        (Canvas.init Scenario.gazeOff)
                        Scenario.missLeft Scenario.idle Hq Hend)).
  - vm_compute. reflexivity.
Defined.

(** The round end is always noticed by the frame in which it happens, so
    a frame suspended by calibration never hides one. *)
Lemma settled_reset (e : Canvas.Env) (g : Canvas.State) :
  Ball.r (Canvas.ball g) = Ball.r Canvas.ball0 ->
  Spec.settled (Canvas.resetRound e g).
Proof.
  intro Hr. unfold Spec.settled. cbn [Canvas.resetRound Canvas.ball Ball.r Ball.y].
  split; [exact Hr|]. rewrite Hr. reflexivity.
Qed.

Lemma settled_step (ev : Canvas.Event) (g : Canvas.State) :
  Spec.settled g -> Spec.settled (fst (Canvas.step ev g)).
Proof.
  intros [Hr Hs].
  destruct ev as [k e | k | f | rl gs | d e].
  - destruct k; try (split; assumption).
    + apply settled_reset. exact Hr.
    + split; [exact Hr|]. cbn. apply andb_false_r.
  - destruct k; split; assumption.
  - cbn [Canvas.step]. tick_cases g; cbn [fst]; [split; assumption|].
    unfold Spec.settled. cbn [Canvas.ball Canvas.round Canvas.runningRef].
    destruct (Canvas.hit _ _); cbn [Ball.r Ball.y Canvas.physics];
      (split; [exact Hr|]);
      match goal with
      | |- ?c && (if ?c && ?r then false else ?r) = false =>
          destruct c, r; reflexivity
      end.
  - split; assumption.
  - cbn [Canvas.step fst]. unfold Canvas.render.
    destruct (Canvas.deps_eqb (Canvas.deps g) d); [split; assumption|].
    apply settled_reset. exact Hr.
Qed.

Lemma settled_run (evs : list Canvas.Event) :
  forall g : Canvas.State, Spec.settled g -> Spec.settled (fst (Canvas.run evs g)).
Proof.
  induction evs as [|ev rest IH]; intros g Hs; [exact Hs|].
  destruct (run_cons ev rest g) as [-> _].
  apply IH. apply settled_step. exact Hs.
Qed.

Lemma settled_from_mount (d : Canvas.Deps) (e : Canvas.Env)
      (evs : list Canvas.Event) :
  Spec.settled (fst (Canvas.run evs (Canvas.mount d e))).
Proof. apply settled_run. apply settled_reset. reflexivity. Qed.

(* ================================================================== *)
(** * The paddle range *)
(* ================================================================== *)

Lemma clampX_in_range (p : Paddle.t) (v : Q) :
  Paddle.w p / 2 <= Canvas.W - Paddle.w p / 2 ->
  Num.between (Paddle.w p / 2) (Canvas.W - Paddle.w p / 2)
              (Canvas.clampX p (Num.fin v)).
Proof.
  intro Hw. unfold Canvas.clampX. cbn. apply clamp_range. exact Hw.
Qed.

(** The interpolation step of the gaze branch stays between the old
    paddle x and the clamped target. *)
Lemma lerp_in_range (lo hi x t : Q) :
  lo <= x <= hi -> lo <= t <= hi ->
  let delta := t - x in
  let ct := if Qltb (Canvas.W * 0.1) (Qabs delta)
            then x + Qsign delta * (Canvas.W * 0.1) else t in
  lo <= x + (ct - x) * 0.42 <= hi.
Proof.
  intros Hx Ht delta ct. unfold ct, delta, Qsign, Canvas.W.
  destruct (Qabs_cases (t - x)) as [[Hs Ha] | [Hs Ha]];
    qtest; rewrite ?Ha in *; lra.
Qed.

(** With a numeric (or absent) calibration the control step keeps the
    paddle x within [w/2, W - w/2], in both control modes. *)
Lemma control_in_range (d : Canvas.Deps) (c : option Canvas.Calib)
      (k : Canvas.Keys) (f : Canvas.FrameInput) (p : Paddle.t) :
  Paddle.w p / 2 <= Canvas.W - Paddle.w p / 2 ->
  Spec.calib_numeric c ->
  Spec.paddle_in_range p ->
  Spec.paddle_in_range (Canvas.control d c k f p).
Proof.
  intros Hw Hc Hp. unfold Spec.paddle_in_range in *.
  destruct (Paddle.x p) as [x|] eqn:Ex; [|contradiction].
  cbn [Num.between] in Hp.
  unfold Canvas.control.
  destruct (Canvas.useGaze d), (Canvas.smooth f) as [s|];
    try (cbn [Paddle.with_x Paddle.x Paddle.w]; rewrite Ex;
         destruct (Canvas.left k), (Canvas.right k);
         apply clampX_in_range; exact Hw).
  destruct (Canvas.lostRef f); cbn [negb];
    [rewrite Ex; exact Hp|].
  assert (Hm : exists m, Canvas.mapGazeX c (WebGazer.x s) (Canvas.rectLeft f)
                         = Num.fin m).
  { unfold Canvas.mapGazeX. destruct c as [[[qa|] [qb|]]|]; cbn in Hc;
      try (destruct Hc; discriminate); eexists; reflexivity. }
  destruct Hm as [m ->].
  cbn [Paddle.with_x Paddle.x Paddle.w]. rewrite Ex.
  unfold Canvas.clampX.
  cbn [Num.max Num.min Num.lift2 Num.fin Num.sub Num.abs Num.lift1 Num.gtb
       Num.ltb Num.cmp].
  set (t := Qmax2 (Paddle.w p / 2) (Qmin2 (Canvas.W - Paddle.w p / 2) m)).
  assert (Ht : Paddle.w p / 2 <= t <= Canvas.W - Paddle.w p / 2)
    by (apply clamp_range; exact Hw).
  pose proof (lerp_in_range _ _ x t Hp Ht) as Hl. cbv zeta in Hl.
  destruct (Qltb (Canvas.W * 0.1) (Qabs (t - x)));
    cbn [Num.add Num.sub Num.mul Num.sign Num.lift1 Num.lift2 Num.fin
         Num.between]; exact Hl.
Qed.

Lemma step_in_range (ev : Canvas.Event) (g : Canvas.State) :
  Paddle.w (Canvas.paddle g) / 2 <= Canvas.W - Paddle.w (Canvas.paddle g) / 2 ->
  Spec.calib_numeric (Canvas.calib (Canvas.cal g)) ->
  Spec.paddle_in_range (Canvas.paddle g) ->
  Spec.paddle_in_range (Canvas.paddle (fst (Canvas.step ev g))).
Proof.
  intros Hw Hc Hp.
  destruct ev as [k e | k | f | rl gs | d e].
  - destruct k; exact Hp.
  - destruct k; exact Hp.
  - cbn [Canvas.step]. tick_cases g; cbn [fst Canvas.paddle]; [exact Hp|].
    apply control_in_range; assumption.
  - exact Hp.
  - cbn [Canvas.step fst]. unfold Canvas.render.
    destruct (Canvas.deps_eqb (Canvas.deps g) d); exact Hp.
Qed.

(** Only the x of the paddle is ever written. *)
Lemma step_paddle_w (ev : Canvas.Event) (g : Canvas.State) :
  Paddle.w (Canvas.paddle (fst (Canvas.step ev g))) = Paddle.w (Canvas.paddle g).
Proof.
  destruct ev as [k e | k | f | rl gs | d e].
  - destruct k; reflexivity.
  - destruct k; reflexivity.
  - cbn [Canvas.step]. tick_cases g; cbn [fst Canvas.paddle]; [reflexivity|].
    unfold Canvas.control.
    destruct (Canvas.useGaze _), (Canvas.smooth f), (Canvas.lostRef f);
      reflexivity.
  - reflexivity.
  - cbn [Canvas.step fst]. unfold Canvas.render.
    destruct (Canvas.deps_eqb (Canvas.deps g) d); reflexivity.
Qed.

Lemma run_paddle_w (evs : list Canvas.Event) :
  forall g : Canvas.State,
    Paddle.w (Canvas.paddle (fst (Canvas.run evs g))) = Paddle.w (Canvas.paddle g).
Proof.
  induction evs as [|ev rest IH]; intro g; [reflexivity|].
  destruct (run_cons ev rest g) as [-> _].
  rewrite IH. apply step_paddle_w.
Qed.

(** Without calibration the paddle stays in range along every run from the
    first mount. *)
Lemma uncalibrated_run_in_range (evs : list Canvas.Event) :
  forall g : Canvas.State,
    Spec.no_calibration evs = true ->
    Canvas.timers (Canvas.cal g) = [] ->
    Canvas.calib (Canvas.cal g) = None ->
    Paddle.w (Canvas.paddle g) = Paddle.w Canvas.paddle0 ->
    Spec.paddle_in_range (Canvas.paddle g) ->
    Spec.paddle_in_range (Canvas.paddle (fst (Canvas.run evs g))).
Proof.
  induction evs as [|ev rest IH]; intros g Hnc Ht Hc Hw Hp; [exact Hp|].
  cbn [Spec.no_calibration forallb] in Hnc. apply andb_true_iff in Hnc.
  destruct Hnc as [Hev Hnc].
  destruct (run_cons ev rest g) as [-> _].
  assert (Hcal : Canvas.cal (fst (Canvas.step ev g)) = Canvas.cal g).
  { destruct ev as [k e | k | f | rl gs | d e].
    - destruct k; try reflexivity. discriminate Hev.
    - destruct k; reflexivity.
    - apply tick_cal.
    - cbn [Canvas.step fst Canvas.cal]. unfold Canvas.calibFire. rewrite Ht.
      reflexivity.
    - cbn [Canvas.step fst]. unfold Canvas.render.
      destruct (Canvas.deps_eqb (Canvas.deps g) d); reflexivity. }
  pose proof (step_paddle_w ev g) as Hw1.
  apply IH; [exact Hnc | | | | ].
  - rewrite Hcal. exact Ht.
  - rewrite Hcal. exact Hc.
  - rewrite Hw1. exact Hw.
  - apply step_in_range; [| rewrite Hc; exact I | exact Hp].
    rewrite Hw. vm_compute. intro Hx. discriminate Hx.
Qed.

(** C3, where the code departs from it.  A calibration restarted while a
    pass is in flight ends with four samples for three targets; the fit
    then reads past the end of the targets, its coefficients are NaN, and
    the next gaze-controlled frame stores NaN as paddle x, which the
    keyboard branch keeps as well. *)
Theorem C3_paddle_escapes_clamp :
  let g := fst (Canvas.run Scenario.restartedCalibration Scenario.mounted) in
  let g1 := fst (Canvas.tick Scenario.looking g) in
  let g2 := fst (Canvas.run [Canvas.Render Scenario.gazeOff Scenario.env1;
                             Canvas.KeyDown Canvas.ArrowRight Scenario.env1;
                             Canvas.Frame Scenario.idle] g1) in
  Spec.paddle_in_range (Canvas.paddle g) /\
  List.length (Canvas.calibSamplesRef (Canvas.cal g)) = 4%nat /\
  Canvas.calib (Canvas.cal g) = Some (Canvas.mkCalib NaN NaN) /\
  Paddle.x (Canvas.paddle g1) = NaN /\
  ~ Spec.paddle_in_range (Canvas.paddle g1) /\
  Paddle.x (Canvas.paddle g2) = NaN.
Proof.
  cbv zeta.
  split; [vm_compute; split; intro Hx; discriminate Hx|].
  split; [vm_compute; reflexivity|].
  split; [vm_compute; reflexivity|].
  split; [vm_compute; reflexivity|].
  split; [|vm_compute; reflexivity].
  intro Hr. vm_compute in Hr. exact Hr.
Qed.

(* ================================================================== *)
(** * Which events reset the round *)
(* ================================================================== *)

Lemma resetRound_resets (e : Canvas.Env) (g : Canvas.State) :
  Spec.round_reset e g (Canvas.resetRound e g).
Proof. unfold Spec.round_reset. cbn. repeat split; reflexivity. Qed.

Lemma quiet_step (ev : Canvas.Event) (g : Canvas.State) :
  Spec.is_reset ev g = false ->
  Canvas.roundStartTs (Canvas.round (fst (Canvas.step ev g)))
  = Canvas.roundStartTs (Canvas.round g) /\
  (Canvas.runningRef (Canvas.round (fst (Canvas.step ev g))) = true ->
   Canvas.runningRef (Canvas.round g) = true).
Proof.
  intro Hq.
  destruct (event_cases ev) as [[f ->] | Hnf].
  - split; [apply tick_round_start | apply tick_running].
  - destruct (other_event ev g Hq Hnf) as (_ & Hr & _ & _ & _ & Hrun & _).
    split; assumption.
Qed.

(** C4, as the code has it.  A round reset (ball respawned with randomised
    velocity, round-start timestamp recorded, first-contact timestamp
    cleared, drift accumulator zeroed, running set true) is performed by
    every Space keydown, whether or not the canvas is calibrating, and by
    every run of the render effect: on first mount and again on each
    render that changes sessionId, useGaze or ready.  No other event
    rewrites the round-start timestamp or marks the round running. *)
Theorem C4_round_reset_events :
  (forall (e : Canvas.Env) (g : Canvas.State),
     Spec.round_reset e g (fst (Canvas.step (Canvas.KeyDown Canvas.Space e) g))) /\
  (forall (d : Canvas.Deps) (e : Canvas.Env) (g : Canvas.State),
     Canvas.deps_eqb (Canvas.deps g) d = false ->
     Spec.round_reset e g (fst (Canvas.step (Canvas.Render d e) g))) /\
  (forall (d : Canvas.Deps) (e : Canvas.Env),
     Spec.round_reset e (Canvas.init d) (Canvas.mount d e)) /\
  (forall (ev : Canvas.Event) (g : Canvas.State),
     Spec.is_reset ev g = false ->
     Canvas.roundStartTs (Canvas.round (fst (Canvas.step ev g)))
     = Canvas.roundStartTs (Canvas.round g) /\
     (Canvas.runningRef (Canvas.round (fst (Canvas.step ev g))) = true ->
      Canvas.runningRef (Canvas.round g) = true)) /\
  (forall (ev : Canvas.Event) (g : Canvas.State),
     Spec.is_reset ev g = true <->
     (exists e, ev = Canvas.KeyDown Canvas.Space e) \/
     (exists d e, ev = Canvas.Render d e /\
                  Canvas.deps_eqb (Canvas.deps g) d = false)).
Proof.
  split; [intros e g; apply resetRound_resets|].
  split.
  { intros d e g Hd. cbn [Canvas.step fst]. unfold Canvas.render. rewrite Hd.
    apply (resetRound_resets e
             (Canvas.mkState (Canvas.paddle g) (Canvas.ball g) (Canvas.keys g)
                             (Canvas.round g) (Canvas.cal g) d)). }
  split; [intros d e; apply resetRound_resets|].
  split; [exact quiet_step|].
  intros ev g. split.
  - destruct ev as [k e | k | f | rl gs | d e]; cbn [Spec.is_reset];
      try discriminate.
    + destruct k; try discriminate. intros _. left. exists e. reflexivity.
    + intro Hd. apply negb_true_iff in Hd. right. exists d, e. auto.
  - intros [[e ->] | (d & e & -> & Hd)]; cbn [Spec.is_reset];
      [reflexivity | rewrite Hd; reflexivity].
Qed.

Lemma C4_round_reset_events_witness :
  Canvas.deps_eqb (Canvas.deps Scenario.mounted) Scenario.withSession = false /\
  Spec.round_reset Scenario.env1 Scenario.mounted
    (fst (Canvas.step (Canvas.Render Scenario.withSession Scenario.env1)
                      Scenario.mounted)) /\
  Canvas.roundStartTs
    (Canvas.round (fst (Canvas.step (Canvas.Frame Scenario.idle) Scenario.mounted)))
  = Canvas.roundStartTs (Canvas.round Scenario.mounted).
Proof.
  split; [reflexivity|]. split.
  - apply (proj1 (proj2 C4_round_reset_events)). reflexivity.
  - apply (proj1 (proj2 (proj2 (proj2 C4_round_reset_events)))). reflexivity.
Defined.

(** The claim that only a Space keypress outside calibration, and the first
    mount, reset the round fails twice: a Space keydown during calibration
    resets the round, and so does the render that follows Start Session. *)
Lemma C4_reset_counterexample :
  let g := fst (Canvas.run [Canvas.KeyDown Canvas.KeyC Scenario.env0]
                           Scenario.mounted) in
  let g1 := fst (Canvas.step (Canvas.KeyDown Canvas.Space Scenario.env1) g) in
  let g2 := fst (Canvas.step (Canvas.Render Scenario.withSession Scenario.env1)
                             Scenario.mounted) in
  (Canvas.calibratingRef (Canvas.cal g) = true /\
   Canvas.runningRef (Canvas.round g) = false /\
   Canvas.roundStartTs (Canvas.round g) = Some 1000 /\
   Canvas.calibratingRef (Canvas.cal g1) = true /\
   Canvas.runningRef (Canvas.round g1) = true /\
   Canvas.roundStartTs (Canvas.round g1) = Some 5000 /\
   Spec.round_reset Scenario.env1 g g1) /\
  (Canvas.roundStartTs (Canvas.round Scenario.mounted) = Some 1000 /\
   Canvas.roundStartTs (Canvas.round g2) = Some 5000 /\
   Spec.round_reset Scenario.env1 Scenario.mounted g2).
Proof.
  cbv zeta. split.
  - split; [reflexivity|]. split; [reflexivity|]. split; [reflexivity|].
    split; [reflexivity|]. split; [reflexivity|]. split; [reflexivity|].
    apply resetRound_resets.
  - split; [reflexivity|]. split; [reflexivity|].
    apply (resetRound_resets Scenario.env1
             (Canvas.mkState (Canvas.paddle Scenario.mounted)
                (Canvas.ball Scenario.mounted) (Canvas.keys Scenario.mounted)
                (Canvas.round Scenario.mounted) (Canvas.cal Scenario.mounted)
                Scenario.withSession)).
Qed.


Lemma range_bounds :
  Paddle.w Canvas.paddle0 / 2 == 120 /\
  Canvas.W - Paddle.w Canvas.paddle0 / 2 == 680 /\
  Canvas.pTop Canvas.paddle0 == 469 /\
  Ball.r Canvas.ball0 == 13.
Proof. repeat split; vm_compute; reflexivity. Qed.

(** In both control modes, along every run from the first mount that does
    not calibrate, the paddle x lies in [120, 680]. *)
Lemma uncalibrated_paddle_120_680 (d : Canvas.Deps) (e : Canvas.Env)
      (evs : list Canvas.Event) :
  Spec.no_calibration evs = true ->
  Num.between 120 680 (Paddle.x (Canvas.paddle (fst (Canvas.run evs (Canvas.mount d e))))).
Proof.
  intro Hnc.
  pose proof (uncalibrated_run_in_range evs (Canvas.mount d e) Hnc eq_refl
                eq_refl eq_refl) as Hr.
  assert (H0 : Spec.paddle_in_range (Canvas.paddle (Canvas.mount d e)))
    by (vm_compute; split; intro Hx; discriminate Hx).
  specialize (Hr H0). unfold Spec.paddle_in_range in Hr.
  assert (Hw : Paddle.w (Canvas.paddle (fst (Canvas.run evs (Canvas.mount d e))))
               = Paddle.w Canvas.paddle0)
    by (rewrite run_paddle_w; reflexivity).
  rewrite Hw in Hr.
  destruct (Paddle.x _) as [x|]; [|contradiction].
  cbn [Num.between] in *. destruct range_bounds as (Hlo & Hhi & _).
  lra.
Qed.

(* ================================================================== *)
(** * The worked examples on binary64 *)
(* ================================================================== *)

Section Binary64Examples.

Import PrimFloat.
Local Open Scope float_scope.

(** With rounding, the fit of (0,120), (400,400), (800,680) is the double
    nearest to 0.7 and exactly 120; the fallback samples give exactly the
    identity; a fourth sample gives NaN coefficients, which the clamp lets
    through; and the smoothing example gives exactly 112. *)
Lemma binary64_examples :
  Binary64.fitLinear [0; 400; 800] = (0x1.6666666666666p-1, 120) /\
  Binary64.fitLinear [120; 400; 680] = (1, 0) /\
  map (fun t => t * Binary64.W) Binary64.calibTargets = [120; 400; 680] /\
  Binary64.isNaN (fst (Binary64.fitLinear [130; 125; 410; 690])) = true /\
  Binary64.isNaN (snd (Binary64.fitLinear [130; 125; 410; 690])) = true /\
  Binary64.isNaN (Binary64.clampX (nan * 300 + nan)) = true /\
  Binary64.reaches 0 5 12 = false /\
  Binary64.reaches 0 20 12 = true /\
  Binary64.ema 0x1.3333333333333p-1 100 120 = 112.
Proof. repeat split; vm_compute; reflexivity. Qed.

End Binary64Examples.

(* ================================================================== *)
(** * The gaze signal over time *)
(* ================================================================== *)

Lemma react_smooth_kept (o : WebGazer.Opts) (i : WebGazer.Input) (h : WebGazer.Hook) :
  WebGazer.smoothRef h <> None ->
  WebGazer.smoothRef (WebGazer.react o i h) <> None.
Proof.
  intro Hs. destruct i as [now p | now]; cbn [WebGazer.react].
  - unfold WebGazer.onGaze. destruct (WebGazer.valid p) as [pt|]; cbn; [|exact Hs].
    destruct (WebGazer.smoothRef h) as [prev|]; [|discriminate].
    destruct (WebGazer.hypot_geb _ _ _); discriminate.
  - exact Hs.
Qed.

(** Once a smoothed point exists it is never cleared, whatever samples
    (valid or not) and heartbeats follow; and the first valid sample
    creates it. *)
Theorem smooth_never_cleared :
  forall (o : WebGazer.Opts) (ins : list WebGazer.Input) (h : WebGazer.Hook),
    (WebGazer.smoothRef h <> None ->
     WebGazer.smoothRef (WebGazer.feed o ins h) <> None) /\
    (forall (now px py : Q),
       WebGazer.smoothRef
         (WebGazer.feed o ins
            (WebGazer.onGaze o now
               (Some (WebGazer.mkSample (Num.fin px) (Num.fin py))) h))
       <> None).
Proof.
  intros o ins.
  assert (Hkeep : forall h, WebGazer.smoothRef h <> None ->
                            WebGazer.smoothRef (WebGazer.feed o ins h) <> None).
  { induction ins as [|i rest IH]; intros h Hs; [exact Hs|].
    cbn [WebGazer.feed fold_left]. apply IH. apply react_smooth_kept. exact Hs. }
  intro h. split; [apply Hkeep|].
  intros now px py. apply Hkeep.
  unfold WebGazer.onGaze. cbn.
  destruct (WebGazer.smoothRef h) as [prev|]; [|discriminate].
  destruct (WebGazer.hypot_geb _ _ _); discriminate.
Qed.

Lemma smooth_never_cleared_witness :
  WebGazer.smoothRef
    (WebGazer.feed WebGazer.defaults
       [WebGazer.Gaze 20 None; WebGazer.Beat 300;
        WebGazer.Gaze 320 (Some (WebGazer.mkSample NaN (Num.fin 4)))]
       (WebGazer.mkHook true false None (Some (WebGazer.mkPoint 100 100)) 0))
  <> None.
Proof.
  apply (proj1 (smooth_never_cleared WebGazer.defaults _ _)).
  discriminate.
Defined.

(** When the smoothed point moves, its remaining distance to the raw
    sample is (1 - alpha) times the previous one on each axis; with
    0 <= alpha <= 1 the new point lies between the previous point and the
    raw sample on each axis. *)
Theorem smoothing_contracts :
  forall (o : WebGazer.Opts) (now : Q) (h : WebGazer.Hook) (px py : Q)
         (prev : WebGazer.Point),
    WebGazer.smoothRef h = Some prev ->
    WebGazer.hypot_geb (px - WebGazer.x prev) (py - WebGazer.y prev)
                       (WebGazer.deadzone o) = true ->
    exists q : WebGazer.Point,
      WebGazer.smoothRef
        (WebGazer.onGaze o now
           (Some (WebGazer.mkSample (Num.fin px) (Num.fin py))) h) = Some q /\
      px - WebGazer.x q == (1 - WebGazer.alpha o) * (px - WebGazer.x prev) /\
      py - WebGazer.y q == (1 - WebGazer.alpha o) * (py - WebGazer.y prev) /\
      (0 <= WebGazer.alpha o <= 1 ->
       (Qmin2 (WebGazer.x prev) px <= WebGazer.x q <= Qmax2 (WebGazer.x prev) px) /\
       (Qmin2 (WebGazer.y prev) py <= WebGazer.y q <= Qmax2 (WebGazer.y prev) py)).
Proof.
  intros o now h px py prev Hs Hd.
  eexists. split; [apply onGaze_move; eassumption|].
  cbn [WebGazer.x WebGazer.y].
  split; [ring|]. split; [ring|].
  intro Ha. unfold Qmin2, Qmax2. split; qtest; nra.
Qed.

Lemma smoothing_contracts_witness :
  exists q : WebGazer.Point,
    WebGazer.smoothRef
      (WebGazer.onGaze WebGazer.defaults 16
         (Some (WebGazer.mkSample (Num.fin 100) (Num.fin 120)))
         (WebGazer.mkHook true false None (Some (WebGazer.mkPoint 100 100)) 0))
    = Some q /\
    100 - WebGazer.x q == (1 - 0.6) * (100 - 100) /\
    120 - WebGazer.y q == (1 - 0.6) * (120 - 100).
Proof.
  destruct (smoothing_contracts WebGazer.defaults 16
              (WebGazer.mkHook true false None (Some (WebGazer.mkPoint 100 100)) 0)
              100 120 (WebGazer.mkPoint 100 100) eq_refl eq_refl)
    as (q & Hq & Hx & Hy & _).
  exists q. split; [exact Hq|]. split; [exact Hx | exact Hy].
Defined.

Lemma stale_feed_timestamp (o : WebGazer.Opts) (ins : list WebGazer.Input) :
  Forall WebGazer.stale_input ins ->
  forall h : WebGazer.Hook,
    WebGazer.lastTsRef (WebGazer.feed o ins h) = WebGazer.lastTsRef h.
Proof.
  induction 1 as [|i rest Hi _ IH]; intro h; [reflexivity|].
  cbn [WebGazer.feed fold_left]. unfold WebGazer.feed in IH. rewrite IH.
  destruct i as [now p | now]; cbn in *; [|reflexivity].
  unfold WebGazer.onGaze. rewrite Hi. reflexivity.
Qed.

(** A valid sample clears the lost flag at once.  Afterwards, however many
    invalid samples and heartbeats arrive, a heartbeat at clock [now] flags
    the signal lost exactly when more than [lostMs] have passed since that
    valid sample: invalid samples do not postpone the loss. *)
Theorem loss_after_silence :
  forall (o : WebGazer.Opts) (t now px py : Q) (h : WebGazer.Hook)
         (ins : list WebGazer.Input),
    Forall WebGazer.stale_input ins ->
    let h1 := WebGazer.onGaze o t
                (Some (WebGazer.mkSample (Num.fin px) (Num.fin py))) h in
    WebGazer.lost h1 = false /\
    (WebGazer.lost (WebGazer.beat o now (WebGazer.feed o ins h1)) = true <->
     WebGazer.lostMs o < now - t).
Proof.
  intros o t now px py h ins Hst h1.
  split; [reflexivity|].
  unfold WebGazer.beat. cbn [WebGazer.lost].
  rewrite (stale_feed_timestamp o ins Hst h1).
  unfold h1, WebGazer.onGaze. cbn [WebGazer.valid WebGazer.lastTsRef].
  apply Qltb_iff.
Qed.

Lemma loss_after_silence_witness :
  let h1 := WebGazer.onGaze WebGazer.defaults 1000
              (Some (WebGazer.mkSample (Num.fin 5) (Num.fin 6))) WebGazer.init in
  WebGazer.lost h1 = false /\
  (WebGazer.lost
     (WebGazer.beat WebGazer.defaults 1200
        (WebGazer.feed WebGazer.defaults
           [WebGazer.Gaze 1100 None; WebGazer.Beat 1120] h1)) = true <->
   WebGazer.lostMs WebGazer.defaults < 1200 - 1000).
Proof.
  apply (loss_after_silence WebGazer.defaults 1000 1200 5 6 WebGazer.init).
  repeat constructor.
Defined.

(* ================================================================== *)
(** * The ball *)
(* ================================================================== *)

Lemma num_sub_nan_r (u : num) : (u - NaN)%num = NaN.
Proof. destruct u; reflexivity. Qed.

Lemma num_mul_nan_r (u : num) : (u * NaN)%num = NaN.
Proof. destruct u; reflexivity. Qed.

Lemma num_add_nan_r (u : num) : (u + NaN)%num = NaN.
Proof. destruct u; reflexivity. Qed.

Lemma geometry_step (ev : Canvas.Event) (g : Canvas.State) :
  Spec.geometry g -> Spec.geometry (fst (Canvas.step ev g)).
Proof.
  intros Hg.
  destruct ev as [k e | k | f | rl gs | d e].
  - destruct k; exact Hg.
  - destruct k; exact Hg.
  - cbn [Canvas.step]. tick_cases g; cbn [fst]; [exact Hg|].
    unfold Spec.geometry in *. cbn [Canvas.paddle Canvas.ball].
    destruct Hg as (Hy & Hw & Hh & Hs & Hr).
    assert (Hp : forall p', p' = Canvas.control (Canvas.deps g)
                                   (Canvas.calib (Canvas.cal g)) (Canvas.keys g) f
                                   (Canvas.paddle g) ->
                 Paddle.y p' = Paddle.y (Canvas.paddle g) /\
                 Paddle.w p' = Paddle.w (Canvas.paddle g) /\
                 Paddle.h p' = Paddle.h (Canvas.paddle g) /\
                 Paddle.speed p' = Paddle.speed (Canvas.paddle g)).
    { intros p' ->. unfold Canvas.control.
      destruct (Canvas.useGaze _), (Canvas.smooth f), (Canvas.lostRef f);
        repeat split; reflexivity. }
    destruct (Hp _ eq_refl) as (-> & -> & -> & ->).
    repeat split; try assumption.
    destruct (Canvas.hit _ _); exact Hr.
  - exact Hg.
  - cbn [Canvas.step fst]. unfold Canvas.render.
    destruct (Canvas.deps_eqb (Canvas.deps g) d); exact Hg.
Qed.

Lemma geometry_run (evs : list Canvas.Event) :
  forall g : Canvas.State,
    Spec.geometry g -> Spec.geometry (fst (Canvas.run evs g)).
Proof.
  induction evs as [|ev rest IH]; intros g Hg; [exact Hg|].
  destruct (run_cons ev rest g) as [-> _].
  apply IH. apply geometry_step. exact Hg.
Qed.

(** Along every run from the first mount the paddle keeps its y, width,
    height and speed and the ball keeps its radius: 478, 240, 18, 10
    and 13. *)
Theorem geometry_kept :
  forall (d : Canvas.Deps) (e : Canvas.Env) (evs : list Canvas.Event),
    let g := fst (Canvas.run evs (Canvas.mount d e)) in
    Spec.geometry g /\
    Paddle.y (Canvas.paddle g) == 478 /\ Paddle.w (Canvas.paddle g) == 240 /\
    Paddle.h (Canvas.paddle g) == 18 /\ Paddle.speed (Canvas.paddle g) == 10 /\
    Ball.r (Canvas.ball g) == 13.
Proof.
  intros d e evs g.
  assert (Hg : Spec.geometry g)
    by (apply geometry_run; repeat split).
  split; [exact Hg|].
  destruct Hg as (-> & -> & -> & -> & ->).
  repeat split; vm_compute; reflexivity.
Qed.

(** A round reset with draws in [0, 1) puts the ball at (400, 120) with a
    horizontal speed in [2.8, 4.0), to the left when the first draw is
    below 0.5 and to the right otherwise, and a downward vertical speed in
    [3.6, 5.0). *)
Theorem reset_velocity_ranges :
  forall (e : Canvas.Env) (g : Canvas.State),
    Spec.unit_draw (Canvas.rnd1 e) -> Spec.unit_draw (Canvas.rnd2 e) ->
    Spec.unit_draw (Canvas.rnd3 e) ->
    exists bx by_ vx vy : Q,
      Canvas.ball (Canvas.resetRound e g)
      = Ball.mk (Num.fin bx) (Num.fin by_) (Ball.r (Canvas.ball g))
                (Num.fin vx) (Num.fin vy) /\
      bx == 400 /\ by_ == 120 /\
      (Canvas.rnd1 e < 0.5 -> -4 < vx <= -2.8) /\
      (0.5 <= Canvas.rnd1 e -> 2.8 <= vx < 4) /\
      3.6 <= vy < 5.
Proof.
  intros e g [H1 H1'] [H2 H2'] [H3 H3'].
  eexists _, _, _, _. split; [reflexivity|].
  split; [vm_compute; reflexivity|]. split; [reflexivity|].
  split; [|split].
  - intro Hlt. apply Qltb_iff in Hlt. rewrite Hlt. lra.
  - intro Hge. apply Qltb_false_iff in Hge. rewrite Hge. lra.
  - lra.
Qed.

Lemma reset_velocity_ranges_witness :
  exists bx by_ vx vy : Q,
    Canvas.ball (Canvas.resetRound Scenario.env1 Scenario.mounted)
    = Ball.mk (Num.fin bx) (Num.fin by_) (Ball.r (Canvas.ball Scenario.mounted))
              (Num.fin vx) (Num.fin vy) /\
    bx == 400 /\ by_ == 120 /\
    (Canvas.rnd1 Scenario.env1 < 0.5 -> -4 < vx <= -2.8) /\
    (0.5 <= Canvas.rnd1 Scenario.env1 -> 2.8 <= vx < 4) /\
    3.6 <= vy < 5.
Proof.
  apply (reset_velocity_ranges Scenario.env1 Scenario.mounted);
    vm_compute; (split; [intro Hx; discriminate Hx | reflexivity]).
Defined.

Lemma tick_ball_hit (f : Canvas.FrameInput) (g : Canvas.State) :
  Spec.detects f g = true ->
  Canvas.ball (fst (Canvas.tick f g))
  = Ball.mk (Ball.x (Spec.ballIn g)) (Ball.y (Spec.ballIn g))
            (Ball.r (Spec.ballIn g))
            (Ball.vx (Spec.ballIn g)
             + (Ball.x (Spec.ballIn g) - Paddle.x (Spec.paddleIn f g))
               / Num.fin (Paddle.w (Spec.paddleIn f g) / 2)
               * Num.fin 1.15)%num
            (Ball.vy (Spec.ballIn g) * Num.fin (-1))%num.
Proof.
  unfold Spec.detects. intro Hd. apply andb_true_iff in Hd.
  destruct Hd as [Hc Hh]. apply negb_true_iff in Hc.
  unfold Canvas.tick. rewrite Hc. cbn [fst Canvas.ball].
  fold (Spec.paddleIn f g). fold (Spec.ballIn g). rewrite Hh. reflexivity.
Qed.

Lemma tick_ball_miss (f : Canvas.FrameInput) (g : Canvas.State) :
  Canvas.calibratingRef (Canvas.cal g) = false ->
  Spec.detects f g = false ->
  Canvas.ball (fst (Canvas.tick f g)) = Spec.ballIn g.
Proof.
  unfold Spec.detects. intros Hc Hd. rewrite Hc in Hd. cbn [negb andb] in Hd.
  unfold Canvas.tick. rewrite Hc. cbn [fst Canvas.ball].
  fold (Spec.paddleIn f g). fold (Spec.ballIn g). rewrite Hd. reflexivity.
Qed.

Lemma paddleIn_constants (f : Canvas.FrameInput) (g : Canvas.State) :
  Paddle.y (Spec.paddleIn f g) = Paddle.y (Canvas.paddle g) /\
  Paddle.w (Spec.paddleIn f g) = Paddle.w (Canvas.paddle g) /\
  Paddle.h (Spec.paddleIn f g) = Paddle.h (Canvas.paddle g).
Proof.
  unfold Spec.paddleIn, Canvas.control.
  destruct (Canvas.useGaze _), (Canvas.smooth f), (Canvas.lostRef f);
    repeat split; reflexivity.
Qed.

(** After a frame that detects a collision the ball moves upward at the
    same vertical speed, its position is the one the frame's physics gave
    it, and its horizontal velocity has changed by at most 1.15. *)
Theorem bounce_off_paddle :
  forall (f : Canvas.FrameInput) (g : Canvas.State),
    Spec.geometry g ->
    Spec.detects f g = true ->
    let bl := Spec.ballIn g in
    let bl' := Canvas.ball (fst (Canvas.tick f g)) in
    exists vy off : Q,
      Ball.vy bl = Num.fin vy /\ 0 < vy /\
      Ball.vy bl' =n= Num.fin (- vy) /\
      Ball.x bl' = Ball.x bl /\ Ball.y bl' = Ball.y bl /\
      - (1.15) <= off <= 1.15 /\
      Ball.vx bl' = (Ball.vx bl + Num.fin off)%num.
Proof.
  intros f g Hg Hdet bl bl'.
  unfold bl'. rewrite (tick_ball_hit f g Hdet). fold bl.
  cbn [Ball.vy Ball.x Ball.y Ball.vx].
  unfold Spec.detects in Hdet. apply andb_true_iff in Hdet.
  destruct Hdet as [_ Hh]. fold bl in Hh.
  apply hit_iff in Hh. destruct Hh as (_ & Hspan & Hdown).
  destruct (paddleIn_constants f g) as (_ & Hw & _).
  destruct Hg as (_ & Hgw & _).
  unfold Spec.in_span, Spec.moving_down in *.
  rewrite Hw, Hgw in *.
  destruct (Ball.vy bl) as [vy|]; [|contradiction].
  destruct (Ball.x bl) as [bx|]; [|contradiction].
  destruct (Paddle.x (Spec.paddleIn f g)) as [px|]; [|contradiction].
  exists vy, ((bx - px) / (Paddle.w Canvas.paddle0 / 2) * 1.15).
  split; [reflexivity|]. split; [exact Hdown|].
  split; [cbn; ring|]. split; [reflexivity|]. split; [reflexivity|].
  assert (Hhalf : Paddle.w Canvas.paddle0 / 2 == 120) by (vm_compute; reflexivity).
  split.
  - rewrite Hhalf in *.
    assert (Hdiv : (bx - px) / 120 == (bx - px) * (1 # 120)) by (field).
    rewrite Hdiv. lra.
  - cbn [Num.sub Num.lift2 Num.fin]. unfold Num.div, Num.fin.
    destruct (Qeq_bool (Paddle.w Canvas.paddle0 / 2) 0) eqn:E;
      [vm_compute in E; discriminate E | reflexivity].
Qed.

Lemma bounce_off_paddle_witness :
  let g := fst (Canvas.run Scenario.lateCatch Scenario.mountedKeyboard) in
  let bl := Spec.ballIn g in
  let bl' := Canvas.ball (fst (Canvas.tick Scenario.idle g)) in
  exists vy off : Q,
    Ball.vy bl = Num.fin vy /\ 0 < vy /\
    Ball.vy bl' =n= Num.fin (- vy) /\
    Ball.x bl' = Ball.x bl /\ Ball.y bl' = Ball.y bl /\
    - (1.15) <= off <= 1.15 /\
    Ball.vx bl' = (Ball.vx bl + Num.fin off)%num.
Proof.
  cbv zeta.
  assert (Hg : Spec.geometry
                 (fst (Canvas.run Scenario.lateCatch Scenario.mountedKeyboard)))
    by (apply geometry_run; repeat split).
  assert (Hd : Spec.detects Scenario.idle
                 (fst (Canvas.run Scenario.lateCatch Scenario.mountedKeyboard))
               = true) by (vm_compute; reflexivity).
  exact (bounce_off_paddle Scenario.idle _ Hg Hd).
Defined.

(** A collision is never detected in two successive simulated frames: the
    bounce cannot trigger again on the next frame. *)
Theorem no_double_hit :
  forall (f f' : Canvas.FrameInput) (g : Canvas.State),
    Spec.geometry g ->
    Spec.detects f g = true ->
    Spec.detects f' (fst (Canvas.tick f g)) = false.
Proof.
  intros f f' g Hg Hdet.
  destruct (Spec.detects f' (fst (Canvas.tick f g))) eqn:Hdet'; [|reflexivity].
  exfalso.
  pose proof (geometry_step (Canvas.Frame f) g Hg) as Hg'. cbn [Canvas.step] in Hg'.
  pose proof (tick_ball_hit f g Hdet) as Hball.
  unfold Spec.detects in Hdet, Hdet'.
  apply andb_true_iff in Hdet. destruct Hdet as [_ Hh].
  apply andb_true_iff in Hdet'. destruct Hdet' as [_ Hh'].
  apply hit_iff in Hh. destruct Hh as (Htop & _ & Hdown).
  apply hit_iff in Hh'. destruct Hh' as (Htop' & _ & Hdown').
  unfold Spec.ballIn in Htop', Hdown'. rewrite Hball in Htop', Hdown'.
  destruct (paddleIn_constants f g) as (Hy & _ & Hh).
  destruct (paddleIn_constants f' (fst (Canvas.tick f g))) as (Hy' & _ & Hh').
  destruct Hg as (Hgy & _ & Hgh & _ & Hgr).
  destruct Hg' as (Hgy' & _ & Hgh' & _ & _).
  unfold Spec.reached_top, Spec.moving_down, Canvas.physics in Htop', Hdown'.
  unfold Spec.reached_top, Spec.moving_down in Htop, Hdown.
  cbn [Ball.x Ball.y Ball.r Ball.vx Ball.vy] in Htop', Hdown'.
  rewrite Hy', Hh', Hgy', Hgh' in Htop'. rewrite Hy, Hh, Hgy, Hgh in Htop.
  change (Ball.r (Spec.ballIn g)) with (Ball.r (Canvas.ball g)) in *.
  rewrite Hgr in *.
  assert (Hp : Paddle.y Canvas.paddle0 - Paddle.h Canvas.paddle0 / 2 == 469)
    by (vm_compute; reflexivity).
  assert (Hr : Ball.r Canvas.ball0 == 13) by (vm_compute; reflexivity).
  destruct (Ball.y (Spec.ballIn g)) as [y|]; [|contradiction].
  destruct (Ball.vy (Spec.ballIn g)) as [vy|]; [|contradiction].
  cbn [Num.add Num.sub Num.mul Num.lift2 Num.fin Num.leb Num.cmp] in Htop', Hdown'.
  revert Htop Hdown Htop' Hdown'.
  qtest; intros; lra.
Qed.

Lemma no_double_hit_witness :
  Spec.detects Scenario.idle
    (fst (Canvas.tick Scenario.idle
            (fst (Canvas.run Scenario.lateCatch Scenario.mountedKeyboard))))
  = false.
Proof.
  assert (Hg : Spec.geometry
                 (fst (Canvas.run Scenario.lateCatch Scenario.mountedKeyboard)))
    by (apply geometry_run; repeat split).
  assert (Hd : Spec.detects Scenario.idle
                 (fst (Canvas.run Scenario.lateCatch Scenario.mountedKeyboard))
               = true) by (vm_compute; reflexivity).
  exact (no_double_hit Scenario.idle Scenario.idle _ Hg Hd).
Defined.

Lemma Qabs_flip (v : Q) : Qabs (v * -1) == Qabs v.
Proof.
  rewrite <- (Qabs_opp v). apply Qabs_wd. ring.
Qed.

Lemma num_abs_flip (u : num) : Num.abs (u * Num.fin (-1))%num =n= Num.abs u.
Proof. destruct u as [v|]; [apply Qabs_flip | exact I]. Qed.

Lemma physics_vertical_speed (bl : Ball.t) :
  Num.abs (Ball.vy (Canvas.physics bl)) =n= Num.abs (Ball.vy bl).
Proof.
  unfold Canvas.physics. cbn [Ball.vy].
  destruct (Num.leb _ _); [apply num_abs_flip | apply num_eq_refl].
Qed.

Lemma step_vertical_speed (ev : Canvas.Event) (g : Canvas.State) :
  Spec.is_reset ev g = false ->
  Num.abs (Ball.vy (Canvas.ball (fst (Canvas.step ev g))))
  =n= Num.abs (Ball.vy (Canvas.ball g)).
Proof.
  intro Hq.
  destruct ev as [k e | k | f | rl gs | d e].
  - destruct k; try discriminate Hq; apply num_eq_refl.
  - destruct k; apply num_eq_refl.
  - cbn [Canvas.step]. tick_cases g; cbn [fst Canvas.ball]; [apply num_eq_refl|].
    destruct (Canvas.hit _ _); cbn [Ball.vy].
    + eapply num_eq_trans; [apply num_abs_flip | apply physics_vertical_speed].
    + apply physics_vertical_speed.
  - apply num_eq_refl.
  - cbn in Hq. apply negb_false_iff in Hq.
    cbn [Canvas.step fst]. unfold Canvas.render. rewrite Hq. apply num_eq_refl.
Qed.

(** Within a round the ball's vertical speed never changes: wall and
    paddle only reverse its direction.  After a reset it stays at
    3.6 + 1.4 * (third draw) until the next reset. *)
Theorem vertical_speed_constant :
  forall (e : Canvas.Env) (g : Canvas.State) (evs : list Canvas.Event),
    Spec.quiet evs (Canvas.resetRound e g) = true ->
    Num.abs (Ball.vy (Canvas.ball (fst (Canvas.run evs (Canvas.resetRound e g)))))
    =n= Num.fin (Qabs (3.6 + Canvas.rnd3 e * 1.4)).
Proof.
  intros e g evs.
  change (Num.fin (Qabs (3.6 + Canvas.rnd3 e * 1.4)))
    with (Num.abs (Ball.vy (Canvas.ball (Canvas.resetRound e g)))).
  generalize (Canvas.resetRound e g) as g0.
  induction evs as [|ev rest IH]; intros g0 Hq; [apply num_eq_refl|].
  cbn [Spec.quiet] in Hq. apply andb_true_iff in Hq. destruct Hq as [Hev Hq].
  apply negb_true_iff in Hev.
  destruct (run_cons ev rest g0) as [-> _].
  eapply num_eq_trans; [apply IH; exact Hq|].
  apply step_vertical_speed. exact Hev.
Qed.

Lemma vertical_speed_constant_witness :
  Num.abs (Ball.vy (Canvas.ball
     (fst (Canvas.run (Scenario.lateCatch ++ [Canvas.Frame Scenario.idle])
                      (Canvas.resetRound Scenario.env0
                                         (Canvas.init Scenario.gazeOff))))))
  =n= Num.fin (Qabs (3.6 + Canvas.rnd3 Scenario.env0 * 1.4)).
Proof.
  assert (Hq : Spec.quiet (Scenario.lateCatch ++ [Canvas.Frame Scenario.idle])
                 (Canvas.resetRound Scenario.env0 (Canvas.init Scenario.gazeOff))
               = true) by (vm_compute; reflexivity).
  exact (vertical_speed_constant Scenario.env0 (Canvas.init Scenario.gazeOff)
           _ Hq).
Defined.

(* ================================================================== *)
(** * The paddle *)
(* ================================================================== *)

Lemma clamp_spec (lo hi v : Q) :
  lo <= hi ->
  (v < lo /\ Qmax2 lo (Qmin2 hi v) = lo) \/
  (lo <= v <= hi /\ Qmax2 lo (Qmin2 hi v) == v) \/
  (hi < v /\ Qmax2 lo (Qmin2 hi v) = hi).
Proof.
  intro Hlh. unfold Qmin2.
  destruct (Qle_bool hi v) eqn:E1;
    [apply Qle_bool_iff in E1 | apply Qle_bool_false_iff in E1];
    unfold Qmax2;
    match goal with
    | |- context [Qle_bool ?u ?w] =>
        destruct (Qle_bool u w) eqn:E2;
        [apply Qle_bool_iff in E2 | apply Qle_bool_false_iff in E2]
    end.
  - destruct (Qeq_dec hi v) as [Hv | Hv].
    + right. left. split; [lra | exact Hv].
    + right. right. split; [|reflexivity].
      apply Qle_lteq in E1. destruct E1 as [E1 | E1]; [exact E1 | contradiction].
  - lra.
  - right. left. split; [lra | reflexivity].
  - left. split; [exact E2 | reflexivity].
Qed.

Lemma clamp_fixed (lo hi v : Q) :
  lo <= v <= hi -> Qmax2 lo (Qmin2 hi v) == v.
Proof.
  intro Hv.
  destruct (clamp_spec lo hi v ltac:(lra)) as [[H1 ->] | [[H1 H2] | [H1 ->]]];
    lra.
Qed.

Lemma clamp_fixed_eq (lo hi x v : Q) :
  lo <= x <= hi -> v == x -> Qmax2 lo (Qmin2 hi v) == x.
Proof.
  intros Hx Hv.
  destruct (clamp_spec lo hi v ltac:(lra)) as [[H1 ->] | [[H1 H2] | [H1 ->]]];
    lra.
Qed.

Lemma clamp_nonexpansive (lo hi x v : Q) :
  lo <= x <= hi ->
  Qabs (Qmax2 lo (Qmin2 hi v) - x) <= Qabs (v - x).
Proof.
  intro Hx.
  destruct (clamp_spec lo hi v ltac:(lra)) as [[H1 ->] | [[H1 H2] | [H1 ->]]];
    try rewrite H2;
    destruct (Qabs_cases (v - x)) as [[H3 ->] | [H3 ->]];
    try match goal with
        | |- Qabs ?u <= _ => destruct (Qabs_cases u) as [[H4 ->] | [H4 ->]]
        end; lra.
Qed.

Lemma clamp_monotone (lo hi x v : Q) :
  lo <= x <= hi ->
  (x <= v -> x <= Qmax2 lo (Qmin2 hi v)) /\
  (v <= x -> Qmax2 lo (Qmin2 hi v) <= x).
Proof.
  intro Hx.
  destruct (clamp_spec lo hi v ltac:(lra)) as [[H1 ->] | [[H1 H2] | [H1 ->]]];
    try rewrite H2; split; intro; lra.
Qed.

(** In keyboard control, from a paddle in range, a frame moves the paddle
    by at most its speed, 10 px; not at all when no arrow key or both are
    held; and never to the left while only the right arrow is held (nor
    to the right while only the left one is). *)
Theorem keyboard_step :
  forall (d : Canvas.Deps) (c : option Canvas.Calib) (k : Canvas.Keys)
         (f : Canvas.FrameInput) (p : Paddle.t) (x : Q),
    Canvas.useGaze d = false \/ Canvas.smooth f = None ->
    Spec.geometry_of p ->
    Paddle.x p = Num.fin x -> 120 <= x <= 680 ->
    exists x' : Q,
      Paddle.x (Canvas.control d c k f p) = Num.fin x' /\
      120 <= x' <= 680 /\
      Qabs (x' - x) <= 10 /\
      (Canvas.left k = Canvas.right k -> x' == x) /\
      (Canvas.left k = false -> x <= x') /\
      (Canvas.right k = false -> x' <= x).
Proof.
  intros d c k f p x Hmode (Hw & Hs) Hx Hr.
  assert (Hkb : Canvas.control d c k f p
                = Paddle.with_x p
                    (Canvas.clampX p
                       (let x1 := if Canvas.left k
                                  then (Paddle.x p - Num.fin (Paddle.speed p))%num
                                  else Paddle.x p in
                        if Canvas.right k
                        then (x1 + Num.fin (Paddle.speed p))%num else x1))).
  { unfold Canvas.control.
    destruct Hmode as [-> | ->]; [reflexivity|].
    destruct (Canvas.useGaze d); reflexivity. }
  rewrite Hkb. cbv zeta. unfold Canvas.clampX. rewrite Hx, Hw, Hs.
  assert (Hlo : Paddle.w Canvas.paddle0 / 2 == 120) by (vm_compute; reflexivity).
  assert (Hhi : Canvas.W - Paddle.w Canvas.paddle0 / 2 == 680)
    by (vm_compute; reflexivity).
  assert (Hsp : Paddle.speed Canvas.paddle0 == 10) by (vm_compute; reflexivity).
  set (hi := Canvas.W - Paddle.w Canvas.paddle0 / 2) in *.
  set (lo := Paddle.w Canvas.paddle0 / 2) in *.
  set (sp := Paddle.speed Canvas.paddle0) in *.
  clearbody hi lo sp.
  assert (Hxr : lo <= x <= hi) by lra.
  destruct (Canvas.left k), (Canvas.right k);
    cbn [Paddle.with_x Paddle.x Num.max Num.min Num.lift2 Num.fin Num.sub Num.add];
    eexists; (split; [reflexivity|]);
    match goal with
    | |- context [Qmax2 lo (Qmin2 hi ?v)] =>
        pose proof (clamp_range lo hi v ltac:(lra)) as Hc;
        pose proof (clamp_nonexpansive lo hi x v Hxr) as Hn;
        destruct (clamp_monotone lo hi x v Hxr) as [Hm Hm'];
        assert (Hf : v == x -> Qmax2 lo (Qmin2 hi v) == x)
          by (apply clamp_fixed_eq; exact Hxr);
        assert (Hd : Qabs (v - x) <= 10)
          by (destruct (Qabs_cases (v - x)) as [[? ->] | [? ->]]; lra)
    end;
    (split; [lra|]); (split; [lra|]);
    (split; [intro Hk; try discriminate Hk; apply Hf; lra|]);
    (split; intro Hk; try discriminate Hk; first [apply Hm | apply Hm']; lra).
Qed.

Lemma keyboard_step_witness :
  exists x' : Q,
    Paddle.x (Canvas.control Scenario.gazeOff None (Canvas.mkKeys true true)
                             Scenario.idle Canvas.paddle0) = Num.fin x' /\
    120 <= x' <= 680 /\
    Qabs (x' - Canvas.W / 2) <= 10 /\
    (true = true -> x' == Canvas.W / 2).
Proof.
  destruct (keyboard_step Scenario.gazeOff None (Canvas.mkKeys true true)
              Scenario.idle Canvas.paddle0 (Canvas.W / 2))
    as (x' & Hx & Hr & Hd & Hk & _).
  - left. reflexivity.
  - split; reflexivity.
  - reflexivity.
  - split; intro Hc; discriminate Hc.
  - exists x'. split; [exact Hx|]. split; [exact Hr|]. split; [exact Hd|].
    exact Hk.
Defined.




(* ================================================================== *)
(** * Calibration beyond the claims *)
(* ================================================================== *)

Lemma reduce_i_nan {B : Type} (h : B -> nat -> num) (l : list B) :
  forall i : nat,
    Canvas.reduce_i (fun acc xi j => (acc + h xi j)%num) l i NaN = NaN.
Proof.
  induction l as [|v l IH]; intro i; [reflexivity|].
  cbn [Canvas.reduce_i]. apply IH.
Qed.

(** A fit over more than three samples reads past the end of the three
    targets and yields NaN for both coefficients, whatever the samples. *)
Theorem fit_past_targets_is_nan :
  forall xs : list num,
    (3 < List.length xs)%nat ->
    Canvas.fitLinear xs = Canvas.mkCalib NaN NaN.
Proof.
  intros xs Hlen.
  destruct xs as [|x0 [|x1 [|x2 [|x3 rest]]]]; cbn in Hlen; try lia.
  unfold Canvas.fitLinear.
  set (canvasXs := map _ Canvas.calibTargets).
  set (sxy := Canvas.reduce_i _ _ _ _).
  assert (Hsxy : sxy = NaN).
  { unfold sxy. cbn [Canvas.reduce_i].
    replace (Num.index canvasXs 3) with NaN by reflexivity.
    rewrite num_mul_nan_r, num_add_nan_r.
    apply (reduce_i_nan (fun xi j => (xi * Num.index canvasXs j)%num)). }
  rewrite Hsxy.
  set (n := Num.fin _). set (sx := Canvas.reduce Num.add _ _).
  set (sy := Canvas.reduce Num.add canvasXs _).
  set (dn := Num.orElse _ _).
  rewrite num_mul_nan_r. cbn [Num.sub Num.lift2 Num.div].
  rewrite num_sub_nan_r. reflexivity.
Qed.

Lemma fit_past_targets_is_nan_witness :
  Canvas.fitLinear [Num.fin 130; Num.fin 125; Num.fin 410; Num.fin 690]
  = Canvas.mkCalib NaN NaN.
Proof.
  apply fit_past_targets_is_nan. cbn. lia.
Defined.

Lemma control_nan (d : Canvas.Deps) (c : option Canvas.Calib) (k : Canvas.Keys)
      (f : Canvas.FrameInput) (p : Paddle.t) :
  Paddle.x p = NaN -> Paddle.x (Canvas.control d c k f p) = NaN.
Proof.
  intro Hx. unfold Canvas.control.
  destruct (Canvas.useGaze d), (Canvas.smooth f) as [s|];
    try (cbn [Paddle.with_x Paddle.x]; unfold Canvas.clampX; rewrite Hx;
         destruct (Canvas.left k), (Canvas.right k); reflexivity).
  destruct (Canvas.lostRef f); cbn [negb]; [exact Hx|].
  cbn [Paddle.with_x Paddle.x]. rewrite Hx. reflexivity.
Qed.

Lemma hit_nan (p : Paddle.t) (bl : Ball.t) :
  Paddle.x p = NaN -> Canvas.hit p bl = false.
Proof.
  intro Hx. destruct (Canvas.hit p bl) eqn:Hh; [|reflexivity].
  apply hit_iff in Hh. destruct Hh as (_ & Hspan & _).
  unfold Spec.in_span in Hspan. rewrite Hx in Hspan.
  destruct (Ball.x bl); contradiction.
Qed.

Lemma step_paddle_nan (ev : Canvas.Event) (g : Canvas.State) :
  Paddle.x (Canvas.paddle g) = NaN ->
  Paddle.x (Canvas.paddle (fst (Canvas.step ev g))) = NaN /\
  Spec.contact_trials (snd (Canvas.step ev g)) = [].
Proof.
  intro Hx.
  destruct ev as [k e | k | f | rl gs | d e].
  - destruct k; split; (exact Hx || reflexivity).
  - destruct k; split; (exact Hx || reflexivity).
  - cbn [Canvas.step]. split.
    + tick_cases g; cbn [fst Canvas.paddle]; [exact Hx|].
      apply control_nan. exact Hx.
    + rewrite tick_contact_trials.
      assert (Hd : Spec.detects f g = false).
      { unfold Spec.detects. rewrite hit_nan; [apply andb_false_r|].
        apply control_nan. exact Hx. }
      rewrite Hd. reflexivity.
  - split; [exact Hx | reflexivity].
  - cbn [Canvas.step fst snd]. unfold Canvas.render.
    destruct (Canvas.deps_eqb (Canvas.deps g) d); split; (exact Hx || reflexivity).
Qed.

(** Once the paddle x is NaN it stays NaN through every later event, in
    both control modes, across resets and also after a later, successful
    calibration; and no collision is detected any more, so no latency or
    accuracy trial is ever emitted again. *)
Theorem nan_paddle_is_permanent :
  forall (evs : list Canvas.Event) (g : Canvas.State),
    Paddle.x (Canvas.paddle g) = NaN ->
    Paddle.x (Canvas.paddle (fst (Canvas.run evs g))) = NaN /\
    Spec.contact_trials (snd (Canvas.run evs g)) = [].
Proof.
  induction evs as [|ev rest IH]; intros g Hx; [split; [exact Hx | reflexivity]|].
  destruct (run_cons ev rest g) as [-> ->].
  destruct (step_paddle_nan ev g Hx) as [Hx1 Hc1].
  destruct (IH _ Hx1) as [Hx2 Hc2].
  split; [exact Hx2|].
  rewrite contact_trials_app, Hc1, Hc2. reflexivity.
Qed.

Lemma nan_paddle_is_permanent_witness :
  let g := fst (Canvas.run (Scenario.restartedCalibration
                            ++ [Canvas.Frame Scenario.looking])
                           Scenario.mounted) in
  let evs := [Canvas.KeyDown Canvas.Space Scenario.env1;
              Canvas.Render Scenario.gazeOff Scenario.env1;
              Canvas.KeyDown Canvas.ArrowRight Scenario.env1;
              Canvas.Frame Scenario.idle] in
  Paddle.x (Canvas.paddle (fst (Canvas.run evs g))) = NaN /\
  Spec.contact_trials (snd (Canvas.run evs g)) = [].
Proof.
  cbv zeta.
  assert (Hx : Paddle.x (Canvas.paddle
                 (fst (Canvas.run (Scenario.restartedCalibration
                                   ++ [Canvas.Frame Scenario.looking])
                                  Scenario.mounted))) = NaN)
    by (vm_compute; reflexivity).
  exact (nan_paddle_is_permanent _ _ Hx).
Defined.

(* ================================================================== *)
(** * Rounds, drift and what reaches the backend *)
(* ================================================================== *)

Lemma drift_bound :
  forall (evs : list Canvas.Event) (g : Canvas.State),
    Spec.quiet evs g = true ->
    (List.length (Spec.drift_trials (snd (Canvas.run evs g))) <= 1)%nat.
Proof.
  induction evs as [|ev rest IH]; intros g Hq; [cbn; lia|].
  cbn [Spec.quiet] in Hq. apply andb_true_iff in Hq. destruct Hq as [Hev Hq].
  apply negb_true_iff in Hev.
  destruct (run_cons ev rest g) as [_ ->].
  rewrite drift_trials_app, length_app.
  destruct (event_cases ev) as [[f ->] | Hnf].
  - cbn [Canvas.step] in *. rewrite tick_drift_trials.
    destruct (Spec.round_end f g) eqn:Hend.
    + rewrite (idle_no_drift rest); [cbn; lia| |exact Hq].
      rewrite tick_running_after, Hend. reflexivity.
    + cbn [List.length]. apply IH. exact Hq.
  - destruct (other_event ev g Hev Hnf) as (_ & _ & _ & _ & _ & _ & ->).
    cbn [Spec.drift_trials filter List.length]. apply IH. exact Hq.
Qed.

(** Between two resets at most one drift_px trial is emitted, whatever
    the events; and none at all once the C key has started a
    calibration, which marks the round not running. *)
Theorem one_drift_per_round :
  (forall (evs : list Canvas.Event) (g : Canvas.State),
     Spec.quiet evs g = true ->
     (List.length (Spec.drift_trials (snd (Canvas.run evs g))) <= 1)%nat) /\
  (forall (evs : list Canvas.Event) (e : Canvas.Env) (g : Canvas.State),
     Spec.quiet evs (Canvas.startCalibration g) = true ->
     Spec.drift_trials
       (snd (Canvas.run (Canvas.KeyDown Canvas.KeyC e :: evs) g)) = []).
Proof.
  split; [exact drift_bound|].
  intros evs e g Hq.
  {
    destruct (run_cons (Canvas.KeyDown Canvas.KeyC e) evs g) as [_ ->].
    cbn [Canvas.step Canvas.keydown fst snd app].
    apply idle_no_drift; [reflexivity | exact Hq]. }
Qed.

Lemma one_drift_per_round_witness :
  (List.length
     (Spec.drift_trials
        (snd (Canvas.run (Scenario.missLeft
                          ++ [Canvas.Frame Scenario.idle; Canvas.Frame Scenario.idle])
                         Scenario.mountedKeyboard))) <= 1)%nat.
Proof.
  assert (Hq : Spec.quiet (Scenario.missLeft
                           ++ [Canvas.Frame Scenario.idle; Canvas.Frame Scenario.idle])
                          Scenario.mountedKeyboard = true)
    by (vm_compute; reflexivity).
  exact (proj1 one_drift_per_round _ _ Hq).
Defined.

Lemma step_calib_kept (ev : Canvas.Event) (g : Canvas.State) :
  (forall rl gs, ev <> Canvas.CalibTimer rl gs) ->
  Canvas.calib (Canvas.cal (fst (Canvas.step ev g))) = Canvas.calib (Canvas.cal g).
Proof.
  intro Hev.
  destruct ev as [k e | k | f | rl gs | d e].
  - destruct k; reflexivity.
  - destruct k; reflexivity.
  - cbn [Canvas.step]. rewrite tick_cal. reflexivity.
  - exfalso. eapply Hev. reflexivity.
  - cbn [Canvas.step fst]. unfold Canvas.render.
    destruct (Canvas.deps_eqb (Canvas.deps g) d); reflexivity.
Qed.

(** The calibration transform is written by calibration callbacks only:
    frames, key presses (C included), resets and renders all keep it, so a
    fitted transform lasts until the next pass completes. *)
Theorem calibration_persists :
  forall (evs : list Canvas.Event) (g : Canvas.State),
    Spec.no_callback evs = true ->
    Canvas.calib (Canvas.cal (fst (Canvas.run evs g))) = Canvas.calib (Canvas.cal g).
Proof.
  induction evs as [|ev rest IH]; intros g Hn; [reflexivity|].
  cbn [Spec.no_callback forallb] in Hn. apply andb_true_iff in Hn.
  destruct Hn as [Hev Hn].
  destruct (run_cons ev rest g) as [-> _].
  rewrite (IH _ Hn). apply step_calib_kept.
  intros rl gs ->. discriminate Hev.
Qed.

Lemma calibration_persists_witness :
  Canvas.calib
    (Canvas.cal
       (fst (Canvas.run [Canvas.KeyDown Canvas.Space Scenario.env1;
                         Canvas.KeyDown Canvas.KeyC Scenario.env1;
                         Canvas.Frame Scenario.looking]
                        Scenario.mounted)))
  = Canvas.calib (Canvas.cal Scenario.mounted).
Proof.
  apply calibration_persists. reflexivity.
Defined.

(* ================================================================== *)
(** * The dashboard beyond the claims *)
(* ================================================================== *)


Lemma submitTrial_sent (net : Dashboard.Net) (t : Canvas.Trial)
      (p : Dashboard.Page) :
  Dashboard.truthy_id (Dashboard.sessionId p) = true ->
  (Spec.is_drift t = false /\ snd (Dashboard.submitTrial net t p) = []) \/
  (Spec.is_drift t = true /\
   exists rows,
     snd (Dashboard.submitTrial net t p)
     = [Dashboard.mkRequest Dashboard.POST
          (Dashboard.trialsUrl (Dashboard.sessionId p)) (Dashboard.JsonBody rows)]).
Proof.
  intro Hs. unfold Dashboard.submitTrial, Spec.is_drift. rewrite Hs. cbn [negb].
  destruct (Canvas.metric_name t); [left; auto | left; auto |].
  right. split; [reflexivity|]. eexists.
  destruct (net _); reflexivity.
Qed.

Lemma submitAll_cons (net : Dashboard.Net) (t : Canvas.Trial)
      (ts : list Canvas.Trial) (p : Dashboard.Page) :
  snd (Dashboard.submitAll net (t :: ts) p)
  = snd (Dashboard.submitTrial net t p)
    ++ snd (Dashboard.submitAll net ts (fst (Dashboard.submitTrial net t p))).
Proof.
  cbn [Dashboard.submitAll].
  destruct (Dashboard.submitTrial net t p) as [p1 s1]. cbn [fst snd].
  destruct (Dashboard.submitAll net ts p1) as [p2 s2]. reflexivity.
Qed.

Lemma submitAll_bound (net : Dashboard.Net) (ts : list Canvas.Trial) :
  forall p : Dashboard.Page,
    (List.length (snd (Dashboard.submitAll net ts p))
     <= List.length (Spec.drift_trials ts))%nat.
Proof.
  induction ts as [|t rest IH]; intro p; [cbn; lia|].
  rewrite submitAll_cons, length_app.
  specialize (IH (fst (Dashboard.submitTrial net t p))).
  unfold Spec.drift_trials in *. cbn [filter].
  destruct (Dashboard.truthy_id (Dashboard.sessionId p)) eqn:Hs.
  - destruct (submitTrial_sent net t p Hs) as [[Hd ->] | [Hd [rows ->]]];
      rewrite Hd; cbn [List.length]; lia.
  - rewrite (no_session_submit net t p Hs) in *. cbn [snd List.length].
    destruct (Spec.is_drift t); cbn [List.length]; lia.
Qed.



(** A round of the game reaches the backend at most once: the trials
    emitted between two resets make the dashboard send at most one
    request. *)
Theorem one_post_per_round :
  forall (net : Dashboard.Net) (p : Dashboard.Page) (evs : list Canvas.Event)
         (g : Canvas.State),
    Spec.quiet evs g = true ->
    (List.length (snd (Dashboard.submitAll net (snd (Canvas.run evs g)) p)) <= 1)%nat.
Proof.
  intros net p evs g Hq.
  pose proof (submitAll_bound net (snd (Canvas.run evs g)) p) as Hb.
  pose proof (drift_bound evs g Hq) as Hd.
  lia.
Qed.

Lemma one_post_per_round_witness :
  (List.length
     (snd (Dashboard.submitAll Scenario.netOk
             (snd (Canvas.run (Scenario.missLeft
                               ++ [Canvas.Frame Scenario.idle;
                                   Canvas.Frame Scenario.idle])
                              Scenario.mountedKeyboard))
             Scenario.page7)) <= 1)%nat.
Proof.
  assert (Hq : Spec.quiet (Scenario.missLeft
                           ++ [Canvas.Frame Scenario.idle; Canvas.Frame Scenario.idle])
                          Scenario.mountedKeyboard = true)
    by (vm_compute; reflexivity).
  exact (one_post_per_round Scenario.netOk Scenario.page7 _ _ Hq).
Defined.

(** A buffered value is used by exactly one request: a latency buffered
    before a drift trial is posted with it and is not sent again with the
    next drift trial, which falls back to the defaults; and a latency and
    accuracy that arrive after a drift trial are posted with the next
    one. *)
Theorem buffered_values_used_once :
  forall (net : Dashboard.Net) (p : Dashboard.Page) (l a d1 d2 : num),
    Dashboard.truthy_id (Dashboard.sessionId p) = true ->
    let post rows := Dashboard.mkRequest Dashboard.POST
                       (Dashboard.trialsUrl (Dashboard.sessionId p))
                       (Dashboard.JsonBody rows) in
    snd (Dashboard.submitAll net
           [Canvas.trial Canvas.latency_ms l "ms";
            Canvas.trial Canvas.drift_px d1 "px";
            Canvas.trial Canvas.drift_px d2 "px"] p)
    = [post [Dashboard.mkBody l (nullish (Dashboard.lastAccuracy p) (Num.fin 80)) d1];
       post [Dashboard.mkBody (Num.fin 300) (Num.fin 80) d2]] /\
    snd (Dashboard.submitAll net
           [Canvas.trial Canvas.drift_px d1 "px";
            Canvas.trial Canvas.latency_ms l "ms";
            Canvas.trial Canvas.accuracy_px a "px";
            Canvas.trial Canvas.drift_px d2 "px"] p)
    = [post [Dashboard.mkBody (nullish (Dashboard.lastLatency p) (Num.fin 300))
                              (nullish (Dashboard.lastAccuracy p) (Num.fin 80)) d1];
       post [Dashboard.mkBody l a d2]].
Proof.
  intros net p l a d1 d2 Hs post.
  assert (Hstep : forall q t,
             Dashboard.sessionId q = Dashboard.sessionId p ->
             Canvas.metric_name t = Canvas.drift_px ->
             snd (Dashboard.submitTrial net t q)
             = [post [Dashboard.mkBody
                        (nullish (Dashboard.lastLatency q) (Num.fin 300))
                        (nullish (Dashboard.lastAccuracy q) (Num.fin 80))
                        (Canvas.value t)]] /\
             Dashboard.lastLatency (fst (Dashboard.submitTrial net t q)) = None /\
             Dashboard.lastAccuracy (fst (Dashboard.submitTrial net t q)) = None /\
             Dashboard.sessionId (fst (Dashboard.submitTrial net t q))
             = Dashboard.sessionId p).
  { intros q t Hq Hm.
    assert (Hsq : Dashboard.truthy_id (Dashboard.sessionId q) = true)
      by (rewrite Hq; exact Hs).
    destruct (submit_drift net q Hsq t Hm) as (H1 & H2 & H3 & H4).
    unfold post. rewrite <- Hq. repeat split; congruence. }
  split.
  - rewrite submitAll_cons, (submit_latency net p Hs) by reflexivity.
    cbn [fst snd app].
    set (q1 := Dashboard.mkPage _ _ _ _ _ _).
    rewrite submitAll_cons.
    destruct (Hstep q1 (Canvas.trial Canvas.drift_px d1 "px") eq_refl eq_refl)
      as (-> & Hl & Ha & Hsid).
    rewrite submitAll_cons.
    destruct (Hstep _ (Canvas.trial Canvas.drift_px d2 "px") Hsid eq_refl)
      as (-> & _).
    rewrite Hl, Ha. reflexivity.
  - rewrite submitAll_cons.
    destruct (Hstep p (Canvas.trial Canvas.drift_px d1 "px") eq_refl eq_refl)
      as (-> & Hl & Ha & Hsid).
    set (q1 := fst (Dashboard.submitTrial net _ p)) in *.
    assert (Hs1 : Dashboard.truthy_id (Dashboard.sessionId q1) = true)
      by (rewrite Hsid; exact Hs).
    rewrite submitAll_cons, (submit_latency net q1 Hs1) by reflexivity.
    cbn [fst snd app].
    set (q2 := Dashboard.mkPage _ _ _ _ _ _).
    assert (Hs2 : Dashboard.truthy_id (Dashboard.sessionId q2) = true) by exact Hs1.
    rewrite submitAll_cons, (submit_accuracy net q2 Hs2) by reflexivity.
    cbn [fst snd app].
    set (q3 := Dashboard.mkPage _ _ _ _ _ _).
    rewrite submitAll_cons.
    destruct (Hstep q3 (Canvas.trial Canvas.drift_px d2 "px") Hsid eq_refl)
      as (-> & _).
    reflexivity.
Qed.

Lemma buffered_values_used_once_witness :
  snd (Dashboard.submitAll Scenario.netOk
         [Canvas.trial Canvas.latency_ms (Num.fin 250) "ms";
          Canvas.trial Canvas.drift_px (Num.fin 30) "px";
          Canvas.trial Canvas.drift_px (Num.fin 31) "px"] Scenario.page7)
  = [Dashboard.mkRequest Dashboard.POST
       (Dashboard.trialsUrl (Dashboard.sessionId Scenario.page7))
       (Dashboard.JsonBody
          [Dashboard.mkBody (Num.fin 250)
             (nullish (Dashboard.lastAccuracy Scenario.page7) (Num.fin 80))
             (Num.fin 30)]);
     Dashboard.mkRequest Dashboard.POST
       (Dashboard.trialsUrl (Dashboard.sessionId Scenario.page7))
       (Dashboard.JsonBody
          [Dashboard.mkBody (Num.fin 300) (Num.fin 80) (Num.fin 31)])].
Proof.
  exact (proj1 (buffered_values_used_once Scenario.netOk Scenario.page7
                  (Num.fin 250) (Num.fin 0) (Num.fin 30) (Num.fin 31) eq_refl)).
Defined.

(** The severity label: High from 85 up, Medium from 60 up to (not
    including) 85, Low below 60; a NaN severity is labelled Low, and an
    absent one gets the dash. *)
Theorem severity_label_partition :
  forall s : Q,
    (fst (Dashboard.severityLabel (Some (Num.fin s))) = "High"%string <-> 85 <= s) /\
    (fst (Dashboard.severityLabel (Some (Num.fin s))) = "Medium"%string
     <-> 60 <= s < 85) /\
    (fst (Dashboard.severityLabel (Some (Num.fin s))) = "Low"%string <-> s < 60) /\
    fst (Dashboard.severityLabel (Some NaN)) = "Low"%string /\
    fst (Dashboard.severityLabel None) = "—"%string.
Proof.
  intro s. unfold Dashboard.severityLabel.
  cbn [Num.geb Num.leb Num.cmp Num.fin].
  destruct (Qle_bool 85 s) eqn:E1;
    [apply Qle_bool_iff in E1 | apply Qle_bool_false_iff in E1];
    (destruct (Qle_bool 60 s) eqn:E2;
     [apply Qle_bool_iff in E2 | apply Qle_bool_false_iff in E2]);
    cbn [fst];
    (split; [split; [intro Hl; try discriminate Hl; lra | intro Hl; try reflexivity; lra]|]);
    (split; [split; [intro Hl; try discriminate Hl; lra | intro Hl; try reflexivity; lra]|]);
    (split; [split; [intro Hl; try discriminate Hl; lra | intro Hl; try reflexivity; lra]|]);
    split; reflexivity.
Qed.

(** The progress bar never leaves 0..100 for a numeric severity: its
    width is the severity itself inside the range, 0 below it and 100
    above; it is 0 when no severity is known, and NaN for a NaN one. *)
Theorem bar_width_range :
  forall p : Dashboard.Page,
    (Dashboard.sev p = None -> Dashboard.barWidth p =n= Num.fin 0) /\
    (Dashboard.sev p = Some NaN -> Dashboard.barWidth p = NaN) /\
    (forall s : Q,
       Dashboard.sev p = Some (Num.fin s) ->
       exists w : Q,
         Dashboard.barWidth p = Num.fin w /\ 0 <= w <= 100 /\
         (0 <= s <= 100 -> w == s) /\ (s < 0 -> w == 0) /\ (100 < s -> w == 100)).
Proof.
  intro p. unfold Dashboard.barWidth.
  split; [intros ->; vm_compute; reflexivity|].
  split; [intros ->; reflexivity|].
  intros s ->. cbn [nullish Num.max Num.min Num.lift2 Num.fin].
  eexists. split; [reflexivity|].
  destruct (clamp_spec 0 100 s ltac:(lra)) as [[H1 ->] | [[H1 H2] | [H1 ->]]];
    try rewrite H2; (split; [lra|]); (split; [intro; lra|]);
    split; intro; lra.
Qed.

Lemma bar_width_range_witness :
  exists w : Q,
    Dashboard.barWidth
      (Dashboard.mkPage (Some 7%Z) (Dashboard.Literal EmptyString)
         (Some (Dashboard.mkResult (Some (Num.fin 140)) None)) true None None)
    = Num.fin w /\ 0 <= w <= 100 /\ (100 < 140 -> w == 100).
Proof.
  destruct (proj2 (proj2 (bar_width_range
              (Dashboard.mkPage (Some 7%Z) (Dashboard.Literal EmptyString)
                 (Some (Dashboard.mkResult (Some (Num.fin 140)) None))
                 true None None))) 140 eq_refl)
    as (w & Hw & Hr & _ & _ & Hhi).
  exists w. split; [exact Hw|]. split; [exact Hr | exact Hhi].
Defined.

(** Start Session sends exactly one request, the POST of the form.  Any
    reply whose body parses starts a session with the id it carries,
    whatever its ok flag, clears the result, and leaves no session when
    the id is missing; a throwing request or an unparsable body leaves the
    session and the result as they were and reports the error. *)
Theorem start_session_outcomes :
  forall (net : Dashboard.Net) (p : Dashboard.Page),
    let req := Dashboard.mkRequest Dashboard.POST
                 (Dashboard.backend ++ "/session/start")
                 (Dashboard.FormData [("metadata", "web-demo")%string]) in
    let p' := fst (Dashboard.startSession net p) in
    snd (Dashboard.startSession net p) = [req] /\
    Dashboard.lastLatency p' = Dashboard.lastLatency p /\
    Dashboard.lastAccuracy p' = Dashboard.lastAccuracy p /\
    Dashboard.useGaze p' = Dashboard.useGaze p /\
    (forall (ok : bool) (data : Dashboard.Json),
       net req = Dashboard.Response ok (Some data) ->
       Dashboard.sessionId p' = Dashboard.j_session_id data /\
       Dashboard.result p' = None /\
       Dashboard.message p' = Dashboard.SessionStarted (Dashboard.j_session_id data) /\
       Dashboard.computeScoreDisabled p'
       = negb (Dashboard.truthy_id (Dashboard.j_session_id data))) /\
    ((net req = Dashboard.Throws \/ exists ok, net req = Dashboard.Response ok None) ->
     Dashboard.sessionId p' = Dashboard.sessionId p /\
     Dashboard.result p' = Dashboard.result p /\
     Dashboard.message p' = Dashboard.Literal "Backend error starting session").
Proof.
  intros net p req p'. unfold p', Dashboard.startSession. fold req.
  destruct (net req) as [|ok [data|]] eqn:Hnet; cbn [fst snd];
    (split; [reflexivity|]); (split; [reflexivity|]); (split; [reflexivity|]);
    (split; [reflexivity|]); split.
  - intros ok data Hr. discriminate Hr.
  - intros _. repeat split.
  - intros ok' data' Hr. injection Hr as _ <-. repeat split.
  - intros [Hr | [ok' Hr]]; discriminate Hr.
  - intros ok' data' Hr. discriminate Hr.
  - intros _. repeat split.
Qed.

Lemma start_session_outcomes_witness :
  let p' := fst (Dashboard.startSession Scenario.netDown Scenario.page7) in
  Dashboard.sessionId p' = Dashboard.sessionId Scenario.page7 /\
  Dashboard.result p' = Dashboard.result Scenario.page7 /\
  Dashboard.message p' = Dashboard.Literal "Backend error starting session".
Proof.
  apply (proj2 (proj2 (proj2 (proj2 (proj2
           (start_session_outcomes Scenario.netDown Scenario.page7)))))).
  left. reflexivity.
Defined.

(** How a score reply is read.  The severity is the [severity] field, or
    else the [score] field.  The metrics are the [metrics] field when
    present; otherwise they are built from the three averages, but only
    when [avg_latency] is present: a reply with only [avg_drift] and
    [avg_accuracy] gives no metrics, and a reply with [avg_latency] alone
    gives metrics whose drift and accuracy are not numbers. *)
Theorem score_reply_fallbacks :
  forall data : Dashboard.Json,
    let r := Dashboard.parseScore data in
    (forall s, Dashboard.j_severity data = Some s -> Dashboard.severity r = Some s) /\
    (Dashboard.j_severity data = None ->
     Dashboard.severity r = Dashboard.j_score data) /\
    (forall m, Dashboard.j_metrics data = Some m -> Dashboard.metrics r = Some m) /\
    (Dashboard.j_metrics data = None ->
     (forall l, Dashboard.j_avg_latency data = Some l ->
        Dashboard.metrics r
        = Some (Dashboard.mkMetrics l
                  (nullish (Dashboard.j_avg_drift data) NaN)
                  (nullish (Dashboard.j_avg_accuracy data) NaN)) /\
        Dashboard.scoreMessage r
        = Dashboard.Summary
            (Dashboard.round l)
            (Dashboard.round (nullish (Dashboard.j_avg_drift data) NaN))
            (Dashboard.round (nullish (Dashboard.j_avg_accuracy data) NaN))) /\
     (Dashboard.j_avg_latency data = None ->
      Dashboard.metrics r = None /\
      Dashboard.scoreMessage r = Dashboard.Severity (Dashboard.severity r))).
Proof.
  intros data r. unfold r, Dashboard.parseScore, Dashboard.scoreMessage.
  cbn [Dashboard.severity Dashboard.metrics].
  split; [intros s ->; reflexivity|].
  split; [intros ->; reflexivity|].
  split; [intros m ->; reflexivity|].
  intros ->. split.
  - intros l ->. split; reflexivity.
  - intros ->. split; reflexivity.
Qed.

Lemma score_reply_fallbacks_witness :
  Dashboard.metrics
    (Dashboard.parseScore
       (Dashboard.mkJson None None None (Some (Num.fin 55)) None
                         None (Some (Num.fin 3)) (Some (Num.fin 4))))
  = None /\
  Dashboard.scoreMessage
    (Dashboard.parseScore
       (Dashboard.mkJson None None None (Some (Num.fin 55)) None
                         None (Some (Num.fin 3)) (Some (Num.fin 4))))
  = Dashboard.Severity (Some (Num.fin 55)).
Proof.
  destruct (score_reply_fallbacks
              (Dashboard.mkJson None None None (Some (Num.fin 55)) None
                                None (Some (Num.fin 3)) (Some (Num.fin 4))))
    as (_ & _ & _ & Hm).
  destruct (Hm eq_refl) as [_ Hnone].
  exact (Hnone eq_refl).
Defined.

(** Compute Score never touches the session id, the gaze toggle or the
    trial holders.  When the reply it ends up reading throws or does not
    parse, the previous result stays on display and only the message
    changes; when it parses, the result is replaced, also when that reply
    is a GET answer that is not ok. *)
Theorem compute_score_outcomes :
  forall (net : Dashboard.Net) (p : Dashboard.Page),
    let post := Dashboard.mkRequest Dashboard.POST
                  (Dashboard.scoreUrl (Dashboard.sessionId p)) Dashboard.NoBody in
    let get := Dashboard.mkRequest Dashboard.GET
                 (Dashboard.scoreUrl (Dashboard.sessionId p)) Dashboard.NoBody in
    let read := if Dashboard.succeeded (net post) then net post else net get in
    let p' := fst (Dashboard.computeScore net p) in
    (Dashboard.sessionId p' = Dashboard.sessionId p /\
     Dashboard.useGaze p' = Dashboard.useGaze p /\
     Dashboard.lastLatency p' = Dashboard.lastLatency p /\
     Dashboard.lastAccuracy p' = Dashboard.lastAccuracy p) /\
    (Dashboard.truthy_id (Dashboard.sessionId p) = true ->
     ((read = Dashboard.Throws \/ exists ok, read = Dashboard.Response ok None) ->
      Dashboard.result p' = Dashboard.result p /\
      Dashboard.message p' = Dashboard.Literal "Error computing score") /\
     (forall (ok : bool) (data : Dashboard.Json),
        read = Dashboard.Response ok (Some data) ->
        Dashboard.result p' = Some (Dashboard.parseScore data) /\
        Dashboard.message p' = Dashboard.scoreMessage (Dashboard.parseScore data))).
Proof.
  intros net p post get read p'.
  assert (Hfrom : forall r,
             Dashboard.sessionId (Dashboard.scoreFrom p r) = Dashboard.sessionId p /\
             Dashboard.useGaze (Dashboard.scoreFrom p r) = Dashboard.useGaze p /\
             Dashboard.lastLatency (Dashboard.scoreFrom p r) = Dashboard.lastLatency p /\
             Dashboard.lastAccuracy (Dashboard.scoreFrom p r) = Dashboard.lastAccuracy p).
  { intros [|ok [data|]]; repeat split. }
  assert (Hp' : Dashboard.truthy_id (Dashboard.sessionId p) = true ->
                p' = Dashboard.scoreFrom p read).
  { intro Hs. unfold p', read, Dashboard.computeScore. rewrite Hs. cbn [negb].
    fold post. fold get. destruct (Dashboard.succeeded (net post)); reflexivity. }
  split.
  - destruct (Dashboard.truthy_id (Dashboard.sessionId p)) eqn:Hs.
    + rewrite (Hp' eq_refl). apply Hfrom.
    + unfold p'. rewrite (no_session_score net p Hs). repeat split.
  - intro Hs. rewrite (Hp' Hs). split.
    + intros [-> | [ok ->]]; split; reflexivity.
    + intros ok data ->. split; reflexivity.
Qed.

Lemma compute_score_outcomes_witness :
  let p := Dashboard.mkPage (Some 7%Z) (Dashboard.Literal EmptyString)
             (Some (Dashboard.mkResult (Some (Num.fin 70)) None)) true None None in
  Dashboard.result (fst (Dashboard.computeScore Scenario.netDown p))
  = Dashboard.result p /\
  Dashboard.message (fst (Dashboard.computeScore Scenario.netDown p))
  = Dashboard.Literal "Error computing score".
Proof.
  intro p.
  apply (proj1 (proj2 (compute_score_outcomes Scenario.netDown p) eq_refl)).
  left. reflexivity.
Defined.
